(** * Slack user-token generator: the OAuth relay and its state store

    A shallow embedding of the two deployment variants of the relay:

    - [Server]: the long-running Express application, class
      [UserTokenGenerator] ([validateInput], the routes of [setupRoutes],
      [exchangeCodeForToken], [cleanupStates], [getSuccessPageWithToken],
      [getErrorPage], [start]);
    - [Serverless]: the per-request handler of [api/index.js]
      ([handler], [handleAuthStart], [handleAuthCallback]).

    Conventions of the embedding.

    - A JavaScript string is a [string] whose characters stand for UTF-16
      code units; the embedding covers the code units 0..255.
    - The pending-state [Map] is a [gmap] from state token to metadata.
    - [console.log]/[console.error] lines, outbound requests and the
      pending-state map are threaded through a state-and-exception monad;
      the callback of the server, which goes on after [res.send], also
      threads the response that has gone out.
    - A query parameter and a variable of the environment hold values that
      have a string conversion; a field of the provider's JSON body may
      also hold an object without one, on which a template literal throws.
    - What the handlers read from outside (the clock, the random state
      token, the provider's answer to the POST) is passed in as an argument.
    - The fixed markup of the HTML pages is abbreviated to its landmark
      elements, without attribute quotes and pictographs; every
      interpolation point of the templates is kept.  Console texts are kept
      without their pictographs too.
    - A handler runs from its first statement to its response without
      another request in between. *)

From Stdlib Require Import ZArith String Ascii.
From stdpp Require Import gmap strings list fin_maps.

Local Open Scope string_scope.
Local Open Scope Z_scope.

(** ** JavaScript values and strings *)

Module JS.

(** The values that have a string conversion: what a query parameter or
    a variable of the environment holds, and what a field of a parsed JSON
    body holds unless it is an object without a conversion (for those see
    [Slack.Field]).  [Num n] is the number that the integer literal [n]
    denotes.  [Other repr] is any remaining truthy value that is not a
    string (an array, an object, a non-integer number), with the text that
    [String(v)] gives for it. *)
Inductive value : Type :=
| Undefined
| Null
| Bool (b : bool)
| Num (n : Z)
| Str (s : string)
| Other (repr : string).

Definition is_empty (s : string) : bool :=
  match s with EmptyString => true | String _ _ => false end.

(** Truthiness, the reading of a value by [if (v)], [!v], [||] and [!!v]. *)
Definition truthy (v : value) : bool :=
  match v with
  | Undefined | Null => false
  | Bool b => b
  | Num n => negb (n =? 0)
  | Str s => negb (is_empty s)
  | Other _ => true
  end.

(** [a || b] *)
Definition or (a b : value) : value := if truthy a then a else b.

Fixpoint digits (fuel : nat) (n : Z) (acc : string) : string :=
  match fuel with
  | O => acc
  | S fuel' =>
      let acc' := String (ascii_of_nat (Z.to_nat (48 + n mod 10))) acc in
      if n / 10 =? 0 then acc' else digits fuel' (n / 10) acc'
  end.

(** The decimal digits of [n], for [0 <= n]. *)
Definition decimal (n : Z) : string := digits (S (Z.to_nat (Z.log2 n))) n EmptyString.

(** The digits without the zeros at their end. *)
Fixpoint strip_zeros (s : string) : string :=
  match s with
  | EmptyString => EmptyString
  | String c s' =>
      let r := strip_zeros s' in
      if is_empty r && Ascii.eqb c "0"%char then EmptyString else String c r
  end.

(** The exponent form [d.ddde+x] that numbers from [1e21] on print in. *)
Definition exponent_form (n : Z) : string :=
  let ds := decimal n in
  let exponent := decimal (Z.of_nat (String.length ds) - 1) in
  match strip_zeros ds with
  | EmptyString => "0"
  | String d EmptyString => String d ("e+" ++ exponent)
  | String d rest => String d ("." ++ rest ++ "e+" ++ exponent)
  end.

(** A number is a double: the number an integer literal [n >= 0] denotes
    is [n] rounded to 53 significant bits, a tie going to the even
    mantissa. *)
Definition nearest_double (n : Z) : Z :=
  let e := Z.log2 n + 1 - 53 in
  if e <=? 0 then n
  else
    let q := n / 2 ^ e in
    let r := n mod 2 ^ e in
    let half := 2 ^ (e - 1) in
    let q' := if (half <? r) || ((r =? half) && Z.odd q) then q + 1 else q in
    q' * 2 ^ e.

(** Does the integer [c] denote the number [d], for [d] from [2^53] on?
    The distance to [d] stays within half the gap to the next number on
    either side; four times the distances are compared, the gap below a
    power of two being half the gap above it. *)
Definition reads_as (d c : Z) : bool :=
  let e := Z.log2 d + 1 - 53 in
  let m := d / 2 ^ e in
  let up := 2 * 2 ^ e in
  let down := if m =? 2 ^ 52 then 2 ^ e else 2 * 2 ^ e in
  let diff := 4 * (c - d) in
  if Z.even m then (- down <=? diff) && (diff <=? up)
  else (- down <? diff) && (diff <? up).

(** The integer with the fewest significant digits that denotes [d]: the
    multiples of [10^j] next to [d] are tried for [j] going down; of two
    that fit the closer is taken, and of two equally close the even one. *)
Fixpoint shortest (fuel : nat) (d j : Z) : Z :=
  match fuel with
  | O => d
  | S fuel' =>
      let p := 10 ^ j in
      let below := d / p * p in
      let above := below + p in
      match reads_as d below, reads_as d above with
      | true, true =>
          if d - below <? above - d then below
          else if above - d <? d - below then above
          else if Z.even (below / p) then below else above
      | true, false => below
      | false, true => above
      | false, false => if j =? 0 then d else shortest fuel' d (j - 1)
      end
  end.

(** The integer whose digits are printed for the number of the literal
    [n >= 0]: the number itself below [2^53], where every integer is a
    number, and the shortest integer that denotes it from there on. *)
Definition printed (n : Z) : Z :=
  let d := nearest_double n in
  if d <? 2 ^ 53 then d
  else shortest 18 d (Z.of_nat (String.length (decimal d)) - 1).

(** [String(n)] for the number of the integer literal [n]: the digits
    below [1e21] in magnitude, the exponent form from there on, and
    [Infinity] beyond the largest number. *)
Definition num_to_string (n : Z) : string :=
  let d := nearest_double (Z.abs n) in
  let text :=
    if 2 ^ 1024 <=? d then "Infinity"
    else
      let v := printed (Z.abs n) in
      if v <? 1000000000000000000000 then decimal v else exponent_form v in
  if n <? 0 then "-" ++ text else text.

(** The text a template literal [`${v}`] inserts for a value that has a
    string conversion. *)
Definition to_string (v : value) : string :=
  match v with
  | Undefined => "undefined"
  | Null => "null"
  | Bool true => "true"
  | Bool false => "false"
  | Num n => num_to_string n
  | Str s => s
  | Other repr => repr
  end.

(** [typeof v === 'string'] *)
Definition is_string (v : value) : bool :=
  match v with Str _ => true | _ => false end.

(** An [Error] object: its constructor name and its message. *)
Record Error : Type := mkError { name : string; message : string }.

Definition error (msg : string) : Error := mkError "Error" msg.
Definition type_error (msg : string) : Error := mkError "TypeError" msg.

(** *** String.prototype operations used by the relay *)

(** White space and line terminators among the code units 0..255:
    TAB, LF, VT, FF, CR, SP and NBSP. *)
Definition is_space (c : ascii) : bool :=
  let n := nat_of_ascii c in
  ((9 <=? n)%nat && (n <=? 13)%nat) || (n =? 32)%nat || (n =? 160)%nat.

Fixpoint trimStart (s : string) : string :=
  match s with
  | EmptyString => EmptyString
  | String c s' => if is_space c then trimStart s' else s
  end.

Fixpoint trimEnd (s : string) : string :=
  match s with
  | EmptyString => EmptyString
  | String c s' =>
      let r := trimEnd s' in
      if is_empty r && is_space c then EmptyString else String c r
  end.

(** [s.trim()] *)
Definition trim (s : string) : string := trimEnd (trimStart s).

(** The first [n] code units of [s]. *)
Fixpoint slice0 (n : nat) (s : string) : string :=
  match n, s with
  | O, _ => EmptyString
  | _, EmptyString => EmptyString
  | S n', String c s' => String c (slice0 n' s')
  end.

(** [s.slice(0, n)] for an integer [n]: the first [n] code units, and for
    a negative [n] all but the last [-n]. *)
Definition slice (n : Z) (s : string) : string :=
  if n <? 0 then slice0 (String.length s - Z.to_nat (- n)) s
  else slice0 (Z.to_nat n) s.

(** [s.replace(re, '')] for a global single-character class [re],
    given as the predicate [drop]. *)
Fixpoint remove_all (drop : ascii -> bool) (s : string) : string :=
  match s with
  | EmptyString => EmptyString
  | String c s' =>
      if drop c then remove_all drop s' else String c (remove_all drop s')
  end.

(** [s.replace(/,/g, ', ')] *)
Fixpoint spread_commas (s : string) : string :=
  match s with
  | EmptyString => EmptyString
  | String c s' =>
      if Ascii.eqb c ","%char then String c (String " "%char (spread_commas s'))
      else String c (spread_commas s')
  end.

(** *** encodeURIComponent *)

Definition unreserved (c : ascii) : bool :=
  let n := nat_of_ascii c in
  (((65 <=? n) && (n <=? 90)) || ((97 <=? n) && (n <=? 122))
   || ((48 <=? n) && (n <=? 57))
   || (n =? 45) || (n =? 95) || (n =? 46) || (n =? 33) || (n =? 126)
   || (n =? 42) || (n =? 39) || (n =? 40) || (n =? 41))%nat.

Definition hex_digit (n : nat) : ascii :=
  if (n <? 10)%nat then ascii_of_nat (48 + n) else ascii_of_nat (55 + n).

Definition percent (byte : nat) : string :=
  String "%"%char
    (String (hex_digit (byte / 16)) (String (hex_digit (byte mod 16)) EmptyString)).

(** One code unit below 128 is one UTF-8 byte; one in 128..255 is two. *)
Definition encode_unit (c : ascii) : string :=
  let n := nat_of_ascii c in
  if unreserved c then String c EmptyString
  else if (n <? 128)%nat then percent n
  else percent (192 + n / 64) ++ percent (128 + n mod 64).

Fixpoint encodeURIComponent (s : string) : string :=
  match s with
  | EmptyString => EmptyString
  | String c s' => encode_unit c ++ encodeURIComponent s'
  end.

(** [sub] occurs in [s] *)
Definition occurs_in (sub s : string) : Prop :=
  exists pre post : string, s = pre ++ sub ++ post.

End JS.

(** ** The pending-state store *)

(** The metadata kept for one pending authorization:
    [{ user_id, user_name, timestamp }]. *)
Record StateData : Type := mkStateData {
  user_id : string;
  user_name : string;
  timestamp : Z
}.

(** ** What the provider sends back *)

Module Slack.

(** A field of the parsed JSON body: a value with a string conversion, or
    an object without one, such as the parsed text [{ toString: 1 }], whose
    [toString] is not callable.  Such an object is truthy, is no string, and
    [String(f)] or a template literal throws a [TypeError] on it; [shown] is
    the text [console.log] prints for it. *)
Inductive Field : Type :=
| Val (v : JS.value)
| Opaque (shown : string).

(** Truthiness of a field. *)
Definition truthy (f : Field) : bool :=
  match f with Val v => JS.truthy v | Opaque _ => true end.

(** [a || b] *)
Definition or (a b : Field) : Field := if truthy a then a else b.

(** [typeof f === 'string'] *)
Definition is_string (f : Field) : bool :=
  match f with Val v => JS.is_string v | Opaque _ => false end.

(** [String(f)]: [None] when the conversion throws. *)
Definition to_string (f : Field) : option string :=
  match f with Val v => Some (JS.to_string v) | Opaque _ => None end.

(** The text [console.log] prints for a field. *)
Definition inspect (f : Field) : string :=
  match f with Val v => JS.to_string v | Opaque shown => shown end.

Record AuthedUser : Type := mkAuthedUser {
  access_token : Field;
  id : Field;
  name : Field;
  scope : Field
}.

Record Team : Type := mkTeam { team_name : Field }.

(** The parsed JSON body.  [authed_user] and [team] are [None] when the
    field is absent or falsy; a body that is a number, a string or a
    boolean reads as an object without fields. *)
Record TokenData : Type := mkTokenData {
  ok : Field;
  error : Field;
  authed_user : option AuthedUser;
  team : option Team
}.

(** What [response.json()] gives: a rejection when the body does not
    parse, the value [null], or an object. *)
Inductive Json : Type :=
| JsonFails (e : JS.Error)
| JsonNull
| JsonData (d : TokenData).

Record HttpResponse : Type := mkHttpResponse {
  status : Z;
  statusText : string;
  text : string;
  json : Json
}.

(** [response.ok] *)
Definition response_ok (r : HttpResponse) : bool :=
  (200 <=? status r) && (status r <=? 299).

(** The outcome of one [fetch]: the promise rejects, or a response
    arrives. *)
Inductive FetchOutcome : Type :=
| Rejects (e : JS.Error)
| Responds (r : HttpResponse).

(** [tokenData?.authed_user?.f] *)
Definition authed (f : AuthedUser -> Field) (d : TokenData) : Field :=
  match authed_user d with Some u => f u | None => Val JS.Undefined end.

(** [tokenData?.team?.name] *)
Definition team_of (d : TokenData) : Field :=
  match team d with Some t => team_name t | None => Val JS.Undefined end.


End Slack.

Coercion Slack.Val : JS.value >-> Slack.Field.

(** ** Console lines and outbound requests *)

Inductive level : Type := LOG | ERROR.

(** One argument of a [console.log] call. *)
#[warnings="-register-all"]
Inductive arg : Type :=
| AStr (s : string)
| AVal (v : JS.value)
| AField (f : Slack.Field)
| ABool (b : bool)
| ANum (n : Z)
| AErr (e : JS.Error)
| AStack (e : JS.Error)
| AObj (fields : list (string * arg))
| AArr (items : list arg).

Definition line : Type := level * list arg.

(** The outbound [fetch(url, { method, headers, body })]. *)
Record Post : Type := mkPost {
  post_url : string;
  post_method : string;
  post_content_type : string;
  post_body : list (string * string)
}.

Definition Network : Type := Post -> Slack.FetchOutcome.

(** ** The HTTP response of a handler *)

(** [Redirect status location] is [res.redirect(location)], which goes out
    with the default status of the framework: 302 in Express, 307 in the
    serverless runtime.  [NoResponse] is a request that its handler has
    left without an answer. *)
Inductive Response : Type :=
| Send (status : Z) (body : string)
| SendJson (status : Z) (fields : list (string * string))
| Redirect (status : Z) (location : string)
| End (status : Z)
| NoResponse.

(** ** The effects of a handler *)

Record World : Type := mkWorld {
  pendingStates : gmap string StateData;
  console : list line;
  outbound : list Post
}.

Inductive Completion (A : Type) : Type :=
| Normal (a : A)
| Throw (e : JS.Error).
Arguments Normal {A} a.
Arguments Throw {A} e.

Definition M (A : Type) : Type := World -> Completion A * World.

#[global] Instance M_ret : MRet M := fun A a w => (Normal a, w).

#[global] Instance M_bind : MBind M := fun A B k m w =>
  match m w with
  | (Normal a, w') => k a w'
  | (Throw e, w') => (Throw e, w')
  end.

(** [throw e] *)
Definition throw {A : Type} (e : JS.Error) : M A := fun w => (Throw e, w).

(** [try { body } catch (e) { handler e }] *)
Definition try_catch {A : Type} (body : M A) (handler : JS.Error -> M A) : M A :=
  fun w =>
    match body w with
    | (Normal a, w') => (Normal a, w')
    | (Throw e, w') => handler e w'
    end.

Definition emit (l : level) (args : list arg) : M unit := fun w =>
  (Normal tt, mkWorld (pendingStates w) (console w ++ [(l, args)]) (outbound w)).

(** [console.log(...)] and [console.error(...)] *)
Definition console_log (args : list arg) : M unit := emit LOG args.
Definition console_error (args : list arg) : M unit := emit ERROR args.

(** [await fetch(...)]: the request leaves, then the promise settles. *)
Definition fetch (net : Network) (p : Post) : M Slack.HttpResponse := fun w =>
  let w' := mkWorld (pendingStates w) (console w) (outbound w ++ [p]) in
  match net p with
  | Slack.Rejects e => (Throw e, w')
  | Slack.Responds r => (Normal r, w')
  end.

(** The error of a string conversion that throws. *)
Definition conversion_error : JS.Error :=
  JS.type_error "Cannot convert object to primitive value".

(** [`${f}`], [String(f)] and [new Error(f)] on a field of the body: the
    text of the field, or the [TypeError] of the conversion. *)
Definition ToString (f : Slack.Field) : M string :=
  match Slack.to_string f with
  | Some s => mret s
  | None => throw conversion_error
  end.

(** The entry of a [Map] with string keys under [k]: a key that is not a
    string is equal to no stored key. *)
Definition lookup_state (k : JS.value) (m : gmap string StateData) : option StateData :=
  match k with JS.Str s => m !! s | _ => None end.

(** [pendingStates.get(k)] *)
Definition states_get (k : JS.value) : M (option StateData) := fun w =>
  (Normal (lookup_state k (pendingStates w)), w).

(** [pendingStates.set(k, d)] *)
Definition states_set (k : string) (d : StateData) : M unit := fun w =>
  (Normal tt, mkWorld (<[k := d]> (pendingStates w)) (console w) (outbound w)).

(** [pendingStates.delete(k)] *)
Definition states_delete (k : JS.value) : M unit := fun w =>
  (Normal tt,
   mkWorld (match k with JS.Str s => delete s (pendingStates w) | _ => pendingStates w end)
     (console w) (outbound w)).

(** [Array.from(pendingStates.keys())], read by one diagnostic line only;
    the keys come in the order of the [gmap], not in the order of insertion
    that the [Map] keeps. *)
Definition states_keys : M (list string) := fun w =>
  (Normal (map fst (map_to_list (pendingStates w))), w).

Definition arg_of_state (d : StateData) : arg :=
  AObj [("user_id", AStr (user_id d)); ("user_name", AStr (user_name d));
        ("timestamp", ANum (timestamp d))].

Definition arg_of_user (u : Slack.AuthedUser) : arg :=
  AObj [("access_token", AField (Slack.access_token u)); ("id", AField (Slack.id u));
        ("name", AField (Slack.name u)); ("scope", AField (Slack.scope u))].

Definition arg_of_data (d : Slack.TokenData) : arg :=
  AObj [("ok", AField (Slack.ok d)); ("error", AField (Slack.error d));
        ("authed_user",
          match Slack.authed_user d with Some u => arg_of_user u | None => AVal JS.Undefined end);
        ("team",
          match Slack.team d with
          | Some t => AObj [("name", AField (Slack.team_name t))]
          | None => AVal JS.Undefined
          end)].

(** ** The response object of the server

    A handler of the server answers by a call on [res].  The callback goes
    on after [res.send], so its handler runs in [H], which threads beside
    the world the response that has gone out, if any: a second [res.send]
    throws, for the headers cannot be set again, and leaves the first
    response as it is. *)

Definition H (A : Type) : Type :=
  option Response -> World -> Completion A * option Response * World.

#[global] Instance H_ret : MRet H := fun A a res w => (Normal a, res, w).

#[global] Instance H_bind : MBind H := fun A B k m res w =>
  match m res w with
  | (Normal a, res', w') => k a res' w'
  | (Throw e, res', w') => (Throw e, res', w')
  end.

(** A computation that does not touch [res]. *)
Definition lift {A : Type} (m : M A) : H A := fun res w =>
  match m w with (c, w') => (c, res, w') end.

(** [try { body } catch (e) { handler e }] around calls on [res] *)
Definition H_try_catch {A : Type} (body : H A) (handler : JS.Error -> H A) : H A :=
  fun res w =>
    match body res w with
    | (Normal a, res', w') => (Normal a, res', w')
    | (Throw e, res', w') => handler e res' w'
    end.

Definition headers_sent : JS.Error :=
  JS.error "Cannot set headers after they are sent to the client".

(** [res.send(body)] and [res.status(s).send(body)] *)
Definition res_send (r : Response) : H unit := fun res w =>
  match res with
  | None => (Normal tt, Some r, w)
  | Some _ => (Throw headers_sent, res, w)
  end.

(** What the client of a request receives from a handler in [H]: the
    response that went out.  What the handler does after it, a rejection
    of its promise included, shows in the world only. *)
Definition serve (handler : H unit) : M Response := fun w =>
  match handler None w with
  | (_, Some r, w') => (Normal r, w')
  | (Throw e, None, w') => (Throw e, w')
  | (Normal _, None, w') => (Normal NoResponse, w')
  end.

(** What a handler reads from its surroundings: [Date.now()], the text of
    [new Date().toLocaleString()] and of [new Date().toISOString()], and
    [crypto.randomBytes(16).toString('hex')]. *)
Record Ambient : Type := mkAmbient {
  now : Z;
  localeString : string;
  isoString : string;
  randomHex : string
}.

(** ** The standalone server: class [UserTokenGenerator] *)

Module Server.

(** [process.env] *)
Record Env : Type := mkEnv {
  PORT : option string;
  SLACK_CLIENT_ID : option string;
  SLACK_CLIENT_SECRET : option string;
  SLACK_REDIRECT_URI : option string
}.

Definition env_get (o : option string) : JS.value :=
  match o with Some s => JS.Str s | None => JS.Undefined end.

Record UserTokenGenerator : Type := mkGenerator {
  port : JS.value;
  clientId : JS.value;
  clientSecret : JS.value;
  redirectUri : JS.value
}.

(** The fields set by [constructor()]. *)
Definition constructor (env : Env) : UserTokenGenerator :=
  let port := JS.or (env_get (PORT env)) (JS.Num 3000) in
  mkGenerator port
    (env_get (SLACK_CLIENT_ID env))
    (env_get (SLACK_CLIENT_SECRET env))
    (JS.or (env_get (SLACK_REDIRECT_URI env))
       (JS.Str ("http://localhost:" ++ JS.to_string port ++ "/auth/callback"))).

(** [start()]: [false] is [process.exit(1)], [true] is the listening
    server. *)
Definition start (g : UserTokenGenerator) : bool :=
  if negb (JS.truthy (clientId g)) || negb (JS.truthy (clientSecret g)) then false
  else true.

(** The Express request: [req.url], [req.headers], [req.query]. *)
Record Request : Type := mkRequest {
  url : string;
  headers : list (string * string);
  query : gmap string JS.value
}.

(** [req.query.k] *)
Definition param (req : Request) (k : string) : JS.value :=
  default JS.Undefined (query req !! k).

Definition arg_of_query (q : gmap string JS.value) : arg :=
  AObj (map (fun kv => (fst kv, AVal (snd kv))) (map_to_list q)).

Definition arg_of_headers (h : list (string * string)) : arg :=
  AObj (map (fun kv => (fst kv, AStr (snd kv))) h).

(** The character class of the pattern: less-than, greater-than, double
    quote, single quote, ampersand. *)
Definition unsafe_char (c : ascii) : bool :=
  Ascii.eqb c "<"%char || Ascii.eqb c ">"%char || Ascii.eqb c "034"%char
  || Ascii.eqb c "'"%char || Ascii.eqb c "&"%char.

(** [validateInput(input, maxLength)] for an integer [maxLength] *)
Definition validateInput_max (input : JS.value) (maxLength : Z) : string :=
  if negb (JS.truthy input) || negb (JS.is_string input) then EmptyString
  else
    match input with
    | JS.Str s => JS.remove_all unsafe_char (JS.slice maxLength (JS.trim s))
    | _ => EmptyString
    end.

(** [validateInput(input, maxLength = 100)] *)
Definition validateInput (input : JS.value) : string := validateInput_max input 100.

Definition getHomePage : string :=
  "<!DOCTYPE html><html><head><title>Slack User Token Generator</title></head>"
  ++ "<body><form action=/auth/start method=get>"
  ++ "<input type=text id=user_id name=user_id maxlength=100>"
  ++ "<input type=text id=user_name name=user_name maxlength=100>"
  ++ "<button type=submit>Generate My Slack Token</button></form></body></html>".

Definition getErrorPage (errorMessage : string) : string :=
  "<!DOCTYPE html><html><head><title>Authorization Error</title></head><body>"
  ++ "<h1>Authorization Failed</h1><p>Something went wrong during token generation</p>"
  ++ "<div class=error-details><strong>Error Details:</strong><br>"
  ++ errorMessage
  ++ "</div><p>Please try again or contact your administrator if the problem persists.</p>"
  ++ "<a href=/ class=button>Try Again</a></body></html>".

Definition userScopes : string := "channels:read,groups:read,users:read".

Definition authUrl (clientId : JS.value) (scopes : string) (redirectUri : JS.value)
    (state : string) : string :=
  "https://slack.com/oauth/v2/authorize?"
  ++ "client_id=" ++ JS.to_string clientId ++ "&"
  ++ "user_scope=" ++ JS.encodeURIComponent scopes ++ "&"
  ++ "redirect_uri=" ++ JS.encodeURIComponent (JS.to_string redirectUri) ++ "&"
  ++ "state=" ++ state.

(** [GET /auth/start]; [res.redirect] of Express answers 302. *)
Definition auth_start (g : UserTokenGenerator) (amb : Ambient) (req : Request) : M Response :=
  console_log [AStr "OAuth start requested"];;
  console_log [AStr "Client ID:"; AVal (clientId g)];;
  console_log [AStr "Redirect URI:"; AVal (redirectUri g)];;
  let state := randomHex amb in
  let userId := validateInput (param req "user_id") in
  let userName := validateInput (param req "user_name") in
  states_set state (mkStateData userId userName (now amb));;
  let authUrl := authUrl (clientId g) userScopes (redirectUri g) state in
  console_log [AStr "Auth URL:"; AStr authUrl];;
  mret (Redirect 302 authUrl).

Definition present (v : JS.value) : arg :=
  AStr (if JS.truthy v then "Present" else "Missing").

Definition token_request (client_id client_secret code redirect_uri : JS.value) : Post :=
  mkPost "https://slack.com/api/oauth.v2.access" "POST"
    "application/x-www-form-urlencoded"
    [("client_id", JS.to_string client_id);
     ("client_secret", JS.to_string client_secret);
     ("code", JS.to_string code);
     ("redirect_uri", JS.to_string redirect_uri)].

(** [response.json()] followed by the first read of a field of the body. *)
Definition read_json (r : Slack.HttpResponse) : M Slack.TokenData :=
  match Slack.json r with
  | Slack.JsonFails e => throw e
  | Slack.JsonNull => throw (JS.type_error "Cannot read properties of null (reading 'ok')")
  | Slack.JsonData d => mret d
  end.

(** [exchangeCodeForToken(code)] *)
Definition exchangeCodeForToken (g : UserTokenGenerator) (net : Network) (code : JS.value)
    : M Slack.TokenData :=
  try_catch
    (console_log [AStr "Making token exchange request to Slack..."];;
     console_log [AStr "Request details:";
                  AObj [("clientId", present (clientId g));
                        ("clientSecret", present (clientSecret g));
                        ("code", present code);
                        ("redirectUri", AVal (redirectUri g))]];;
     response ← fetch net (token_request (clientId g) (clientSecret g) code (redirectUri g));
     console_log [AStr "Slack API response status:"; ANum (Slack.status response);
                  AStr (Slack.statusText response)];;
     (if negb (Slack.response_ok response) then
        console_error [AStr "HTTP error from Slack:"; ANum (Slack.status response);
                       AStr (Slack.statusText response)];;
        let errorText := Slack.text response in
        console_error [AStr "Response body:"; AStr errorText];;
        throw (JS.error ("HTTP error! status: " ++ JS.num_to_string (Slack.status response)
                         ++ " - " ++ errorText))
      else
        data ← read_json response;
        console_log [AStr "Slack response structure:";
                     AObj [("ok", AField (Slack.ok data));
                           ("hasAuthedUser",
                             ABool (bool_decide (is_Some (Slack.authed_user data))));
                           ("hasAccessToken",
                             ABool (Slack.truthy (Slack.authed Slack.access_token data)));
                           ("hasTeam", ABool (bool_decide (is_Some (Slack.team data))));
                           ("error", AField (Slack.error data))]];;
        if negb (Slack.truthy (Slack.ok data)) then
          console_error [AStr "Slack API error:"; AField (Slack.error data)];;
          console_error [AStr "Full error response:"; arg_of_data data];;
          error ← ToString (Slack.error data);
          throw (JS.error ("OAuth exchange failed: " ++ error))
        else
          console_log [AStr "Token exchange successful"];;
          mret data))
    (fun error =>
       console_error [AStr "Exchange code error:"; AErr error];;
       console_error [AStr "Error type:"; AStr "object"];;
       console_error [AStr "Error constructor:"; AStr (JS.name error)];;
       throw error).

(** The styled page returned by the [try] block of
    [getSuccessPageWithToken]; [scopes] is the text after
    [scopes.replace(/,/g, ', ')]. *)
Definition styled_page (userToken userName userId teamName scopes generated : string) : string :=
  "<!DOCTYPE html><html><head><title>Token Generated Successfully</title></head><body>"
  ++ "<h1>Your Slack Token is Ready!</h1><h3>Your Personal Access Token</h3>"
  ++ "<div class=token-display id=tokenDisplay>" ++ userToken ++ "</div>"
  ++ "<button class=copy-button>Copy Token to Clipboard</button>"
  ++ "<div class=info-item><strong>User:</strong>" ++ userName ++ "</div>"
  ++ "<div class=info-item><strong>User ID:</strong>" ++ userId ++ "</div>"
  ++ "<div class=info-item><strong>Team:</strong>" ++ teamName ++ "</div>"
  ++ "<div class=info-item><strong>Permissions:</strong>" ++ scopes ++ "</div>"
  ++ "<p>Generated: " ++ generated ++ "<br>"
  ++ "<small>Close this window once you've copied your token</small></p>"
  ++ "</body></html>".

(** The page returned by the [catch] block of [getSuccessPageWithToken]. *)
Definition fallback_page (token : string) : string :=
  "<!DOCTYPE html><html><head><title>Success</title></head><body>"
  ++ "<h1>Token Generated Successfully!</h1>"
  ++ "<p>Your token: <code>" ++ token ++ "</code></p>"
  ++ "<p>Please copy this token immediately and store it securely.</p>"
  ++ "</body></html>".

(** [scopes.replace(/,/g, ', ')]: only a string has the method. *)
Definition replace_commas (scopes : Slack.Field) : M string :=
  match scopes with
  | Slack.Val (JS.Str s) => mret (JS.spread_commas s)
  | _ => throw (JS.type_error "scopes.replace is not a function")
  end.

(** [getSuccessPageWithToken(tokenData, stateData)].  The template of the
    styled page converts its values in the order of the text: the token,
    the user name, the user id, the team name, then the scopes. *)
Definition getSuccessPageWithToken (amb : Ambient) (tokenData : Slack.TokenData)
    (stateData : StateData) : M string :=
  try_catch
    (console_log [AStr "Generating success page with token..."];;
     let userName :=
       Slack.or (Slack.authed Slack.name tokenData)
         (Slack.or (JS.Str (user_name stateData)) (JS.Str "Unknown User")) in
     let userId := Slack.or (Slack.authed Slack.id tokenData) (JS.Str "Unknown ID") in
     let teamName := Slack.or (Slack.team_of tokenData) (JS.Str "Unknown Team") in
     let scopes := Slack.or (Slack.authed Slack.scope tokenData) (JS.Str "No scopes") in
     let userToken :=
       Slack.or (Slack.authed Slack.access_token tokenData) (JS.Str "No token generated") in
     console_log [AStr "Success page data prepared (token hidden in logs)"];;
     token ← ToString userToken;
     name ← ToString userName;
     id ← ToString userId;
     team ← ToString teamName;
     spread ← replace_commas scopes;
     mret (styled_page token name id team spread (localeString amb)))
    (fun error =>
       console_error [AStr "Error generating success page:"; AErr error];;
       token ← ToString (Slack.or (Slack.authed Slack.access_token tokenData)
                           (JS.Str "Error displaying token"));
       mret (fallback_page token)).

(** The part of the callback that follows a validated state: the exchange,
    the check of the token data, the removal of the state and the success
    page. *)
Definition exchange_and_show (g : UserTokenGenerator) (net : Network) (amb : Ambient)
    (code state : JS.value) (stateData : StateData) : H unit :=
  lift (console_log [AStr "State validated:"; arg_of_state stateData]);;
  lift (console_log [AStr "Starting token exchange..."]);;
  tokenData ← lift (try_catch (exchangeCodeForToken g net code)
                      (fun err => console_error [AStr "Token exchange failed:"; AErr err];;
                                 throw err));
  lift (console_log [AStr "Token exchange completed"]);;
  lift (console_log [AStr "Checking token data..."]);;
  if negb (bool_decide (is_Some (Slack.authed_user tokenData)))
     || negb (Slack.truthy (Slack.authed Slack.access_token tokenData)) then
    lift (console_error [AStr "Invalid token data received:"; arg_of_data tokenData]);;
    lift (throw (JS.error "Invalid token data received from Slack"))
  else
    lift (console_log [AStr "Token data validated"]);;
    lift (states_delete state);;
    lift (console_log [AStr "State cleaned up"]);;
    lift (console_log [AStr "OAuth flow completed successfully - showing token to user"]);;
    H_try_catch
      (lift (console_log [AStr "Generating success page..."]);;
       successPage ← lift (getSuccessPageWithToken amb tokenData stateData);
       lift (console_log [AStr "Success page generated"]);;
       lift (console_log [AStr "Sending response to user..."]);;
       res_send (Send 200 successPage);;
       lift (console_log [AStr "Token displayed to user"]);;
       id ← lift (ToString (Slack.or (Slack.authed Slack.id tokenData) (JS.Str "Unknown")));
       name ← lift (ToString
                      (Slack.or (JS.Str (user_name stateData))
                         (Slack.or (Slack.authed Slack.name tokenData) (JS.Str "Unknown"))));
       lift (console_log [AStr ("Token generated for user: " ++ id ++ " (" ++ name ++ ")")]))
      (fun pageError =>
         lift (console_error [AStr "Error generating success page:"; AErr pageError]);;
         lift (console_error [AStr "Page error stack:"; AStack pageError]);;
         res_send
           (Send 500 "Success! Token generated, but error displaying page. Check server logs.")).

(** The handler of [GET /auth/callback].  A page sent without
    [res.status] goes out with status 200. *)
Definition auth_callback_handler (g : UserTokenGenerator) (net : Network) (amb : Ambient)
    (req : Request) : H unit :=
  lift (console_log [AStr "OAuth callback received"]);;
  lift (console_log [AStr "Query params:"; arg_of_query (query req)]);;
  lift (console_log [AStr "Request URL:"; AStr (url req)]);;
  lift (console_log [AStr "Request headers:"; arg_of_headers (headers req)]);;
  let code := param req "code" in
  let state := param req "state" in
  let error := param req "error" in
  H_try_catch
    (lift (console_log [AStr "Checking for OAuth errors..."]);;
     if JS.truthy error then
       lift (console_error [AStr "OAuth error from Slack:"; AVal error]);;
       res_send (Send 200 (getErrorPage ("OAuth Error: " ++ JS.to_string error)))
     else
       lift (console_log [AStr "Checking for code and state..."]);;
       if negb (JS.truthy code) || negb (JS.truthy state) then
         lift (console_error [AStr "Missing code or state:";
                              AObj [("code", ABool (JS.truthy code));
                                    ("state", ABool (JS.truthy state))]]);;
         res_send (Send 200 (getErrorPage "Missing authorization code or state"))
       else
         lift (console_log [AStr "Validating state..."]);;
         stateData ← lift (states_get state);
         match stateData with
         | None =>
             lift (console_error [AStr "Invalid state:"; AVal state]);;
             keys ← lift states_keys;
             lift (console_log [AStr "Available states:"; AArr (map AStr keys)]);;
             res_send (Send 200 (getErrorPage "Invalid or expired state parameter"))
         | Some stateData => exchange_and_show g net amb code state stateData
         end)
    (fun error =>
       lift (console_error [AStr "OAuth callback error:"; AErr error]);;
       lift (console_error [AStr "Error name:"; AStr (JS.name error)]);;
       lift (console_error [AStr "Error message:"; AStr (JS.message error)]);;
       lift (console_error [AStr "Error stack:"; AStack error]);;
       H_try_catch
         (res_send (Send 200 (getErrorPage ("Token exchange failed: " ++ JS.message error))))
         (fun responseError =>
            lift (console_error [AStr "Failed to send error page:"; AErr responseError]);;
            res_send (Send 500 "An error occurred during token generation."))).

(** [GET /auth/callback]: the response the client receives. *)
Definition auth_callback (g : UserTokenGenerator) (net : Network) (amb : Ambient)
    (req : Request) : M Response :=
  serve (auth_callback_handler g net amb req).

Definition tenMinutes : Z := 10 * 60 * 1000.

(** The body of the [for ... of this.pendingStates.entries()] loop, over
    the entries still to visit.  Deleting the entry being visited does not
    disturb the iteration over the others. *)
Fixpoint cleanup_loop (now : Z) (entries : list (string * StateData)) (cleaned : Z) : M Z :=
  match entries with
  | [] => mret cleaned
  | (state, data) :: rest =>
      if now - timestamp data >? tenMinutes then
        states_delete (JS.Str state);;
        cleanup_loop now rest (cleaned + 1)
      else cleanup_loop now rest cleaned
  end.

(** [cleanupStates()] *)
Definition cleanupStates (amb : Ambient) : M unit :=
  let now := now amb in
  entries ← (fun w => (Normal (map_to_list (pendingStates w)), w));
  cleaned ← cleanup_loop now entries 0;
  if cleaned >? 0 then
    console_log [AStr ("Cleaned up " ++ JS.num_to_string cleaned ++ " expired OAuth states")]
  else mret tt.

(** [GET /] *)
Definition home : M Response :=
  console_log [AStr "Home page requested"];;
  mret (Send 200 getHomePage).

(** [GET /health]; [uptime] is the text of [process.uptime()]. *)
Definition health (amb : Ambient) (uptime : string) : M Response :=
  try_catch
    (mret (SendJson 200 [("status", "ok"); ("timestamp", isoString amb);
                         ("uptime", uptime); ("mode", "direct-token-display")]))
    (fun error =>
       mret (SendJson 500 [("status", "error"); ("message", "Health check failed")])).

(** [GET /info] *)
Definition info : M Response :=
  mret (SendJson 200
          [("name", "Slack User Token Generator");
           ("mode", "Direct Token Display");
           ("description", "Generates user tokens and displays them directly to users");
           ("security", "No server-side token storage");
           ("version", "2.0.0")]).

End Server.

(** ** The serverless handler of [api/index.js]

    Line 120 of the file repeats the words [const userScopes =]; the
    declaration is read once. *)

Module Serverless.

(** [process.env] *)
Record Env : Type := mkEnv {
  SLACK_CLIENT_ID : option string;
  SLACK_CLIENT_SECRET : option string;
  SLACK_REDIRECT_URI : option string
}.

Definition env_get (o : option string) : JS.value :=
  match o with Some s => JS.Str s | None => JS.Undefined end.

(** A request whose URL parses: [req.method], and the [pathname] and
    [searchParams] of [new URL(req.url, ...)]. *)
Record Request : Type := mkRequest {
  method : string;
  pathname : string;
  searchParams : list (string * string)
}.

(** The request as it comes in: one whose URL parses, or one on which
    [new URL(req.url, ...)] throws, of which only the method is read. *)
Inductive Incoming : Type :=
| Parsed (req : Request)
| Unparsed (method : string).

Definition incoming_method (req : Incoming) : string :=
  match req with Parsed r => method r | Unparsed m => m end.

(** The error of [new URL] on a text that is no URL. *)
Definition invalid_url : JS.Error := JS.type_error "Invalid URL".

(** [new URL(req.url, `https://${req.headers.host}`)] *)
Definition new_URL (req : Incoming) : M Request :=
  match req with Parsed r => mret r | Unparsed _ => throw invalid_url end.

(** [searchParams.get(k)]: the first value of the name, or [null]. *)
Fixpoint get (params : list (string * string)) (k : string) : JS.value :=
  match params with
  | [] => JS.Null
  | (k', v) :: rest => if String.eqb k' k then JS.Str v else get rest k
  end.

Definition handleHomePage : M Response :=
  mret (Send 200
    ("<!DOCTYPE html><html><head><title>Slack User Token Generator</title></head>"
     ++ "<body><form action=/auth/start method=get>"
     ++ "<input type=text id=user_id name=user_id maxlength=100>"
     ++ "<input type=text id=user_name name=user_name maxlength=100>"
     ++ "<button type=submit>Generate My Slack Token</button></form></body></html>")).

Definition userScopes : string :=
  "channels:history,channels:read,channels:write,chat:write,groups:read,"
  ++ "groups:write,im:history,im:write,mpim:history,users:read,search:read".

Definition authUrl (clientId : JS.value) (scopes : string) (redirectUri : JS.value)
    (state : string) : string :=
  "https://slack.com/oauth/v2/authorize?"
  ++ "client_id=" ++ JS.to_string clientId ++ "&"
  ++ "user_scope=" ++ JS.encodeURIComponent scopes ++ "&"
  ++ "redirect_uri=" ++ JS.encodeURIComponent (JS.to_string redirectUri) ++ "&"
  ++ "state=" ++ state.

Definition configuration_error_page : string :=
  "<h1>Server Configuration Error</h1><p>Missing Slack credentials</p>".

(** [handleAuthStart(req, res, searchParams)]; [res.redirect] of the
    serverless runtime answers 307. *)
Definition handleAuthStart (env : Env) (amb : Ambient) (searchParams : list (string * string))
    : M Response :=
  let state := randomHex amb in
  let userId := JS.to_string (JS.or (get searchParams "user_id") (JS.Str EmptyString)) in
  let userName := JS.to_string (JS.or (get searchParams "user_name") (JS.Str EmptyString)) in
  states_set state (mkStateData userId userName (now amb));;
  let clientId := env_get (SLACK_CLIENT_ID env) in
  let redirectUri := env_get (SLACK_REDIRECT_URI env) in
  if negb (JS.truthy clientId) || negb (JS.truthy redirectUri) then
    mret (Send 500 configuration_error_page)
  else
    let authUrl := authUrl clientId userScopes redirectUri state in
    mret (Redirect 307 authUrl).

Definition oauth_error_page (error : string) : string :=
  "<h1>OAuth Error</h1><p>" ++ error ++ "</p><a href=/>Try Again</a>".

Definition missing_parameters_page : string :=
  "<h1>Missing Parameters</h1><p>Missing code or state</p><a href=/>Try Again</a>".

Definition invalid_state_page : string :=
  "<h1>Invalid State</h1><p>State expired or invalid</p><a href=/>Try Again</a>".

Definition exchange_failed_page (message : string) : string :=
  "<h1>Token Exchange Failed</h1><p>" ++ message ++ "</p><a href=/>Try Again</a>".

Definition successHtml (userToken userName teamName scopes generated : string) : string :=
  "<!DOCTYPE html><html><head><title>Token Generated Successfully</title></head><body>"
  ++ "<h1>Your Slack Token is Ready!</h1><h3>Your Personal Access Token</h3>"
  ++ "<div class=token-display id=tokenDisplay>" ++ userToken ++ "</div>"
  ++ "<button class=copy-button>Copy Token to Clipboard</button>"
  ++ "<p><strong>User:</strong> " ++ userName ++ "</p>"
  ++ "<p><strong>Team:</strong> " ++ teamName ++ "</p>"
  ++ "<p><strong>Permissions:</strong> " ++ scopes ++ "</p>"
  ++ "<p><strong>Generated:</strong> " ++ generated ++ "</p>"
  ++ "</body></html>".

Definition token_request (env : Env) (code : JS.value) : Post :=
  mkPost "https://slack.com/api/oauth.v2.access" "POST"
    "application/x-www-form-urlencoded"
    [("client_id", JS.to_string (env_get (SLACK_CLIENT_ID env)));
     ("client_secret", JS.to_string (env_get (SLACK_CLIENT_SECRET env)));
     ("code", JS.to_string code);
     ("redirect_uri", JS.to_string (env_get (SLACK_REDIRECT_URI env)))].

(** [await tokenResponse.json()] followed by the read of [tokenData.ok]. *)
Definition read_json (r : Slack.HttpResponse) : M Slack.TokenData :=
  match Slack.json r with
  | Slack.JsonFails e => throw e
  | Slack.JsonNull => throw (JS.type_error "Cannot read properties of null (reading 'ok')")
  | Slack.JsonData d => mret d
  end.

(** [scopes.replace(/,/g, ', ')]: only a string has the method. *)
Definition replace_commas (scopes : Slack.Field) : M string :=
  match scopes with
  | Slack.Val (JS.Str s) => mret (JS.spread_commas s)
  | _ => throw (JS.type_error "scopes.replace is not a function")
  end.

(** [handleAuthCallback(req, res, searchParams)].  The template of the
    page converts its values in the order of the text: the token, the user
    name, the team name, then the scopes. *)
Definition handleAuthCallback (env : Env) (net : Network) (amb : Ambient)
    (searchParams : list (string * string)) : M Response :=
  let code := get searchParams "code" in
  let state := get searchParams "state" in
  let error := get searchParams "error" in
  if JS.truthy error then mret (Send 400 (oauth_error_page (JS.to_string error)))
  else if negb (JS.truthy code) || negb (JS.truthy state) then
    mret (Send 400 missing_parameters_page)
  else
    stateData ← states_get state;
    match stateData with
    | None => mret (Send 400 invalid_state_page)
    | Some stateData =>
        try_catch
          (tokenResponse ← fetch net (token_request env code);
           tokenData ← read_json tokenResponse;
           if negb (Slack.truthy (Slack.ok tokenData)) then
             message ← ToString (Slack.or (Slack.error tokenData)
                                   (JS.Str "Token exchange failed"));
             throw (JS.error message)
           else
             states_delete state;;
             let userToken :=
               Slack.or (Slack.authed Slack.access_token tokenData)
                 (JS.Str "No token generated") in
             let userName :=
               Slack.or (Slack.authed Slack.name tokenData)
                 (Slack.or (JS.Str (user_name stateData)) (JS.Str "Unknown User")) in
             let teamName := Slack.or (Slack.team_of tokenData) (JS.Str "Unknown Team") in
             let scopes :=
               Slack.or (Slack.authed Slack.scope tokenData) (JS.Str "No scopes") in
             token ← ToString userToken;
             name ← ToString userName;
             team ← ToString teamName;
             spread ← replace_commas scopes;
             mret (Send 200 (successHtml token name team spread (localeString amb))))
          (fun error =>
             console_error [AStr "Token exchange error:"; AErr error];;
             mret (Send 500 (exchange_failed_page (JS.message error))))
    end.

(** [handler(req, res)].  [new URL] stands outside any [try]: when it
    throws, the promise of the handler rejects and nothing has been sent. *)
Definition handler (env : Env) (net : Network) (amb : Ambient) (req : Incoming) : M Response :=
  if String.eqb (incoming_method req) "OPTIONS" then mret (End 200)
  else
    url ← new_URL req;
    let pathname := pathname url in
    console_log [AStr "Request:"; AStr (incoming_method req); AStr pathname];;
    if String.eqb pathname "/" || String.eqb pathname "/api" || String.eqb pathname "/api/"
    then handleHomePage
    else if String.eqb pathname "/auth/start" || String.eqb pathname "/api/auth/start"
    then handleAuthStart env amb (searchParams url)
    else if String.eqb pathname "/auth/callback" || String.eqb pathname "/api/auth/callback"
    then handleAuthCallback env net amb (searchParams url)
    else if String.eqb pathname "/health" || String.eqb pathname "/api/health"
    then mret (SendJson 200 [("status", "ok"); ("timestamp", isoString amb);
                             ("environment", "vercel")])
    else mret (SendJson 404 [("error", "Not found"); ("path", pathname)]).

End Serverless.

Coercion Serverless.Parsed : Serverless.Request >-> Serverless.Incoming.

(** Running a handler on a world. *)
Definition response_of {A : Type} (r : Completion A * World) : Completion A := fst r.
Definition world_of {A : Type} (r : Completion A * World) : World := snd r.

(** ** Views of the handlers used in the statements *)

(** Is the entry older than ten minutes at the clock reading [now_ms]? *)
Definition expired (now_ms : Z) (d : StateData) : bool :=
  now_ms - timestamp d >? Server.tenMinutes.

(** Does the loop meet an expired entry under key [k]? *)
Definition meets_expired (now_ms : Z) (k : string) (entries : list (string * StateData)) : bool :=
  existsb (fun e => bool_decide (fst e = k) && expired now_ms (snd e)) entries.

(** What [exchangeCodeForToken] returns or throws for an outcome of its
    one [fetch]. *)
Definition exchange_result (o : Slack.FetchOutcome) : Completion Slack.TokenData :=
  match o with
  | Slack.Rejects e => Throw e
  | Slack.Responds r =>
      if Slack.response_ok r then
        match Slack.json r with
        | Slack.JsonFails e => Throw e
        | Slack.JsonNull =>
            Throw (JS.type_error "Cannot read properties of null (reading 'ok')")
        | Slack.JsonData d =>
            if Slack.truthy (Slack.ok d) then Normal d
            else
              match Slack.to_string (Slack.error d) with
              | Some error => Throw (JS.error ("OAuth exchange failed: " ++ error))
              | None => Throw conversion_error
              end
        end
      else Throw (JS.error ("HTTP error! status: " ++ JS.num_to_string (Slack.status r)
                            ++ " - " ++ Slack.text r))
  end.

(** The check of the token data made by the server's callback. *)
Definition token_valid (d : Slack.TokenData) : bool :=
  bool_decide (is_Some (Slack.authed_user d))
  && Slack.truthy (Slack.authed Slack.access_token d).

(** The styled page of the server, when it can be built: each of the four
    values has a string conversion and the scopes are a string. *)
Definition styled (amb : Ambient) (d : Slack.TokenData) (sd : StateData) : option string :=
  token ← Slack.to_string
            (Slack.or (Slack.authed Slack.access_token d) (JS.Str "No token generated"));
  name ← Slack.to_string
           (Slack.or (Slack.authed Slack.name d)
              (Slack.or (JS.Str (user_name sd)) (JS.Str "Unknown User")));
  id ← Slack.to_string (Slack.or (Slack.authed Slack.id d) (JS.Str "Unknown ID"));
  team ← Slack.to_string (Slack.or (Slack.team_of d) (JS.Str "Unknown Team"));
  match Slack.or (Slack.authed Slack.scope d) (JS.Str "No scopes") with
  | Slack.Val (JS.Str s) =>
      Some (Server.styled_page token name id team (JS.spread_commas s) (localeString amb))
  | _ => None
  end.

(** The page [getSuccessPageWithToken] returns: the styled one, or the
    fallback when the styled one cannot be built; [None] when the fallback
    cannot be built either, the token having no string conversion. *)
Definition success_page (amb : Ambient) (d : Slack.TokenData) (sd : StateData)
    : option string :=
  match styled amb d sd with
  | Some page => Some page
  | None =>
      Server.fallback_page
      <$> Slack.to_string (Slack.or (Slack.authed Slack.access_token d)
                             (JS.Str "Error displaying token"))
  end.

(** The text sent by the [catch (pageError)] block of the callback. *)
Definition page_error_text : string :=
  "Success! Token generated, but error displaying page. Check server logs.".

(** The response of the server's callback once the exchange has given
    valid token data [d]. *)
Definition success_response (amb : Ambient) (d : Slack.TokenData) (sd : StateData)
    : Response :=
  match success_page amb d sd with
  | Some page => Send 200 page
  | None => Send 500 page_error_text
  end.

(** The store after [pendingStates.delete(k)]. *)
Definition remove_state (k : JS.value) (m : gmap string StateData) : gmap string StateData :=
  match k with JS.Str s => delete s m | _ => m end.

(** What the exchange inlined in [handleAuthCallback] yields for an
    outcome of its one [fetch]; the HTTP status is not consulted. *)
Definition inline_exchange_result (o : Slack.FetchOutcome) : Completion Slack.TokenData :=
  match o with
  | Slack.Rejects e => Throw e
  | Slack.Responds r =>
      match Slack.json r with
      | Slack.JsonFails e => Throw e
      | Slack.JsonNull =>
          Throw (JS.type_error "Cannot read properties of null (reading 'ok')")
      | Slack.JsonData d =>
          if Slack.truthy (Slack.ok d) then Normal d
          else
            match Slack.to_string (Slack.or (Slack.error d)
                                     (JS.Str "Token exchange failed")) with
            | Some message => Throw (JS.error message)
            | None => Throw conversion_error
            end
      end
  end.

(** The three texts of the serverless page, when each has a string
    conversion: the token, the user name and the team name. *)
Definition inline_texts (d : Slack.TokenData) (sd : StateData)
    : option (string * string * string) :=
  token ← Slack.to_string
            (Slack.or (Slack.authed Slack.access_token d) (JS.Str "No token generated"));
  name ← Slack.to_string
           (Slack.or (Slack.authed Slack.name d)
              (Slack.or (JS.Str (user_name sd)) (JS.Str "Unknown User")));
  team ← Slack.to_string (Slack.or (Slack.team_of d) (JS.Str "Unknown Team"));
  Some (token, name, team).

(** The response of [handleAuthCallback] once the exchange has given [d]. *)
Definition inline_success (amb : Ambient) (d : Slack.TokenData) (sd : StateData) : Response :=
  match inline_texts d sd with
  | Some (token, name, team) =>
      match Slack.or (Slack.authed Slack.scope d) (JS.Str "No scopes") with
      | Slack.Val (JS.Str s) =>
          Send 200 (Serverless.successHtml token name team (JS.spread_commas s)
                      (localeString amb))
      | _ => Send 500 (Serverless.exchange_failed_page "scopes.replace is not a function")
      end
  | None => Send 500 (Serverless.exchange_failed_page (JS.message conversion_error))
  end.

(** The provider answers every POST with this status line, body text and
    parsed body. *)
Definition answers (status : Z) (statusText text : string) (d : Slack.TokenData) : Network :=
  fun _ => Slack.Responds (Slack.mkHttpResponse status statusText text (Slack.JsonData d)).

(** The code units of a string. *)
Definition chars (s : string) : list ascii := list_ascii_of_string s.

(** What the serverless handler stores for a parameter: its text, or the
    empty string when it is not there. *)
Definition as_received (params : list (string * string)) (k : string) : string :=
  match Serverless.get params k with JS.Str s => s | _ => EmptyString end.

(** Does [sub] occur in [s]?  The decidable form of [JS.occurs_in]. *)
Fixpoint contains (sub s : string) : bool :=
  String.prefix sub s
  || match s with
     | EmptyString => false
     | String _ s' => contains sub s'
     end.

(** Does the text [tok] occur in what a console argument prints?  Every
    string, value, number, error and key of the argument is searched. *)
Fixpoint arg_mentions (tok : string) (a : arg) : bool :=
  match a with
  | AStr s => contains tok s
  | AVal v => contains tok (JS.to_string v)
  | AField f => contains tok (Slack.inspect f)
  | ABool b => contains tok (if b then "true" else "false")
  | ANum n => contains tok (JS.num_to_string n)
  | AErr e | AStack e => contains tok (JS.name e) || contains tok (JS.message e)
  | AObj fields =>
      existsb (fun kv => contains tok (fst kv) || arg_mentions tok (snd kv)) fields
  | AArr items => existsb (arg_mentions tok) items
  end.

(** Does [tok] occur in some line of the console? *)
Definition logged (tok : string) (lines : list line) : bool :=
  existsb (fun l => existsb (arg_mentions tok) (snd l)) lines.

(** The line [cleanupStates] writes after removing [n] entries. *)
Definition cleaned_line (n : nat) : line :=
  (LOG, [AStr ("Cleaned up " ++ JS.num_to_string (Z.of_nat n) ++ " expired OAuth states")]).

(** A string that [validateInput] has nothing to do on: no white space at
    either end and none of the five characters. *)
Definition tidy (s : string) : Prop :=
  match s with String c _ => JS.is_space c = false | EmptyString => True end
  /\ match last (chars s) with Some c => JS.is_space c = false | None => True end
  /\ Forall (fun c => Server.unsafe_char c = false) (chars s).

(** The entries a sweep at the clock reading [now_ms] keeps. *)
Definition fresh_at (now_ms : Z) (kd : string * StateData) : Prop :=
  expired now_ms (snd kd) = false.

#[global] Instance fresh_at_dec (now_ms : Z) (kd : string * StateData) :
  Decision (fresh_at now_ms kd).
Proof. unfold fresh_at. apply _. Defined.

(** The same generator with another client secret. *)
Definition with_secret (secret : JS.value) (g : Server.UserTokenGenerator)
    : Server.UserTokenGenerator :=
  Server.mkGenerator (Server.port g) (Server.clientId g) secret (Server.redirectUri g).

(** The same environment with another [SLACK_CLIENT_SECRET]. *)
Definition with_env_secret (secret : option string) (env : Serverless.Env) : Serverless.Env :=
  Serverless.mkEnv (Serverless.SLACK_CLIENT_ID env) secret (Serverless.SLACK_REDIRECT_URI env).

(** A world without its list of outbound requests. *)
Definition visible (r : Completion Response * World)
    : Completion Response * gmap string StateData * list line :=
  (fst r, pendingStates (snd r), console (snd r)).

(** ** A concrete run used in examples *)

Module Scenario.

Definition token : string := "0123456789abcdef0123456789abcdef".

Definition amb : Ambient :=
  mkAmbient 1700000000000 "11/14/2023, 10:13:20 PM" "2023-11-14T22:13:20.000Z" token.

Definition empty : World := mkWorld ∅ [] [].

(** The provider answers [{ ok: false, error: 'invalid_code' }]. *)
Definition invalid_code : Network := fun _ =>
  Slack.Responds
    (Slack.mkHttpResponse 200 "OK" "{...}"
       (Slack.JsonData (Slack.mkTokenData (JS.Bool false) (JS.Str "invalid_code") None None))).

Definition granted_data : Slack.TokenData :=
  Slack.mkTokenData (JS.Bool true) JS.Undefined
    (Some (Slack.mkAuthedUser (JS.Str "xoxp-test") (JS.Str "U1") (JS.Str "Test")
             (JS.Str "a,b")))
    (Some (Slack.mkTeam (JS.Str "T"))).

(** The same grant with the scope sent as the array [['a', 'b']]. *)
Definition granted_data_array_scope : Slack.TokenData :=
  Slack.mkTokenData (JS.Bool true) JS.Undefined
    (Some (Slack.mkAuthedUser (JS.Str "xoxp-test") (JS.Str "U1") (JS.Str "Test")
             (JS.Other "a,b")))
    (Some (Slack.mkTeam (JS.Str "T"))).

(** The same grant with an access token that has no string conversion:
    the object [{ toString: 1 }]. *)
Definition granted_data_opaque_token : Slack.TokenData :=
  Slack.mkTokenData (JS.Bool true) JS.Undefined
    (Some (Slack.mkAuthedUser (Slack.Opaque "{ toString: 1 }") (JS.Str "U1") (JS.Str "Test")
             (JS.Str "a,b")))
    (Some (Slack.mkTeam (JS.Str "T"))).

(** The same grant with a user id that has no string conversion. *)
Definition granted_data_opaque_id : Slack.TokenData :=
  Slack.mkTokenData (JS.Bool true) JS.Undefined
    (Some (Slack.mkAuthedUser (JS.Str "xoxp-test") (Slack.Opaque "{ toString: 1 }")
             (JS.Str "Test") (JS.Str "a,b")))
    (Some (Slack.mkTeam (JS.Str "T"))).


(** The callback of a user who refused: [?error=access_denied]. *)
Definition denied_request : Server.Request :=
  Server.mkRequest "/auth/callback?error=access_denied" []
    {[ "error" := JS.Str "access_denied" ]}.

(** The provider is down: HTTP 503 with a body that is not JSON. *)
Definition unavailable : Network := fun _ =>
  Slack.Responds
    (Slack.mkHttpResponse 503 "Service Unavailable" "<html>Service Unavailable</html>"
       (Slack.JsonFails (JS.mkError "SyntaxError" "Unexpected token < in JSON at position 0"))).

(** A start request whose [user_name] is a padded piece of markup. *)
Definition markup_request : Server.Request :=
  Server.mkRequest "/auth/start?user_name=%20%20%3Cb%3EBob%3C%2Fb%3E%20%20" []
    {[ "user_name" := JS.Str "  <b>Bob</b>  " ]}.

(** The provider answers with a token, under the given HTTP status. *)
Definition granted (status : Z) : Network := fun _ =>
  Slack.Responds (Slack.mkHttpResponse status "" "{...}" (Slack.JsonData granted_data)).

Definition generator : Server.UserTokenGenerator :=
  Server.constructor (Server.mkEnv None (Some "cid") (Some "secret") None).

Definition start_request : Server.Request :=
  Server.mkRequest "/auth/start?user_id=u1" [] {[ "user_id" := JS.Str "u1" ]}.

Definition callback_request : Server.Request :=
  Server.mkRequest "/auth/callback?code=abc&state=0123456789abcdef0123456789abcdef" []
    {[ "code" := JS.Str "abc"; "state" := JS.Str token ]}.

(** The server's world once [GET /auth/start?user_id=u1] has been served. *)
Definition started : World :=
  world_of (Server.auth_start generator amb start_request empty).

Definition env : Serverless.Env :=
  Serverless.mkEnv (Some "cid") (Some "secret") (Some "https://relay.example/auth/callback").

Definition start_params : list (string * string) := [("user_id", "u1")].

Definition callback_params : list (string * string) := [("code", "abc"); ("state", token)].

(** The serverless store once [/auth/start?user_id=u1] has been served. *)
Definition started' : World :=
  world_of (Serverless.handleAuthStart env amb start_params empty).

End Scenario.

(** * Properties *)

(** Unfolding of the monad operations. *)
Ltac unfold_monad :=
  unfold Server.auth_callback, serve, mbind, H_bind, M_bind, mret, H_ret, M_ret,
    lift, H_try_catch, res_send, console_log, console_error, emit,
    states_set, states_delete, states_get, states_keys, ToString, throw, try_catch, fetch,
    response_of, world_of in *.

Ltac heavy_cbn :=
  cbn -[String.append Server.exchangeCodeForToken Server.getSuccessPageWithToken
        Server.getErrorPage success_page success_response exchange_result token_valid
        Slack.to_string] in *.

Ltac inline_cbn :=
  cbn -[String.append Serverless.successHtml Serverless.exchange_failed_page
        Slack.to_string].

Ltac page_cbn :=
  cbn -[String.append Server.styled_page Server.fallback_page Slack.to_string].

(** ** The model on small inputs *)

Example validateInput_markup :
  Server.validateInput (JS.Str "  <b>Tom & 'Jerry'</b>  ") = "bTom  Jerry/b".
Proof. reflexivity. Qed.

Example validateInput_double_quote :
  Server.validateInput (JS.Str (String "a" (String "034" "b"))) = "ab".
Proof. reflexivity. Qed.

Example validateInput_array : Server.validateInput (JS.Other "a,b") = EmptyString.
Proof. reflexivity. Qed.

(** The result can begin with white space again: the characters are
    removed after the trimming. *)
Example validateInput_inner_space : Server.validateInput (JS.Str "<  a") = "  a".
Proof. reflexivity. Qed.

Example trim_line_ends : JS.trim (String "009" (String "010" " a b ")) = "a b".
Proof. reflexivity. Qed.

Example slice_negative : JS.slice (-1) "abc" = "ab" /\ JS.slice 2 "abc" = "ab".
Proof. split; reflexivity. Qed.

(** Numbers print their digits below [1e21] and in exponent form from
    there on; beyond [2^53] not every integer is a number. *)
Example num_to_string_forms :
  JS.num_to_string 0 = "0"
  /\ JS.num_to_string (-15) = "-15"
  /\ JS.num_to_string 9007199254740993 = "9007199254740992"
  /\ JS.num_to_string 18446744073709551616 = "18446744073709552000"
  /\ JS.num_to_string 999999999999999999999 = "1e+21"
  /\ JS.num_to_string 1000000000000000000000 = "1e+21"
  /\ JS.num_to_string (-1500000000000000000000) = "-1.5e+21"
  /\ JS.num_to_string 12345678901234567890123 = "1.2345678901234568e+22".
Proof. vm_compute. repeat split; reflexivity. Qed.

(** A template literal on a field without a string conversion throws. *)
Example conversion_throws :
  response_of (ToString (Slack.Opaque "{ toString: 1 }") Scenario.empty)
  = Throw (JS.type_error "Cannot convert object to primitive value")
  /\ response_of (ToString (Slack.Val (JS.Other "a,b")) Scenario.empty) = Normal "a,b".
Proof. split; reflexivity. Qed.

(** A callback whose user id has no string conversion: the fallback page
    goes out with status 200; the line written after [res.send] throws, and
    the three [catch] blocks that follow find the response already sent. *)
Example response_already_sent :
  let run := Server.auth_callback Scenario.generator
               (answers 200 "OK" "{...}" Scenario.granted_data_opaque_id) Scenario.amb
               Scenario.callback_request Scenario.started in
  response_of run = Normal (Send 200 (Server.fallback_page "xoxp-test"))
  /\ last (console (world_of run))
     = Some (ERROR, [AStr "Failed to send error page:"; AErr headers_sent])
  /\ logged "xoxp-test" (console (world_of run)) = false.
Proof. vm_compute. repeat split; reflexivity. Qed.

Example encodeURIComponent_redirect :
  JS.encodeURIComponent "http://localhost:3000/auth/callback"
  = "http%3A%2F%2Flocalhost%3A3000%2Fauth%2Fcallback".
Proof. reflexivity. Qed.

Example encodeURIComponent_latin1 :
  JS.encodeURIComponent (String "233" EmptyString) = "%C3%A9".
Proof. reflexivity. Qed.

Example server_default_redirect :
  Server.redirectUri (Server.constructor (Server.mkEnv None (Some "cid") (Some "s") None))
  = JS.Str "http://localhost:3000/auth/callback".
Proof. reflexivity. Qed.

Example server_refuses_to_start :
  Server.start (Server.constructor (Server.mkEnv None None (Some "s") None)) = false.
Proof. reflexivity. Qed.

Example sweep_drops_the_old_entry :
  map_to_list
    (pendingStates
       (world_of (Server.cleanupStates (mkAmbient 1000000 EmptyString EmptyString EmptyString)
                    (mkWorld {[ "old" := mkStateData "a" "b" 399999;
                                "new" := mkStateData "c" "d" 400000 ]} [] []))))
  = [("new", mkStateData "c" "d" 400000)].
Proof. vm_compute. reflexivity. Qed.

(** The end-to-end run: a flow is started for [u1], the provider grants
    the token [xoxp-test], the callback arrives.  The page holds the token
    and no console line holds it; the lines do hold the id [U1]. *)
Example end_to_end_server :
  let run := Server.auth_callback Scenario.generator
               (answers 200 "OK" "{...}" Scenario.granted_data) Scenario.amb
               Scenario.callback_request Scenario.started in
  response_of run
  = Normal (Send 200 (Server.styled_page "xoxp-test" "Test" "U1" "T" "a, b"
                        "11/14/2023, 10:13:20 PM"))
  /\ contains "xoxp-test"
       (Server.styled_page "xoxp-test" "Test" "U1" "T" "a, b" "11/14/2023, 10:13:20 PM")
     = true
  /\ logged "xoxp-test" (console (world_of run)) = false
  /\ logged "U1" (console (world_of run)) = true
  /\ pendingStates (world_of run) = ∅.
Proof. vm_compute. repeat split; reflexivity. Qed.

Example end_to_end_serverless :
  let run := Serverless.handler Scenario.env
               (answers 200 "OK" "{...}" Scenario.granted_data) Scenario.amb
               (Serverless.mkRequest "GET" "/api/auth/callback" Scenario.callback_params)
               Scenario.started' in
  response_of run
  = Normal (Send 200 (Serverless.successHtml "xoxp-test" "Test" "T" "a, b"
                        "11/14/2023, 10:13:20 PM"))
  /\ logged "xoxp-test" (console (world_of run)) = false
  /\ pendingStates (world_of run) = ∅.
Proof. vm_compute. repeat split; reflexivity. Qed.

(** ** The sweep of the pending-state store *)

Section Sweep.

Variable now_ms : Z.

Lemma cleanup_loop_lookup (entries : list (string * StateData)) :
  forall (m : gmap string StateData) con out cleaned k,
    pendingStates
      (world_of (Server.cleanup_loop now_ms entries cleaned (mkWorld m con out))) !! k
    = if meets_expired now_ms k entries then None else m !! k.
Proof.
  induction entries as [|[s d] rest IH]; intros m con out cleaned k; [reflexivity|].
  cbn [Server.cleanup_loop meets_expired existsb fst snd].
  fold (meets_expired now_ms k rest). fold (expired now_ms d).
  destruct (expired now_ms d) eqn:Hd.
  - unfold mbind, M_bind, states_delete. cbn. rewrite IH. destruct (decide (s = k)) as [->|Hne].
    + rewrite bool_decide_eq_true_2 by done. cbn.
      rewrite lookup_delete_eq. by destruct (meets_expired now_ms k rest).
    + rewrite bool_decide_eq_false_2 by done. cbn.
      by rewrite lookup_delete_ne.
  - rewrite andb_false_r. cbn. apply IH.
Qed.

Lemma cleanup_loop_frame (entries : list (string * StateData)) :
  forall (w : World) cleaned,
    exists n,
      response_of (Server.cleanup_loop now_ms entries cleaned w) = Normal n
      /\ cleaned <= n
      /\ console (world_of (Server.cleanup_loop now_ms entries cleaned w)) = console w
      /\ outbound (world_of (Server.cleanup_loop now_ms entries cleaned w)) = outbound w.
Proof.
  induction entries as [|[s d] rest IH]; intros w cleaned.
  - exists cleaned. cbn. repeat split; lia.
  - cbn [Server.cleanup_loop]. destruct (_ >? _).
    + unfold mbind, M_bind, states_delete. cbn.
      destruct (IH (mkWorld (delete s (pendingStates w)) (console w) (outbound w))
                        (cleaned + 1)) as (n & Hn & Hle & Hc & Ho).
      exists n. repeat split; [exact Hn | lia | exact Hc | exact Ho].
    + apply IH.
Qed.

Lemma meets_expired_entries (m : gmap string StateData) (k : string) :
  meets_expired now_ms k (map_to_list m)
  = match m !! k with Some d => expired now_ms d | None => false end.
Proof.
  destruct (meets_expired now_ms k (map_to_list m)) eqn:Hex.
  - unfold meets_expired in Hex.
    apply existsb_exists in Hex as ([s d] & Hin & Hp). cbn in Hp.
    apply andb_prop in Hp as [Hk Hd]. apply bool_decide_eq_true in Hk. subst s.
    apply list_elem_of_In, elem_of_map_to_list in Hin. by rewrite Hin.
  - destruct (m !! k) as [d|] eqn:Hk; [|done].
    destruct (expired now_ms d) eqn:Hd; [|done].
    rewrite <- Hex. unfold meets_expired. apply existsb_exists. exists (k, d). split.
    + by apply list_elem_of_In, elem_of_map_to_list.
    + cbn. rewrite bool_decide_eq_true_2 by done. by rewrite Hd.
Qed.

End Sweep.

(** C5.  For every store and every clock reading, after [cleanupStates()]
    a key maps to nothing when it was absent or when its entry was older
    than ten minutes ([now - timestamp > 600000]); otherwise it maps to
    the very entry it had: exactly the expired entries are deleted and all
    others keep key and metadata.  The sweep itself completes normally and
    sends nothing. *)
Theorem cleanupStates_deletes_exactly_expired (amb : Ambient) (w : World) (k : string) :
  response_of (Server.cleanupStates amb w) = Normal tt
  /\ outbound (world_of (Server.cleanupStates amb w)) = outbound w
  /\ pendingStates (world_of (Server.cleanupStates amb w)) !! k
     = match pendingStates w !! k with
       | Some d => if now amb - timestamp d >? 600000 then None else Some d
       | None => None
       end.
Proof.
  unfold Server.cleanupStates.
  destruct (cleanup_loop_frame (now amb) (map_to_list (pendingStates w)) w 0)
    as (n & Hn & _ & Hc & Ho).
  pose proof (cleanup_loop_lookup (now amb) (map_to_list (pendingStates w))
                (pendingStates w) (console w) (outbound w) 0 k) as Hl.
  rewrite meets_expired_entries in Hl. unfold expired in Hl.
  change Server.tenMinutes with 600000 in Hl.
  destruct w as [m con out]. cbn in *.
  unfold mbind, M_bind. cbn.
  destruct (Server.cleanup_loop (now amb) (map_to_list m) 0 (mkWorld m con out))
    as [[c|e] w'] eqn:Hrun; cbn in *; [|discriminate].
  assert (Hgoal : pendingStates w' !! k
     = match m !! k with
       | Some d => if now amb - timestamp d >? 600000 then None else Some d
       | None => None
       end).
  { rewrite Hl. destruct (m !! k) as [d|]; [|done]. by destruct (_ >? _). }
  destruct (c >? 0); cbn; auto.
Qed.

(** ** The validation order of the callback *)

Section ServerCallback.

Variables (g : Server.UserTokenGenerator) (net : Network) (amb : Ambient).
Variables (req : Server.Request) (w : World).

Let code := Server.param req "code".
Let state := Server.param req "state".
Let error := Server.param req "error".
Let run := Server.auth_callback g net amb req w.

Lemma server_provider_error :
  JS.truthy error = true ->
  response_of run
  = Normal (Send 200 (Server.getErrorPage ("OAuth Error: " ++ JS.to_string error)))
  /\ outbound (world_of run) = outbound w
  /\ pendingStates (world_of run) = pendingStates w.
Proof.
  intros H. subst run. unfold Server.auth_callback, Server.auth_callback_handler.
  fold code state error.
  unfold_monad. cbn -[Server.getErrorPage]. rewrite H. cbn -[Server.getErrorPage]. auto.
Qed.

Lemma server_missing_parameters :
  JS.truthy error = false ->
  JS.truthy code && JS.truthy state = false ->
  response_of run
  = Normal (Send 200 (Server.getErrorPage "Missing authorization code or state"))
  /\ outbound (world_of run) = outbound w
  /\ pendingStates (world_of run) = pendingStates w.
Proof.
  intros H Hm. subst run. unfold Server.auth_callback, Server.auth_callback_handler.
  fold code state error. rewrite <- negb_andb, Hm.
  unfold_monad. cbn -[Server.getErrorPage]. rewrite H. cbn -[Server.getErrorPage]. auto.
Qed.

Lemma server_invalid_state :
  JS.truthy error = false ->
  JS.truthy code && JS.truthy state = true ->
  lookup_state state (pendingStates w) = None ->
  response_of run
  = Normal (Send 200 (Server.getErrorPage "Invalid or expired state parameter"))
  /\ outbound (world_of run) = outbound w
  /\ pendingStates (world_of run) = pendingStates w.
Proof.
  intros H Hm Hs. subst run. unfold Server.auth_callback, Server.auth_callback_handler.
  fold code state error. rewrite <- negb_andb, Hm.
  unfold_monad. cbn -[Server.getErrorPage]. rewrite H. cbn -[Server.getErrorPage].
  rewrite Hs. cbn -[Server.getErrorPage]. auto.
Qed.

End ServerCallback.

Section ServerlessCallback.

Variables (env : Serverless.Env) (net : Network) (amb : Ambient).
Variables (params : list (string * string)) (w : World).

Let code := Serverless.get params "code".
Let state := Serverless.get params "state".
Let error := Serverless.get params "error".
Let run := Serverless.handleAuthCallback env net amb params w.

Lemma serverless_provider_error :
  JS.truthy error = true ->
  run = (Normal (Send 400 (Serverless.oauth_error_page (JS.to_string error))), w).
Proof.
  intros H. subst run. unfold Serverless.handleAuthCallback. fold code state error.
  by rewrite H.
Qed.

Lemma serverless_missing_parameters :
  JS.truthy error = false ->
  JS.truthy code && JS.truthy state = false ->
  run = (Normal (Send 400 Serverless.missing_parameters_page), w).
Proof.
  intros H Hm. subst run. unfold Serverless.handleAuthCallback. fold code state error.
  by rewrite H, <- negb_andb, Hm.
Qed.

Lemma serverless_invalid_state :
  JS.truthy error = false ->
  JS.truthy code && JS.truthy state = true ->
  lookup_state state (pendingStates w) = None ->
  run = (Normal (Send 400 Serverless.invalid_state_page), w).
Proof.
  intros H Hm Hs. subst run. unfold Serverless.handleAuthCallback. fold code state error.
  rewrite H, <- negb_andb, Hm. unfold_monad. cbn -[Serverless.invalid_state_page].
  by rewrite Hs.
Qed.

End ServerlessCallback.

(** C2.  In both variants the callback validates in a fixed order and
    every failure ends the request: a provider [error] parameter that is
    present (a truthy value, as the handlers test it) gives the
    provider-error page; failing that, a missing (falsy) [code] or [state]
    gives the malformed-callback page; failing that, a [state] that is not
    in the store gives the invalid-state page.  In each of the three cases
    no request leaves for the token endpoint and the store is unchanged. *)
Theorem callback_validation_order :
  (forall g net amb req w,
     let code := Server.param req "code" in
     let state := Server.param req "state" in
     let error := Server.param req "error" in
     let run := Server.auth_callback g net amb req w in
     (JS.truthy error = true ->
      response_of run
      = Normal (Send 200 (Server.getErrorPage ("OAuth Error: " ++ JS.to_string error)))
      /\ outbound (world_of run) = outbound w)
     /\ (JS.truthy error = false -> JS.truthy code && JS.truthy state = false ->
         response_of run
         = Normal (Send 200 (Server.getErrorPage "Missing authorization code or state"))
         /\ outbound (world_of run) = outbound w)
     /\ (JS.truthy error = false -> JS.truthy code && JS.truthy state = true ->
         lookup_state state (pendingStates w) = None ->
         response_of run
         = Normal (Send 200 (Server.getErrorPage "Invalid or expired state parameter"))
         /\ outbound (world_of run) = outbound w))
  /\
  (forall env net amb params w,
     let code := Serverless.get params "code" in
     let state := Serverless.get params "state" in
     let error := Serverless.get params "error" in
     let run := Serverless.handleAuthCallback env net amb params w in
     (JS.truthy error = true ->
      response_of run = Normal (Send 400 (Serverless.oauth_error_page (JS.to_string error)))
      /\ outbound (world_of run) = outbound w)
     /\ (JS.truthy error = false -> JS.truthy code && JS.truthy state = false ->
         response_of run = Normal (Send 400 Serverless.missing_parameters_page)
         /\ outbound (world_of run) = outbound w)
     /\ (JS.truthy error = false -> JS.truthy code && JS.truthy state = true ->
         lookup_state state (pendingStates w) = None ->
         response_of run = Normal (Send 400 Serverless.invalid_state_page)
         /\ outbound (world_of run) = outbound w)).
Proof.
  split.
  - intros g net amb req w code state error run. repeat split.
    + by apply server_provider_error.
    + by apply server_provider_error.
    + by apply server_missing_parameters.
    + by apply server_missing_parameters.
    + by apply server_invalid_state.
    + by apply server_invalid_state.
  - intros env net amb params w code state error run.
    split; [|split].
    + intros H. subst run. unfold response_of, world_of.
      by rewrite serverless_provider_error.
    + intros H Hm. subst run. unfold response_of, world_of.
      by rewrite serverless_missing_parameters.
    + intros H Hm Hs. subst run. unfold response_of, world_of.
      by rewrite serverless_invalid_state.
Qed.

(** ** The exchange and what follows it *)

Lemma server_exchange_run (g : Server.UserTokenGenerator) (net : Network) (code : JS.value)
    (w : World) :
  let p := Server.token_request (Server.clientId g) (Server.clientSecret g) code
             (Server.redirectUri g) in
  let run := Server.exchangeCodeForToken g net code w in
  response_of run = exchange_result (net p)
  /\ outbound (world_of run) = (outbound w ++ [p])%list
  /\ pendingStates (world_of run) = pendingStates w.
Proof.
  intros p run. subst run. unfold Server.exchangeCodeForToken, exchange_result.
  unfold_monad. cbn -[String.append]. fold p.
  destruct (net p) as [e|r]; cbn -[String.append]; [auto|].
  destruct (Slack.response_ok r); cbn -[String.append]; [|auto].
  unfold Server.read_json.
  destruct (Slack.json r) as [e| |d]; unfold_monad; cbn -[String.append]; [auto|auto|].
  destruct (Slack.truthy (Slack.ok d)); cbn -[String.append]; [auto|].
  destruct (Slack.to_string (Slack.error d)); cbn -[String.append]; auto.
Qed.

Lemma getSuccessPageWithToken_run (amb : Ambient) (d : Slack.TokenData) (sd : StateData)
    (w : World) :
  let run := Server.getSuccessPageWithToken amb d sd w in
  response_of run
  = match success_page amb d sd with
    | Some page => Normal page
    | None => Throw conversion_error
    end
  /\ outbound (world_of run) = outbound w
  /\ pendingStates (world_of run) = pendingStates w.
Proof.
  intros run. subst run. unfold Server.getSuccessPageWithToken, success_page, styled.
  unfold Server.replace_commas. unfold_monad. page_cbn.
  destruct (Slack.to_string (Slack.or (Slack.authed Slack.access_token d)
                               (Slack.Val (JS.Str "Error displaying token")))) as [t'|];
    (destruct (Slack.to_string (Slack.or (Slack.authed Slack.access_token d)
                                  (Slack.Val (JS.Str "No token generated")))) as [t|];
     page_cbn; [|auto]);
    (destruct (Slack.to_string
                 (Slack.or (Slack.authed Slack.name d)
                    (Slack.or (Slack.Val (JS.Str (user_name sd)))
                       (Slack.Val (JS.Str "Unknown User"))))) as [n|];
     page_cbn; [|auto]);
    (destruct (Slack.to_string (Slack.or (Slack.authed Slack.id d)
                                  (Slack.Val (JS.Str "Unknown ID")))) as [i|];
     page_cbn; [|auto]);
    (destruct (Slack.to_string (Slack.or (Slack.team_of d)
                                  (Slack.Val (JS.Str "Unknown Team")))) as [tm|];
     page_cbn; [|auto]);
    destruct (Slack.or (Slack.authed Slack.scope d) (Slack.Val (JS.Str "No scopes")))
      as [[| | | |s|]|]; page_cbn; auto.
Qed.

Lemma exchange_and_show_run (g : Server.UserTokenGenerator) (net : Network) (amb : Ambient)
    (code state : JS.value) (sd : StateData) (w : World) :
  let p := Server.token_request (Server.clientId g) (Server.clientSecret g) code
             (Server.redirectUri g) in
  let run := Server.exchange_and_show g net amb code state sd None w in
  outbound (snd run) = (outbound w ++ [p])%list
  /\ match exchange_result (net p) with
     | Throw e => fst run = (Throw e, None)
                  /\ pendingStates (snd run) = pendingStates w
     | Normal d =>
         if token_valid d then
           snd (fst run) = Some (success_response amb d sd)
           /\ pendingStates (snd run) = remove_state state (pendingStates w)
         else
           fst run = (Throw (JS.error "Invalid token data received from Slack"), None)
           /\ pendingStates (snd run) = pendingStates w
     end.
Proof.
  intros p run. subst run p. unfold Server.exchange_and_show.
  unfold_monad. heavy_cbn.
  match goal with
  | |- context [Server.exchangeCodeForToken ?g ?n ?c ?W] =>
      pose proof (server_exchange_run g n c W) as (Hr & Ho & Hs);
      destruct (Server.exchangeCodeForToken g n c W) as [[d|e] w2]
  end; unfold_monad; heavy_cbn; rewrite <- Hr.
  - unfold token_valid.
    destruct (bool_decide (is_Some (Slack.authed_user d))); heavy_cbn.
    2:{ split; [exact Ho | split; [reflexivity | exact Hs]]. }
    destruct (Slack.truthy (Slack.authed Slack.access_token d)); heavy_cbn.
    2:{ split; [exact Ho | split; [reflexivity | exact Hs]]. }
    unfold success_response.
    match goal with
    | |- context [Server.getSuccessPageWithToken ?a ?d ?s ?W] =>
        pose proof (getSuccessPageWithToken_run a d s W) as (Hr' & Ho' & Hs');
        destruct (Server.getSuccessPageWithToken a d s W) as [[page|e'] w3]
    end; unfold_monad; heavy_cbn;
      destruct (success_page amb d sd) as [page'|]; try discriminate.
    + injection Hr' as ->.
      destruct (Slack.to_string (Slack.or (Slack.authed Slack.id d) _)); heavy_cbn;
        [destruct (Slack.to_string (Slack.or _ (Slack.or (Slack.authed Slack.name d) _)));
         heavy_cbn|];
        rewrite Ho', Hs', Ho, Hs; unfold remove_state; auto.
    + rewrite Ho', Hs', Ho, Hs. unfold remove_state. auto.
  - auto.
Qed.

Section ServerAccepted.

Variables (g : Server.UserTokenGenerator) (net : Network) (amb : Ambient).
Variables (req : Server.Request) (w : World) (sd : StateData).

Let code := Server.param req "code".
Let state := Server.param req "state".
Let error := Server.param req "error".
Let run := Server.auth_callback g net amb req w.
Let p := Server.token_request (Server.clientId g) (Server.clientSecret g) code
           (Server.redirectUri g).

Hypothesis no_error : JS.truthy error = false.
Hypothesis both : JS.truthy code && JS.truthy state = true.
Hypothesis found : lookup_state state (pendingStates w) = Some sd.

Lemma server_accepted :
  outbound (world_of run) = (outbound w ++ [p])%list
  /\ match exchange_result (net p) with
     | Throw e =>
         response_of run
         = Normal (Send 200 (Server.getErrorPage ("Token exchange failed: " ++ JS.message e)))
         /\ pendingStates (world_of run) = pendingStates w
     | Normal d =>
         if token_valid d then
           response_of run = Normal (success_response amb d sd)
           /\ pendingStates (world_of run) = remove_state state (pendingStates w)
         else
           response_of run
           = Normal (Send 200 (Server.getErrorPage
                                 "Token exchange failed: Invalid token data received from Slack"))
           /\ pendingStates (world_of run) = pendingStates w
     end.
Proof.
  subst run. unfold Server.auth_callback, Server.auth_callback_handler.
  fold code state error. rewrite <- negb_andb, both, no_error.
  unfold_monad. heavy_cbn. rewrite found. heavy_cbn.
  match goal with
  | |- context [Server.exchange_and_show ?g ?n ?a ?c ?s ?d None ?W] =>
      pose proof (exchange_and_show_run g n a c s d W) as (Ho & Hm);
      destruct (Server.exchange_and_show g n a c s d None W) as [[c' res] w2]
  end; fold code p in Ho, Hm; fold state in Hm; cbn [fst snd] in Ho, Hm.
  destruct (exchange_result (net p)) as [d|e].
  - destruct (token_valid d); destruct Hm as [Hres Hst].
    + subst res. destruct c' as [[]|e']; unfold_monad; heavy_cbn; auto.
    + injection Hres as -> ->. unfold_monad. heavy_cbn. auto.
  - destruct Hm as [Hres Hst]. injection Hres as -> ->. unfold_monad. heavy_cbn. auto.
Qed.

End ServerAccepted.

Section ServerlessAccepted.

Variables (env : Serverless.Env) (net : Network) (amb : Ambient).
Variables (params : list (string * string)) (w : World) (sd : StateData).

Let code := Serverless.get params "code".
Let state := Serverless.get params "state".
Let error := Serverless.get params "error".
Let run := Serverless.handleAuthCallback env net amb params w.
Let p := Serverless.token_request env code.

Hypothesis no_error : JS.truthy error = false.
Hypothesis both : JS.truthy code && JS.truthy state = true.
Hypothesis found : lookup_state state (pendingStates w) = Some sd.

Lemma serverless_accepted :
  outbound (world_of run) = (outbound w ++ [p])%list
  /\ match inline_exchange_result (net p) with
     | Throw e =>
         response_of run = Normal (Send 500 (Serverless.exchange_failed_page (JS.message e)))
         /\ pendingStates (world_of run) = pendingStates w
     | Normal d =>
         response_of run = Normal (inline_success amb d sd)
         /\ pendingStates (world_of run) = remove_state state (pendingStates w)
     end.
Proof.
  subst run. unfold Serverless.handleAuthCallback. fold code state error.
  rewrite no_error, <- negb_andb, both.
  unfold_monad. cbn -[String.append Serverless.successHtml Serverless.exchange_failed_page].
  rewrite found. fold p. unfold inline_exchange_result, inline_success.
  destruct (net p) as [e|r];
    cbn -[String.append Serverless.successHtml Serverless.exchange_failed_page]; [auto|].
  unfold Serverless.read_json.
  destruct (Slack.json r) as [e| |d]; unfold_monad;
    cbn -[String.append Serverless.successHtml Serverless.exchange_failed_page];
    [auto|auto|].
  destruct (Slack.truthy (Slack.ok d)); inline_cbn.
  2:{ destruct (Slack.to_string (Slack.or (Slack.error d) _)); inline_cbn; auto. }
  unfold Serverless.replace_commas, remove_state, inline_texts.
  (destruct (Slack.to_string (Slack.or (Slack.authed Slack.access_token d) _)) as [t|];
   inline_cbn; [|auto]);
    (destruct (Slack.to_string (Slack.or (Slack.authed Slack.name d) _)) as [n|];
     inline_cbn; [|auto]);
    (destruct (Slack.to_string (Slack.or (Slack.team_of d) _)) as [tm|];
     inline_cbn; [|auto]);
    destruct (Slack.or (Slack.authed Slack.scope d) (Slack.Val (JS.Str "No scopes")))
      as [[| | | |s|]|]; inline_cbn; auto.
Qed.

End ServerlessAccepted.

(** ** When the state leaves the store *)

Lemma lookup_remove_state (k : JS.value) (m : gmap string StateData) :
  lookup_state k (remove_state k m) = None.
Proof. destruct k; cbn; try reflexivity. apply lookup_delete_eq. Qed.

Section ServerReplay.

Variables (g : Server.UserTokenGenerator) (net : Network) (amb : Ambient).
Variables (req : Server.Request) (w : World) (sd : StateData).

Let code := Server.param req "code".
Let state := Server.param req "state".
Let error := Server.param req "error".
Let first := Server.auth_callback g net amb req w.
Let p := Server.token_request (Server.clientId g) (Server.clientSecret g) code
           (Server.redirectUri g).

Hypothesis no_error : JS.truthy error = false.
Hypothesis both : JS.truthy code && JS.truthy state = true.
Hypothesis found : lookup_state state (pendingStates w) = Some sd.

Lemma server_failure_keeps_state (e : JS.Error) :
  exchange_result (net p) = Throw e ->
  response_of first
  = Normal (Send 200 (Server.getErrorPage ("Token exchange failed: " ++ JS.message e)))
  /\ outbound (world_of first) = (outbound w ++ [p])%list
  /\ pendingStates (world_of first) = pendingStates w
  /\ forall net' amb',
       outbound (world_of (Server.auth_callback g net' amb' req (world_of first)))
       = (outbound w ++ [p] ++ [p])%list.
Proof.
  intros He. destruct (server_accepted g net amb req w sd no_error both found) as [Ho Hm].
  fold code p first in Ho, Hm. rewrite He in Hm. destruct Hm as [Hr Hs].
  repeat split; try assumption.
  intros net' amb'.
  assert (found' : lookup_state state (pendingStates (world_of first)) = Some sd)
    by (rewrite Hs; exact found).
  destruct (server_accepted g net' amb' req (world_of first) sd no_error both found')
    as [Ho' _].
  rewrite Ho', Ho. fold code p. by rewrite <- app_assoc.
Qed.

Lemma server_success_removes_state (d : Slack.TokenData) :
  exchange_result (net p) = Normal d ->
  token_valid d = true ->
  response_of first = Normal (success_response amb d sd)
  /\ outbound (world_of first) = (outbound w ++ [p])%list
  /\ pendingStates (world_of first) = remove_state state (pendingStates w)
  /\ forall net' amb',
       let second := Server.auth_callback g net' amb' req (world_of first) in
       response_of second
       = Normal (Send 200 (Server.getErrorPage "Invalid or expired state parameter"))
       /\ outbound (world_of second) = outbound (world_of first).
Proof.
  intros Hd Hv. destruct (server_accepted g net amb req w sd no_error both found) as [Ho Hm].
  fold code p first in Ho, Hm. rewrite Hd, Hv in Hm. destruct Hm as [Hr Hs].
  repeat split; try assumption.
  - apply server_invalid_state; try assumption.
    fold state. rewrite Hs. apply lookup_remove_state.
  - apply server_invalid_state; try assumption.
    fold state. rewrite Hs. apply lookup_remove_state.
Qed.

End ServerReplay.

Section ServerlessReplay.

Variables (env : Serverless.Env) (net : Network) (amb : Ambient).
Variables (params : list (string * string)) (w : World) (sd : StateData).

Let code := Serverless.get params "code".
Let state := Serverless.get params "state".
Let error := Serverless.get params "error".
Let first := Serverless.handleAuthCallback env net amb params w.
Let p := Serverless.token_request env code.

Hypothesis no_error : JS.truthy error = false.
Hypothesis both : JS.truthy code && JS.truthy state = true.
Hypothesis found : lookup_state state (pendingStates w) = Some sd.

Lemma serverless_failure_keeps_state (e : JS.Error) :
  inline_exchange_result (net p) = Throw e ->
  response_of first = Normal (Send 500 (Serverless.exchange_failed_page (JS.message e)))
  /\ outbound (world_of first) = (outbound w ++ [p])%list
  /\ pendingStates (world_of first) = pendingStates w
  /\ forall net' amb',
       outbound (world_of (Serverless.handleAuthCallback env net' amb' params (world_of first)))
       = (outbound w ++ [p] ++ [p])%list.
Proof.
  intros He.
  destruct (serverless_accepted env net amb params w sd no_error both found) as [Ho Hm].
  fold code p first in Ho, Hm. rewrite He in Hm. destruct Hm as [Hr Hs].
  repeat split; try assumption.
  intros net' amb'.
  assert (found' : lookup_state state (pendingStates (world_of first)) = Some sd)
    by (rewrite Hs; exact found).
  destruct (serverless_accepted env net' amb' params (world_of first) sd no_error both found')
    as [Ho' _].
  rewrite Ho', Ho. fold code p. by rewrite <- app_assoc.
Qed.

Lemma serverless_success_removes_state (d : Slack.TokenData) :
  inline_exchange_result (net p) = Normal d ->
  response_of first = Normal (inline_success amb d sd)
  /\ outbound (world_of first) = (outbound w ++ [p])%list
  /\ pendingStates (world_of first) = remove_state state (pendingStates w)
  /\ forall net' amb',
       Serverless.handleAuthCallback env net' amb' params (world_of first)
       = (Normal (Send 400 Serverless.invalid_state_page), world_of first).
Proof.
  intros Hd.
  destruct (serverless_accepted env net amb params w sd no_error both found) as [Ho Hm].
  fold code p first in Ho, Hm. rewrite Hd in Hm. destruct Hm as [Hr Hs].
  repeat split; try assumption.
  intros net' amb'. apply serverless_invalid_state; try assumption.
  fold state. rewrite Hs. apply lookup_remove_state.
Qed.

End ServerlessReplay.

(** C1, at a concrete run.  The state is minted by the start of a flow; a
    first callback meets the provider's [invalid_code]; the same callback is
    sent again.  In both variants the entry is still stored after the
    failure, the second callback is answered with the exchange-failure page
    and not with the invalid-state page, and a second POST has left. *)
Lemma replay_after_failure_reaches_exchange :
  let w2 := world_of (Server.auth_callback Scenario.generator Scenario.invalid_code
                        Scenario.amb Scenario.callback_request Scenario.started) in
  let second := Server.auth_callback Scenario.generator Scenario.invalid_code
                  Scenario.amb Scenario.callback_request w2 in
  let w2' := world_of (Serverless.handleAuthCallback Scenario.env Scenario.invalid_code
                         Scenario.amb Scenario.callback_params Scenario.started') in
  let second' := Serverless.handleAuthCallback Scenario.env Scenario.invalid_code
                   Scenario.amb Scenario.callback_params w2' in
  (pendingStates w2 !! Scenario.token = Some (mkStateData "u1" "" 1700000000000)
   /\ response_of second
      = Normal (Send 200 (Server.getErrorPage
                            "Token exchange failed: OAuth exchange failed: invalid_code"))
   /\ response_of second
      <> Normal (Send 200 (Server.getErrorPage "Invalid or expired state parameter"))
   /\ length (outbound w2) = 1%nat
   /\ length (outbound (world_of second)) = 2%nat)
  /\
  (pendingStates w2' !! Scenario.token = Some (mkStateData "u1" "" 1700000000000)
   /\ response_of second' = Normal (Send 500 (Serverless.exchange_failed_page "invalid_code"))
   /\ response_of second' <> Normal (Send 400 Serverless.invalid_state_page)
   /\ length (outbound w2') = 1%nat
   /\ length (outbound (world_of second')) = 2%nat).
Proof. vm_compute. repeat split; try reflexivity; discriminate. Qed.

(** C1, as the code has it.  In both variants the callback looks the state
    up without deleting it and deletes the entry only after the exchange has
    succeeded (in the server: and the token data passed its check).  When
    the exchange fails the store is unchanged, so a second callback with the
    same state sends a second POST; when it succeeds the entry is gone, and a
    second callback with the same state gets the invalid-state page without
    any POST. *)
Theorem state_deleted_only_after_successful_exchange :
  (forall g net amb req w sd,
     let code := Server.param req "code" in
     let state := Server.param req "state" in
     let first := Server.auth_callback g net amb req w in
     let p := Server.token_request (Server.clientId g) (Server.clientSecret g) code
                (Server.redirectUri g) in
     JS.truthy (Server.param req "error") = false ->
     JS.truthy code && JS.truthy state = true ->
     lookup_state state (pendingStates w) = Some sd ->
     outbound (world_of first) = (outbound w ++ [p])%list
     /\ (forall e, exchange_result (net p) = Throw e ->
           pendingStates (world_of first) = pendingStates w
           /\ forall net' amb',
                outbound (world_of (Server.auth_callback g net' amb' req (world_of first)))
                = (outbound w ++ [p] ++ [p])%list)
     /\ (forall d, exchange_result (net p) = Normal d -> token_valid d = true ->
           pendingStates (world_of first) = remove_state state (pendingStates w)
           /\ forall net' amb',
                let second := Server.auth_callback g net' amb' req (world_of first) in
                response_of second
                = Normal (Send 200 (Server.getErrorPage "Invalid or expired state parameter"))
                /\ outbound (world_of second) = outbound (world_of first)))
  /\
  (forall env net amb params w sd,
     let code := Serverless.get params "code" in
     let state := Serverless.get params "state" in
     let first := Serverless.handleAuthCallback env net amb params w in
     let p := Serverless.token_request env code in
     JS.truthy (Serverless.get params "error") = false ->
     JS.truthy code && JS.truthy state = true ->
     lookup_state state (pendingStates w) = Some sd ->
     outbound (world_of first) = (outbound w ++ [p])%list
     /\ (forall e, inline_exchange_result (net p) = Throw e ->
           pendingStates (world_of first) = pendingStates w
           /\ forall net' amb',
                outbound (world_of (Serverless.handleAuthCallback env net' amb' params
                                      (world_of first)))
                = (outbound w ++ [p] ++ [p])%list)
     /\ (forall d, inline_exchange_result (net p) = Normal d ->
           pendingStates (world_of first) = remove_state state (pendingStates w)
           /\ forall net' amb',
                Serverless.handleAuthCallback env net' amb' params (world_of first)
                = (Normal (Send 400 Serverless.invalid_state_page), world_of first))).
Proof.
  split.
  - intros g net amb req w sd code state first p He Hb Hf.
    split; [apply (server_accepted g net amb req w sd He Hb Hf)|]. split.
    + intros e Hx.
      destruct (server_failure_keeps_state g net amb req w sd He Hb Hf e Hx)
        as (_ & _ & Hs & H2). auto.
    + intros d Hx Hv.
      destruct (server_success_removes_state g net amb req w sd He Hb Hf d Hx Hv)
        as (_ & _ & Hs & H2). auto.
  - intros env net amb params w sd code state first p He Hb Hf.
    split; [apply (serverless_accepted env net amb params w sd He Hb Hf)|]. split.
    + intros e Hx.
      destruct (serverless_failure_keeps_state env net amb params w sd He Hb Hf e Hx)
        as (_ & _ & Hs & H2). auto.
    + intros d Hx.
      destruct (serverless_success_removes_state env net amb params w sd He Hb Hf d Hx)
        as (_ & _ & Hs & H2). auto.
Qed.

Lemma state_deleted_only_after_successful_exchange_witness :
  let first := Server.auth_callback Scenario.generator Scenario.invalid_code Scenario.amb
                 Scenario.callback_request Scenario.started in
  let first' := Serverless.handleAuthCallback Scenario.env (Scenario.granted 200)
                  Scenario.amb Scenario.callback_params Scenario.started' in
  pendingStates (world_of first) = pendingStates Scenario.started
  /\ pendingStates (world_of first')
     = remove_state (JS.Str Scenario.token) (pendingStates Scenario.started').
Proof.
  split.
  - refine (proj1 (proj1 (proj2 (proj1 state_deleted_only_after_successful_exchange
      Scenario.generator Scenario.invalid_code Scenario.amb Scenario.callback_request
      Scenario.started (mkStateData "u1" "" 1700000000000) _ _ _)) _ _)).
    all: reflexivity.
  - refine (proj1 (proj2 (proj2 (proj2 state_deleted_only_after_successful_exchange
      Scenario.env (Scenario.granted 200) Scenario.amb Scenario.callback_params
      Scenario.started' (mkStateData "u1" "" 1700000000000) _ _ _)) Scenario.granted_data _)).
    all: reflexivity.
Defined.

(** ** The token: shown, not logged *)

Lemma styled_page_shows_token (t n i tm sc gen : string) :
  JS.occurs_in t (Server.styled_page t n i tm sc gen).
Proof.
  exists ("<!DOCTYPE html><html><head><title>Token Generated Successfully</title></head><body>"
          ++ "<h1>Your Slack Token is Ready!</h1><h3>Your Personal Access Token</h3>"
          ++ "<div class=token-display id=tokenDisplay>").
  eexists. reflexivity.
Qed.

Lemma fallback_page_shows_token (t : string) : JS.occurs_in t (Server.fallback_page t).
Proof.
  exists ("<!DOCTYPE html><html><head><title>Success</title></head><body>"
          ++ "<h1>Token Generated Successfully!</h1>"
          ++ "<p>Your token: <code>").
  eexists. reflexivity.
Qed.

Lemma successHtml_shows_token (t n tm sc gen : string) :
  JS.occurs_in t (Serverless.successHtml t n tm sc gen).
Proof.
  exists ("<!DOCTYPE html><html><head><title>Token Generated Successfully</title></head><body>"
          ++ "<h1>Your Slack Token is Ready!</h1><h3>Your Personal Access Token</h3>"
          ++ "<div class=token-display id=tokenDisplay>").
  eexists. reflexivity.
Qed.



Ltac console_cbn :=
  cbn -[String.append Server.getErrorPage Server.styled_page Server.fallback_page
        Serverless.successHtml Serverless.exchange_failed_page
        Slack.to_string Slack.or].

Ltac unfold_goal :=
  unfold mbind, H_bind, M_bind, mret, H_ret, M_ret,
    lift, H_try_catch, res_send, console_log, console_error, emit, ToString, throw, try_catch.

(** Case analysis on every string conversion left in the goal. *)
Ltac split_conversions :=
  repeat (match goal with
          | |- context [Slack.to_string ?f] => destruct (Slack.to_string f)
          | |- context [match Slack.or ?a ?b with _ => _ end] =>
              destruct (Slack.or a b) as [[| | | |?|]|]
          end; unfold_goal; console_cbn).









(** ** The token exchange *)

(** C4, at two concrete runs of the serverless handler, each set beside
    [exchangeCodeForToken] of the server on the same answer.  First the
    provider answers the POST with HTTP status 500 and a body that parses to
    an object with [ok: true] and a token: the inlined exchange does not
    fail and the handler answers 200 with the token page, where
    [exchangeCodeForToken] throws the HTTP error.  Then the provider answers
    503 with a body that is not JSON: the handler's failure page carries the
    parser's message and neither the status nor the body, where
    [exchangeCodeForToken] throws an error carrying both. *)
Lemma serverless_exchange_ignores_http_status :
  (Slack.response_ok
     (Slack.mkHttpResponse 500 "" "{...}" (Slack.JsonData Scenario.granted_data)) = false
   /\ response_of (Serverless.handleAuthCallback Scenario.env (Scenario.granted 500)
                     Scenario.amb Scenario.callback_params Scenario.started')
      = Normal (Send 200 (Serverless.successHtml "xoxp-test" "Test" "T" "a, b"
                            "11/14/2023, 10:13:20 PM"))
   /\ response_of (Server.exchangeCodeForToken Scenario.generator (Scenario.granted 500)
                     (JS.Str "abc") Scenario.started)
      = Throw (JS.error "HTTP error! status: 500 - {...}"))
  /\
  (response_of (Serverless.handleAuthCallback Scenario.env Scenario.unavailable
                  Scenario.amb Scenario.callback_params Scenario.started')
   = Normal (Send 500 (Serverless.exchange_failed_page
                         "Unexpected token < in JSON at position 0"))
   /\ response_of (Server.exchangeCodeForToken Scenario.generator Scenario.unavailable
                     (JS.Str "abc") Scenario.started)
      = Throw (JS.error "HTTP error! status: 503 - <html>Service Unavailable</html>")).
Proof. vm_compute. repeat split; reflexivity. Qed.

(** X15.  The exchange in both variants.  Every invocation of the exchange sends
    exactly one POST and never a second one.  In the server,
    [exchangeCodeForToken] throws an error whose message carries the status
    and the body text when the HTTP status is not a success; when [ok] is
    falsy it throws an error whose message carries the text of the
    provider's [error], or the [TypeError] of the conversion when the
    [error] has no text; otherwise it returns the parsed body.  In the
    serverless handler the inlined exchange does not look at the HTTP
    status: with a falsy [ok] it answers with the failure page carrying the
    text of the provider's [error] (or the message of the [TypeError]), and
    with a truthy [ok] it goes on with the parsed body whatever the status
    was. *)
Theorem exchange_posts_once_and_reports_failure :
  (forall g net code w,
     let p := Server.token_request (Server.clientId g) (Server.clientSecret g) code
                (Server.redirectUri g) in
     let run := Server.exchangeCodeForToken g net code w in
     outbound (world_of run) = (outbound w ++ [p])%list
     /\ (forall r, net p = Slack.Responds r -> Slack.response_ok r = false ->
           response_of run
           = Throw (JS.error ("HTTP error! status: " ++ JS.num_to_string (Slack.status r)
                              ++ " - " ++ Slack.text r)))
     /\ (forall r d, net p = Slack.Responds r -> Slack.response_ok r = true ->
           Slack.json r = Slack.JsonData d ->
           (Slack.truthy (Slack.ok d) = false ->
            (forall error, Slack.to_string (Slack.error d) = Some error ->
               response_of run = Throw (JS.error ("OAuth exchange failed: " ++ error)))
            /\ (Slack.to_string (Slack.error d) = None ->
                response_of run = Throw conversion_error))
           /\ (Slack.truthy (Slack.ok d) = true -> response_of run = Normal d)))
  /\
  (forall env net amb params w sd,
     let code := Serverless.get params "code" in
     let state := Serverless.get params "state" in
     let p := Serverless.token_request env code in
     let run := Serverless.handleAuthCallback env net amb params w in
     JS.truthy (Serverless.get params "error") = false ->
     JS.truthy code && JS.truthy state = true ->
     lookup_state state (pendingStates w) = Some sd ->
     outbound (world_of run) = (outbound w ++ [p])%list
     /\ (forall r d, net p = Slack.Responds r -> Slack.json r = Slack.JsonData d ->
           (Slack.truthy (Slack.ok d) = false ->
            let error := Slack.or (Slack.error d) (JS.Str "Token exchange failed") in
            (forall message, Slack.to_string error = Some message ->
               response_of run
               = Normal (Send 500 (Serverless.exchange_failed_page message)))
            /\ (Slack.to_string error = None ->
                response_of run
                = Normal (Send 500 (Serverless.exchange_failed_page
                                      "Cannot convert object to primitive value"))))
           /\ (Slack.truthy (Slack.ok d) = true ->
               response_of run = Normal (inline_success amb d sd)))).
Proof.
  split.
  - intros g net code w p run.
    destruct (server_exchange_run g net code w) as (Hr & Ho & _).
    fold p run in Hr, Ho. split; [exact Ho|]. split.
    + intros r Hn Hk. rewrite Hr, Hn. unfold exchange_result. by rewrite Hk.
    + intros r d Hn Hk Hj. rewrite Hr, Hn. unfold exchange_result. rewrite Hk, Hj.
      split; [|by intros ->]. intros ->. split; [intros error|]; by intros ->.
  - intros env net amb params w sd code state p run He Hb Hf.
    destruct (serverless_accepted env net amb params w sd He Hb Hf) as [Ho Hm].
    fold code p run in Ho, Hm. split; [exact Ho|].
    intros r d Hn Hj. rewrite Hn in Hm. unfold inline_exchange_result in Hm.
    rewrite Hj in Hm. split; intros Hk; rewrite Hk in Hm.
    + intros error. subst error.
      split; [intros message|]; intros Hc; rewrite Hc in Hm; by destruct Hm.
    + by destruct Hm.
Qed.

(** ** The status of the callback's responses *)

(** C8, at a concrete run of the server.  The provider sends the user back
    with [error=access_denied]; the server's error page goes out through
    [res.send] alone, that is with status 200, neither 400 nor 500.  The
    serverless handler answers the same callback with status 400. *)
Lemma server_error_page_has_status_200 :
  response_of (Server.auth_callback Scenario.generator Scenario.invalid_code Scenario.amb
                 Scenario.denied_request Scenario.started)
  = Normal (Send 200 (Server.getErrorPage "OAuth Error: access_denied"))
  /\ response_of (Serverless.handleAuthCallback Scenario.env Scenario.invalid_code
                    Scenario.amb [("error", "access_denied")] Scenario.started')
     = Normal (Send 400 (Serverless.oauth_error_page "access_denied")).
Proof. vm_compute. split; reflexivity. Qed.

Lemma or_field_truthy (f b : Slack.Field) : Slack.truthy f = true -> Slack.or f b = f.
Proof. intros Hf. unfold Slack.or. by rewrite Hf. Qed.

Lemma token_valid_truthy (d : Slack.TokenData) :
  token_valid d = true -> Slack.truthy (Slack.authed Slack.access_token d) = true.
Proof. unfold token_valid. by intros [_ H]%andb_prop. Qed.

(** The response to valid token data: a page that shows the token when
    the token has a text, the fixed text of status 500 when it has none. *)
Lemma success_response_by_token (amb : Ambient) (d : Slack.TokenData) (sd : StateData) :
  token_valid d = true ->
  match Slack.to_string (Slack.authed Slack.access_token d) with
  | Some t =>
      exists page, success_response amb d sd = Send 200 page
                   /\ JS.occurs_in t page
                   /\ (styled amb d sd = None -> page = Server.fallback_page t)
  | None => styled amb d sd = None /\ success_response amb d sd = Send 500 page_error_text
  end.
Proof.
  intros Hv%token_valid_truthy. unfold success_response, success_page, styled.
  rewrite !(or_field_truthy (Slack.authed Slack.access_token d)) by exact Hv.
  destruct (Slack.to_string (Slack.authed Slack.access_token d)) as [t|]; page_cbn; [|done].
  destruct (Slack.to_string (Slack.or (Slack.authed Slack.name d) _)) as [n|]; page_cbn.
  2:{ eexists. split; [reflexivity|]. split; [apply fallback_page_shows_token | done]. }
  destruct (Slack.to_string (Slack.or (Slack.authed Slack.id d) _)) as [i|]; page_cbn.
  2:{ eexists. split; [reflexivity|]. split; [apply fallback_page_shows_token | done]. }
  destruct (Slack.to_string (Slack.or (Slack.team_of d) _)) as [tm|]; page_cbn.
  2:{ eexists. split; [reflexivity|]. split; [apply fallback_page_shows_token | done]. }
  destruct (Slack.or (Slack.authed Slack.scope d) _) as [[| | | |s|]|]; page_cbn;
    eexists; (split; [reflexivity|]);
    (split; [auto using styled_page_shows_token, fallback_page_shows_token | done]).
Qed.

Lemma server_callback_response (g : Server.UserTokenGenerator) (net : Network)
    (amb : Ambient) (req : Server.Request) (w : World) :
  exists r, response_of (Server.auth_callback g net amb req w) = Normal r
            /\ ((exists page, r = Send 200 page) \/ r = Send 500 page_error_text).
Proof.
  destruct (JS.truthy (Server.param req "error")) eqn:He.
  { eexists. split; [by apply server_provider_error | eauto]. }
  destruct (JS.truthy (Server.param req "code") && JS.truthy (Server.param req "state"))
    eqn:Hb.
  2:{ eexists. split; [by apply server_missing_parameters | eauto]. }
  destruct (lookup_state (Server.param req "state") (pendingStates w)) as [sd|] eqn:Hf.
  2:{ eexists. split; [by apply server_invalid_state | eauto]. }
  destruct (server_accepted g net amb req w sd He Hb Hf) as [_ Hm].
  destruct (exchange_result _) as [d|e].
  - destruct (token_valid d) eqn:Hv.
    + eexists. split; [apply Hm|].
      pose proof (success_response_by_token amb d sd Hv) as Hs.
      destruct (Slack.to_string _) as [t|].
      * destruct Hs as (page & -> & _). eauto.
      * destruct Hs as [_ ->]. auto.
    + eexists. split; [apply Hm | eauto].
  - eexists. split; [apply Hm | eauto].
Qed.

(** X17.  The statuses in both variants.  In the serverless handler a failing
    callback is answered with 400 for a provider error, a malformed callback
    and an invalid state, and with 500 for a failed exchange; after a
    successful exchange the answer is 200 with the token page when the token,
    the user name and the team name have a text and the scope is a string,
    and the 500 failure page otherwise.  In the server the four error pages
    go out with status 200, and so does the token page; the one other
    response of the callback is the fixed text with status 500, sent exactly
    when the exchange gave valid token data whose token has no text. *)
Theorem callback_status_by_failure_kind :
  (forall env net amb params w,
     let code := Serverless.get params "code" in
     let state := Serverless.get params "state" in
     let error := Serverless.get params "error" in
     let run := Serverless.handleAuthCallback env net amb params w in
     let p := Serverless.token_request env code in
     (JS.truthy error = true ->
      response_of run = Normal (Send 400 (Serverless.oauth_error_page (JS.to_string error))))
     /\ (JS.truthy error = false -> JS.truthy code && JS.truthy state = false ->
         response_of run = Normal (Send 400 Serverless.missing_parameters_page))
     /\ (JS.truthy error = false -> JS.truthy code && JS.truthy state = true ->
         lookup_state state (pendingStates w) = None ->
         response_of run = Normal (Send 400 Serverless.invalid_state_page))
     /\ (forall sd e,
           JS.truthy error = false -> JS.truthy code && JS.truthy state = true ->
           lookup_state state (pendingStates w) = Some sd ->
           inline_exchange_result (net p) = Throw e ->
           response_of run
           = Normal (Send 500 (Serverless.exchange_failed_page (JS.message e))))
     /\ (forall sd d,
           JS.truthy error = false -> JS.truthy code && JS.truthy state = true ->
           lookup_state state (pendingStates w) = Some sd ->
           inline_exchange_result (net p) = Normal d ->
           match inline_texts d sd,
                 Slack.or (Slack.authed Slack.scope d) (JS.Str "No scopes") with
           | Some (token, name, team), Slack.Val (JS.Str s) =>
               response_of run
               = Normal (Send 200 (Serverless.successHtml token name team
                                     (JS.spread_commas s) (localeString amb)))
           | Some _, _ =>
               response_of run
               = Normal (Send 500 (Serverless.exchange_failed_page
                                     "scopes.replace is not a function"))
           | None, _ =>
               response_of run
               = Normal (Send 500 (Serverless.exchange_failed_page
                                     "Cannot convert object to primitive value"))
           end))
  /\
  (forall g net amb req w,
     let code := Server.param req "code" in
     let state := Server.param req "state" in
     let error := Server.param req "error" in
     let run := Server.auth_callback g net amb req w in
     let p := Server.token_request (Server.clientId g) (Server.clientSecret g) code
                (Server.redirectUri g) in
     (exists r, response_of run = Normal r
                /\ ((exists page, r = Send 200 page) \/ r = Send 500 page_error_text))
     /\ (JS.truthy error = true ->
         response_of run
         = Normal (Send 200 (Server.getErrorPage ("OAuth Error: " ++ JS.to_string error))))
     /\ (JS.truthy error = false -> JS.truthy code && JS.truthy state = false ->
         response_of run
         = Normal (Send 200 (Server.getErrorPage "Missing authorization code or state")))
     /\ (JS.truthy error = false -> JS.truthy code && JS.truthy state = true ->
         lookup_state state (pendingStates w) = None ->
         response_of run
         = Normal (Send 200 (Server.getErrorPage "Invalid or expired state parameter")))
     /\ (forall sd e,
           JS.truthy error = false -> JS.truthy code && JS.truthy state = true ->
           lookup_state state (pendingStates w) = Some sd ->
           exchange_result (net p) = Throw e ->
           response_of run
           = Normal (Send 200 (Server.getErrorPage
                                 ("Token exchange failed: " ++ JS.message e))))
     /\ (forall sd d,
           JS.truthy error = false -> JS.truthy code && JS.truthy state = true ->
           lookup_state state (pendingStates w) = Some sd ->
           exchange_result (net p) = Normal d ->
           if token_valid d then
             match Slack.to_string (Slack.authed Slack.access_token d) with
             | Some t => exists page, response_of run = Normal (Send 200 page)
                                      /\ JS.occurs_in t page
             | None => response_of run = Normal (Send 500 page_error_text)
             end
           else
             response_of run
             = Normal (Send 200
                         (Server.getErrorPage
                            "Token exchange failed: Invalid token data received from Slack")))).
Proof.
  split.
  - intros env net amb params w code state error run p.
    split; [|split; [|split; [|split]]].
    + intros H. subst run. unfold response_of. by rewrite serverless_provider_error.
    + intros H Hm. subst run. unfold response_of. by rewrite serverless_missing_parameters.
    + intros H Hm Hs. subst run. unfold response_of. by rewrite serverless_invalid_state.
    + intros sd e He Hb Hf Hx.
      destruct (serverless_accepted env net amb params w sd He Hb Hf) as [_ Hm].
      fold code p in Hm. rewrite Hx in Hm. apply Hm.
    + intros sd d He Hb Hf Hx.
      destruct (serverless_accepted env net amb params w sd He Hb Hf) as [_ Hm].
      fold code p run in Hm. rewrite Hx in Hm. destruct Hm as [Hr _].
      unfold inline_success in Hr.
      destruct (inline_texts d sd) as [[[token name] team]|]; [|exact Hr].
      destruct (Slack.or (Slack.authed Slack.scope d) _) as [[| | | |s|]|]; exact Hr.
  - intros g net amb req w code state error run p.
    split; [apply server_callback_response|].
    split; [intros H; by apply server_provider_error|].
    split; [intros H Hm; by apply server_missing_parameters|].
    split; [intros H Hm Hs; by apply server_invalid_state|].
    split.
    + intros sd e He Hb Hf Hx.
      destruct (server_accepted g net amb req w sd He Hb Hf) as [_ Hm].
      fold code p in Hm. rewrite Hx in Hm. apply Hm.
    + intros sd d He Hb Hf Hx.
      destruct (server_accepted g net amb req w sd He Hb Hf) as [_ Hm].
      fold code p run in Hm. rewrite Hx in Hm.
      destruct (token_valid d) eqn:Hv; [|apply Hm]. destruct Hm as [Hr _].
      pose proof (success_response_by_token amb d sd Hv) as Hs.
      destruct (Slack.to_string _) as [t|].
      * destruct Hs as (page & Hp & Hin & _). exists page. by rewrite Hr, Hp.
      * destruct Hs as [_ Hp]. by rewrite Hr, Hp.
Qed.

(** ** A success page that cannot be built *)

Lemma fallback_is_not_error_page (t msg : string) :
  Server.fallback_page t <> Server.getErrorPage msg.
Proof. unfold Server.fallback_page, Server.getErrorPage. cbn. discriminate. Qed.

(** The styled page cannot be built exactly when one of its four values
    has no text or the scopes are not a string. *)
Lemma styled_fails (amb : Ambient) (d : Slack.TokenData) (sd : StateData) :
  styled amb d sd = None
  <-> Slack.to_string (Slack.or (Slack.authed Slack.access_token d)
                         (JS.Str "No token generated")) = None
      \/ Slack.to_string (Slack.or (Slack.authed Slack.name d)
                            (Slack.or (JS.Str (user_name sd)) (JS.Str "Unknown User"))) = None
      \/ Slack.to_string (Slack.or (Slack.authed Slack.id d) (JS.Str "Unknown ID")) = None
      \/ Slack.to_string (Slack.or (Slack.team_of d) (JS.Str "Unknown Team")) = None
      \/ Slack.is_string (Slack.or (Slack.authed Slack.scope d) (JS.Str "No scopes")) = false.
Proof.
  unfold styled.
  destruct (Slack.to_string (Slack.or (Slack.authed Slack.access_token d) _)); page_cbn;
    [|tauto].
  destruct (Slack.to_string (Slack.or (Slack.authed Slack.name d) _)); page_cbn; [|tauto].
  destruct (Slack.to_string (Slack.or (Slack.authed Slack.id d) _)); page_cbn; [|tauto].
  destruct (Slack.to_string (Slack.or (Slack.team_of d) _)); page_cbn; [|tauto].
  destruct (Slack.or (Slack.authed Slack.scope d) _) as [[| | | |?|]|]; cbn;
    intuition discriminate.
Qed.

(** C9, at a concrete run of the server.  The provider grants a token that
    has no string conversion.  The styled page cannot be built, and neither
    can the fallback page of [getSuccessPageWithToken], which throws; the
    [catch (pageError)] block of the callback answers with status 500 and a
    fixed text that discloses nothing.  The state has been consumed: the
    same callback sent again gets the invalid-state page. *)
Lemma token_without_text_is_not_disclosed :
  let first := Server.auth_callback Scenario.generator
                 (answers 200 "OK" "{...}" Scenario.granted_data_opaque_token) Scenario.amb
                 Scenario.callback_request Scenario.started in
  let second := Server.auth_callback Scenario.generator
                  (answers 200 "OK" "{...}" Scenario.granted_data_opaque_token) Scenario.amb
                  Scenario.callback_request (world_of first) in
  token_valid Scenario.granted_data_opaque_token = true
  /\ response_of (Server.getSuccessPageWithToken Scenario.amb
                    Scenario.granted_data_opaque_token
                    (mkStateData "u1" EmptyString 1700000000000) Scenario.empty)
     = Throw conversion_error
  /\ response_of first
     = Normal (Send 500
                 "Success! Token generated, but error displaying page. Check server logs.")
  /\ pendingStates (world_of first) = ∅
  /\ response_of second
     = Normal (Send 200 (Server.getErrorPage "Invalid or expired state parameter")).
Proof. vm_compute. repeat split; reflexivity. Qed.

(** C9, as the code has it.  Let the exchange succeed with valid token
    data, and let the styled page fail to build, for any of its causes: the
    token, the user name, the user id or the team name has no string
    conversion, or the scope is not a string.  The failure is never reported
    as an exchange error, and the state has been removed.  When the token
    has a text, [getSuccessPageWithToken] catches the error and returns the
    minimal page [Your token: ...]; the callback answers with that page,
    status 200, in which the token occurs.  When the token has no text, the
    minimal page cannot be built either: [getSuccessPageWithToken] throws,
    and the [catch (pageError)] block of the callback answers with the fixed
    text of status 500. *)
Theorem render_failure_still_discloses_token
    (g : Server.UserTokenGenerator) (net : Network) (amb : Ambient) (req : Server.Request)
    (w : World) (sd : StateData) (d : Slack.TokenData) :
  let code := Server.param req "code" in
  let state := Server.param req "state" in
  let p := Server.token_request (Server.clientId g) (Server.clientSecret g) code
             (Server.redirectUri g) in
  let run := Server.auth_callback g net amb req w in
  JS.truthy (Server.param req "error") = false ->
  JS.truthy code && JS.truthy state = true ->
  lookup_state state (pendingStates w) = Some sd ->
  exchange_result (net p) = Normal d ->
  token_valid d = true ->
  Slack.to_string (Slack.or (Slack.authed Slack.access_token d)
                     (JS.Str "No token generated")) = None
  \/ Slack.to_string (Slack.or (Slack.authed Slack.name d)
                        (Slack.or (JS.Str (user_name sd)) (JS.Str "Unknown User"))) = None
  \/ Slack.to_string (Slack.or (Slack.authed Slack.id d) (JS.Str "Unknown ID")) = None
  \/ Slack.to_string (Slack.or (Slack.team_of d) (JS.Str "Unknown Team")) = None
  \/ Slack.is_string (Slack.or (Slack.authed Slack.scope d) (JS.Str "No scopes")) = false ->
  (forall msg, response_of run <> Normal (Send 200 (Server.getErrorPage msg)))
  /\ pendingStates (world_of run) = remove_state state (pendingStates w)
  /\ match Slack.to_string (Slack.authed Slack.access_token d) with
     | Some token =>
         (forall w', response_of (Server.getSuccessPageWithToken amb d sd w')
                     = Normal (Server.fallback_page token))
         /\ response_of run = Normal (Send 200 (Server.fallback_page token))
         /\ JS.occurs_in token (Server.fallback_page token)
     | None =>
         (forall w', response_of (Server.getSuccessPageWithToken amb d sd w')
                     = Throw conversion_error)
         /\ response_of run = Normal (Send 500 page_error_text)
     end.
Proof.
  intros code state p run He Hb Hf Hx Hv Hcause.
  apply (styled_fails amb d sd) in Hcause.
  destruct (server_accepted g net amb req w sd He Hb Hf) as [_ Hm].
  fold code p run state in Hm. rewrite Hx, Hv in Hm. destruct Hm as [Hr Hst].
  pose proof (success_response_by_token amb d sd Hv) as Hs.
  assert (Hpage : forall w', response_of (Server.getSuccessPageWithToken amb d sd w')
                             = match success_page amb d sd with
                               | Some page => Normal page
                               | None => Throw conversion_error
                               end)
    by (intros w'; apply getSuccessPageWithToken_run).
  unfold success_response in Hs, Hr.
  destruct (Slack.to_string (Slack.authed Slack.access_token d)) as [token|].
  - destruct Hs as (page & Hp & Hin & Hfall). specialize (Hfall Hcause). subst page.
    destruct (success_page amb d sd) as [page|]; [|discriminate]. injection Hp as ->.
    split; [|split; [exact Hst|split; [exact Hpage|split; [exact Hr|exact Hin]]]].
    intros msg. rewrite Hr. intros H.
    apply (fallback_is_not_error_page token msg). congruence.
  - destruct Hs as [_ Hp].
    destruct (success_page amb d sd) as [page|]; [discriminate|].
    split; [|split; [exact Hst|split; [exact Hpage|exact Hr]]].
    intros msg. rewrite Hr. discriminate.
Qed.

(** ** The start of a flow *)

Lemma slice0_length (n : nat) (s : string) : (String.length (JS.slice0 n s) <= n)%nat.
Proof.
  revert s. induction n as [|n IH]; intros [|c s]; cbn; try lia.
  specialize (IH s). lia.
Qed.

Lemma remove_all_length (drop : ascii -> bool) (s : string) :
  (String.length (JS.remove_all drop s) <= String.length s)%nat.
Proof. induction s as [|c s IH]; cbn; [lia|]. destruct (drop c); cbn; lia. Qed.

Lemma remove_all_clean (drop : ascii -> bool) (s : string) (c : ascii) :
  In c (chars (JS.remove_all drop s)) -> drop c = false /\ In c (chars s).
Proof.
  induction s as [|x s IH]; cbn; [tauto|].
  destruct (drop x) eqn:Hx; cbn.
  - intros H. destruct (IH H). auto.
  - intros [<-|H]; [auto|]. destruct (IH H). auto.
Qed.

Lemma trimStart_head (s : string) :
  match JS.trimStart s with
  | String c _ => JS.is_space c = false
  | EmptyString => True
  end.
Proof.
  induction s as [|c s IH]; cbn; [exact I|].
  destruct (JS.is_space c) eqn:Hc; [exact IH | exact Hc].
Qed.

Lemma trimEnd_head (s : string) :
  match JS.trimEnd s with
  | String c _ => exists s', s = String c s'
  | EmptyString => True
  end.
Proof.
  destruct s as [|c s]; cbn; [exact I|].
  destruct (JS.is_empty (JS.trimEnd s) && JS.is_space c); [exact I | eauto].
Qed.

Lemma trimEnd_last (s : string) :
  match last (chars (JS.trimEnd s)) with
  | Some c => JS.is_space c = false
  | None => True
  end.
Proof.
  induction s as [|c s IH]; cbn; [exact I|].
  destruct (JS.trimEnd s) as [|y r] eqn:Hr; cbn in *.
  - destruct (JS.is_space c) eqn:Hc; cbn; [exact I | exact Hc].
  - exact IH.
Qed.

(** [trim] leaves no white space at either end. *)
Lemma trim_trimmed (s : string) :
  match JS.trim s with
  | String c _ => JS.is_space c = false
  | EmptyString => True
  end
  /\ match last (chars (JS.trim s)) with
     | Some c => JS.is_space c = false
     | None => True
     end.
Proof.
  split; [|apply trimEnd_last]. unfold JS.trim.
  pose proof (trimEnd_head (JS.trimStart s)) as Hh.
  pose proof (trimStart_head s) as Hs.
  destruct (JS.trimEnd (JS.trimStart s)) as [|c r]; [exact I|].
  destruct Hh as [s' Hs']. by rewrite Hs' in Hs.
Qed.

Lemma validateInput_string (s : string) :
  Server.validateInput (JS.Str s)
  = JS.remove_all Server.unsafe_char (JS.slice0 100 (JS.trim s)).
Proof. destruct s; reflexivity. Qed.

Lemma validateInput_not_string (v : JS.value) :
  JS.truthy v = false \/ JS.is_string v = false -> Server.validateInput v = EmptyString.
Proof.
  unfold Server.validateInput, Server.validateInput_max.
  intros [->| ->]; [reflexivity | by rewrite orb_true_r].
Qed.

Lemma validateInput_sanitized (v : JS.value) :
  (String.length (Server.validateInput v) <= 100)%nat
  /\ (forall c, In c (chars (Server.validateInput v)) -> Server.unsafe_char c = false)
  /\ (JS.truthy v = false \/ JS.is_string v = false -> Server.validateInput v = EmptyString)
  /\ (forall s, v = JS.Str s ->
        Server.validateInput v
        = JS.remove_all Server.unsafe_char (JS.slice0 100 (JS.trim s))).
Proof.
  split; [|split; [|split]].
  - destruct (JS.is_string v) eqn:Hs.
    + destruct v; try discriminate. rewrite validateInput_string.
      etrans; [apply remove_all_length | apply slice0_length].
    + rewrite validateInput_not_string by auto. cbn. lia.
  - intros c. destruct (JS.is_string v) eqn:Hs.
    + destruct v; try discriminate. rewrite validateInput_string.
      intros H. by apply remove_all_clean in H as [H _].
    + rewrite validateInput_not_string by auto. by cbn.
  - apply validateInput_not_string.
  - intros s ->. apply validateInput_string.
Qed.

(** The authorization URL of each variant, written out. *)
Lemma server_authUrl_text (id uri state : string) :
  Server.authUrl (JS.Str id) Server.userScopes (JS.Str uri) state
  = "https://slack.com/oauth/v2/authorize?client_id=" ++ id
    ++ "&user_scope=channels%3Aread%2Cgroups%3Aread%2Cusers%3Aread"
    ++ "&redirect_uri=" ++ JS.encodeURIComponent uri ++ "&state=" ++ state.
Proof. reflexivity. Qed.

Lemma serverless_authUrl_text (id uri state : string) :
  Serverless.authUrl (JS.Str id) Serverless.userScopes (JS.Str uri) state
  = "https://slack.com/oauth/v2/authorize?client_id=" ++ id
    ++ "&user_scope=channels%3Ahistory%2Cchannels%3Aread%2Cchannels%3Awrite%2Cchat%3Awrite"
    ++ "%2Cgroups%3Aread%2Cgroups%3Awrite%2Cim%3Ahistory%2Cim%3Awrite%2Cmpim%3Ahistory"
    ++ "%2Cusers%3Aread%2Csearch%3Aread"
    ++ "&redirect_uri=" ++ JS.encodeURIComponent uri ++ "&state=" ++ state.
Proof. reflexivity. Qed.

Lemma truthy_env_value (o : option string) :
  JS.truthy (match o with Some s => JS.Str s | None => JS.Undefined end) = true ->
  exists s, o = Some s /\ s <> EmptyString.
Proof.
  destruct o as [[|c s]|]; try discriminate. intros _. eexists. split; [reflexivity | done].
Qed.

Section ServerStart.

Variables (g : Server.UserTokenGenerator) (amb : Ambient) (req : Server.Request) (w : World).

Let run := Server.auth_start g amb req w.

Lemma server_start_run :
  response_of run
  = Normal (Redirect 302 (Server.authUrl (Server.clientId g) Server.userScopes
                            (Server.redirectUri g) (randomHex amb)))
  /\ pendingStates (world_of run)
     = <[randomHex amb := mkStateData (Server.validateInput (Server.param req "user_id"))
                            (Server.validateInput (Server.param req "user_name")) (now amb)]>
         (pendingStates w)
  /\ outbound (world_of run) = outbound w.
Proof. subst run. unfold Server.auth_start. unfold_monad. cbn. auto. Qed.

End ServerStart.

Section ServerlessStart.

Variables (env : Serverless.Env) (amb : Ambient) (params : list (string * string)).
Variable w : World.

Let clientId := Serverless.env_get (Serverless.SLACK_CLIENT_ID env).
Let redirectUri := Serverless.env_get (Serverless.SLACK_REDIRECT_URI env).
Let run := Serverless.handleAuthStart env amb params w.

Lemma get_or_empty (k : string) :
  JS.to_string (JS.or (Serverless.get params k) (JS.Str EmptyString)) = as_received params k.
Proof.
  unfold as_received, JS.or.
  induction params as [|[k' v] rest IH]; cbn; [reflexivity|].
  destruct (String.eqb k' k); [|exact IH]. cbn. by destruct v.
Qed.

Lemma serverless_start_run :
  response_of run
  = Normal (if JS.truthy clientId && JS.truthy redirectUri
            then Redirect 307 (Serverless.authUrl clientId Serverless.userScopes redirectUri
                                 (randomHex amb))
            else Send 500 Serverless.configuration_error_page)
  /\ pendingStates (world_of run)
     = <[randomHex amb := mkStateData (as_received params "user_id")
                            (as_received params "user_name") (now amb)]> (pendingStates w)
  /\ outbound (world_of run) = outbound w
  /\ console (world_of run) = console w.
Proof.
  subst run. unfold Serverless.handleAuthStart. fold clientId redirectUri.
  rewrite !get_or_empty, <- negb_andb.
  unfold_monad. cbn -[Serverless.authUrl Serverless.configuration_error_page].
  destruct (JS.truthy clientId && JS.truthy redirectUri); cbn; auto.
Qed.

End ServerlessStart.

(** C6, at a concrete run of the serverless handler.  A flow is started
    with [user_name] set to a padded piece of markup; the stored name is
    that very text, white space, angle brackets and all.  The server stores
    the sanitized text for the same input. *)
Lemma serverless_stores_input_unsanitized :
  pendingStates
    (world_of (Serverless.handleAuthStart Scenario.env Scenario.amb
                 [("user_name", "  <b>Bob</b>  ")] Scenario.empty))
  !! Scenario.token
  = Some (mkStateData EmptyString "  <b>Bob</b>  " 1700000000000)
  /\ pendingStates
       (world_of (Server.auth_start Scenario.generator Scenario.amb Scenario.markup_request
                    Scenario.empty))
     !! Scenario.token
     = Some (mkStateData EmptyString "bBob/b" 1700000000000).
Proof. vm_compute. split; reflexivity. Qed.

(** X16.  The stored fields in both variants.  In the server the flow always
    ends in the redirect and the stored [user_id] and [user_name] are
    [validateInput] of the two query values: the empty string for a value
    that is missing, falsy or not a string, and otherwise the text trimmed,
    cut to its first 100 code units and freed of every less-than,
    greater-than, double quote, single quote and ampersand, hence at most
    100 units long and without those characters.  In the serverless handler
    the two values are stored as they were received, with the empty string
    for a missing one; nothing is trimmed, cut or removed. *)
Theorem stored_requester_fields :
  (forall g amb req w,
     let run := Server.auth_start g amb req w in
     let userId := Server.validateInput (Server.param req "user_id") in
     let userName := Server.validateInput (Server.param req "user_name") in
     (exists url, response_of run = Normal (Redirect 302 url))
     /\ pendingStates (world_of run) !! randomHex amb
        = Some (mkStateData userId userName (now amb))
     /\ (Server.query req !! "user_id" = None -> userId = EmptyString)
     /\ (Server.query req !! "user_name" = None -> userName = EmptyString))
  /\ (forall v,
        (String.length (Server.validateInput v) <= 100)%nat
        /\ (forall c, In c (chars (Server.validateInput v)) -> Server.unsafe_char c = false)
        /\ (JS.truthy v = false \/ JS.is_string v = false ->
            Server.validateInput v = EmptyString)
        /\ (forall s, v = JS.Str s ->
              Server.validateInput v
              = JS.remove_all Server.unsafe_char (JS.slice0 100 (JS.trim s))))
  /\ (forall env amb params w,
        let run := Serverless.handleAuthStart env amb params w in
        pendingStates (world_of run) !! randomHex amb
        = Some (mkStateData (as_received params "user_id")
                  (as_received params "user_name") (now amb))
        /\ (forall s, Serverless.get params "user_id" = JS.Str s ->
              as_received params "user_id" = s)
        /\ (forall s, Serverless.get params "user_name" = JS.Str s ->
              as_received params "user_name" = s)
        /\ (Serverless.get params "user_id" = JS.Null ->
            as_received params "user_id" = EmptyString)
        /\ (Serverless.get params "user_name" = JS.Null ->
            as_received params "user_name" = EmptyString)).
Proof.
  split; [|split].
  - intros g amb req w run userId userName.
    destruct (server_start_run g amb req w) as (Hr & Hs & _). fold run in Hr, Hs.
    split; [eauto|]. split; [rewrite Hs; apply lookup_insert_eq|].
    subst userId userName. unfold Server.param.
    split; intros ->; apply validateInput_not_string; auto.
  - apply validateInput_sanitized.
  - intros env amb params w run.
    destruct (serverless_start_run env amb params w) as (_ & Hs & _). fold run in Hs.
    split; [rewrite Hs; apply lookup_insert_eq|].
    unfold as_received.
    repeat split; [intros s Hg | intros s Hg | intros Hg | intros Hg]; by rewrite Hg.
Qed.

Lemma stored_requester_fields_witness :
  Server.validateInput (Server.param Scenario.start_request "user_name") = EmptyString
  /\ Server.unsafe_char "u"%char = false.
Proof.
  split.
  - refine (proj2 (proj2 (proj2 (proj1 stored_requester_fields Scenario.generator
      Scenario.amb Scenario.start_request Scenario.empty))) _).
    reflexivity.
  - refine (proj1 (proj2 (proj1 (proj2 stored_requester_fields) (JS.Str " <u1> "))) _ _).
    vm_compute. auto.
Defined.

(** C7, at a concrete run of the serverless handler.  The environment
    holds the client id and the redirect URI; the start of a flow is
    answered with the redirect of the serverless runtime, whose status is
    307 and not 302, to the authorization URL. *)
Lemma serverless_start_redirects_with_307 :
  response_of (Serverless.handleAuthStart Scenario.env Scenario.amb Scenario.start_params
                 Scenario.empty)
  = Normal (Redirect 307
              ("https://slack.com/oauth/v2/authorize?client_id=cid"
               ++ "&user_scope=channels%3Ahistory%2Cchannels%3Aread%2Cchannels%3Awrite"
               ++ "%2Cchat%3Awrite%2Cgroups%3Aread%2Cgroups%3Awrite%2Cim%3Ahistory"
               ++ "%2Cim%3Awrite%2Cmpim%3Ahistory%2Cusers%3Aread%2Csearch%3Aread"
               ++ "&redirect_uri=https%3A%2F%2Frelay.example%2Fauth%2Fcallback"
               ++ "&state=0123456789abcdef0123456789abcdef")).
Proof. vm_compute. reflexivity. Qed.

(** C7, as the code has it.  The serverless handler answers a start with
    the server-configuration page and status 500, and with no redirect,
    exactly when the client id or the redirect URI is missing from the
    environment (unset or empty); otherwise it redirects, with status 307,
    to the provider's authorization URL: the authorize endpoint with the
    client id, the eleven scopes of this variant, the encoded redirect URI
    and the state it has just stored.  The server only listens when
    [start()] has found the client id and the secret, and its redirect URI
    always has a value; it answers every start with status 302 and the
    authorization URL made of the client id, its three scopes, the encoded
    redirect URI and the stored state. *)
Theorem start_flow_redirects_unless_misconfigured :
  (forall env amb params w,
     let clientId := Serverless.env_get (Serverless.SLACK_CLIENT_ID env) in
     let redirectUri := Serverless.env_get (Serverless.SLACK_REDIRECT_URI env) in
     let run := Serverless.handleAuthStart env amb params w in
     (JS.truthy clientId && JS.truthy redirectUri = false ->
      response_of run = Normal (Send 500 Serverless.configuration_error_page))
     /\ (JS.truthy clientId && JS.truthy redirectUri = true ->
         exists id uri,
           Serverless.SLACK_CLIENT_ID env = Some id
           /\ Serverless.SLACK_REDIRECT_URI env = Some uri
           /\ response_of run
              = Normal (Redirect 307
                          ("https://slack.com/oauth/v2/authorize?client_id=" ++ id
                           ++ "&user_scope=channels%3Ahistory%2Cchannels%3Aread"
                           ++ "%2Cchannels%3Awrite%2Cchat%3Awrite%2Cgroups%3Aread"
                           ++ "%2Cgroups%3Awrite%2Cim%3Ahistory%2Cim%3Awrite"
                           ++ "%2Cmpim%3Ahistory%2Cusers%3Aread%2Csearch%3Aread"
                           ++ "&redirect_uri=" ++ JS.encodeURIComponent uri
                           ++ "&state=" ++ randomHex amb))
           /\ is_Some (pendingStates (world_of run) !! randomHex amb)))
  /\
  (forall env amb req w,
     let g := Server.constructor env in
     let run := Server.auth_start g amb req w in
     Server.start g = true ->
     exists id uri,
       Server.SLACK_CLIENT_ID env = Some id
       /\ id <> EmptyString
       /\ Server.redirectUri g = JS.Str uri
       /\ uri <> EmptyString
       /\ response_of run
          = Normal (Redirect 302
                      ("https://slack.com/oauth/v2/authorize?client_id=" ++ id
                       ++ "&user_scope=channels%3Aread%2Cgroups%3Aread%2Cusers%3Aread"
                       ++ "&redirect_uri=" ++ JS.encodeURIComponent uri
                       ++ "&state=" ++ randomHex amb))
       /\ is_Some (pendingStates (world_of run) !! randomHex amb)).
Proof.
  split.
  - intros env amb params w clientId redirectUri run.
    destruct (serverless_start_run env amb params w) as (Hr & Hs & _).
    fold clientId redirectUri run in Hr, Hs. split.
    + intros H. by rewrite H in Hr.
    + intros H. rewrite H in Hr. apply andb_prop in H as [Hid Huri].
      apply truthy_env_value in Hid as (id & Hid & _).
      apply truthy_env_value in Huri as (uri & Huri & _).
      exists id, uri. split; [exact Hid|]. split; [exact Huri|]. split.
      * rewrite Hr. subst clientId redirectUri. rewrite Hid, Huri.
        cbn [Serverless.env_get]. by rewrite serverless_authUrl_text.
      * rewrite Hs, lookup_insert_eq. eauto.
  - intros env amb req w g run Hstart.
    destruct (server_start_run g amb req w) as (Hr & Hs & _). fold run in Hr, Hs.
    assert (Hid : JS.truthy (Server.clientId g) = true).
    { unfold Server.start in Hstart.
      destruct (JS.truthy (Server.clientId g)); [reflexivity | discriminate]. }
    apply truthy_env_value in Hid as (id & Hid & Hne).
    assert (Huri : exists uri, Server.redirectUri g = JS.Str uri /\ uri <> EmptyString).
    { subst g. unfold Server.constructor. cbn [Server.redirectUri]. unfold JS.or at 1.
      destruct (Server.SLACK_REDIRECT_URI env) as [[|c uri]|]; cbn; eauto. }
    destruct Huri as (uri & Huri & Hne').
    exists id, uri. repeat (split; [assumption|]). split.
    + rewrite Hr, Huri.
      replace (Server.clientId g) with (JS.Str id)
        by (subst g; cbn; by rewrite Hid).
      by rewrite server_authUrl_text.
    + rewrite Hs, lookup_insert_eq. eauto.
Qed.

Lemma start_flow_redirects_unless_misconfigured_witness :
  response_of (Serverless.handleAuthStart (Serverless.mkEnv (Some "cid") (Some "secret") None)
                 Scenario.amb Scenario.start_params Scenario.empty)
  = Normal (Send 500 Serverless.configuration_error_page)
  /\ exists id uri,
       Server.SLACK_CLIENT_ID (Server.mkEnv None (Some "cid") (Some "secret") None) = Some id
       /\ id <> EmptyString
       /\ Server.redirectUri Scenario.generator = JS.Str uri
       /\ uri <> EmptyString
       /\ response_of (Server.auth_start Scenario.generator Scenario.amb
                         Scenario.start_request Scenario.empty)
          = Normal (Redirect 302
                      ("https://slack.com/oauth/v2/authorize?client_id=" ++ id
                       ++ "&user_scope=channels%3Aread%2Cgroups%3Aread%2Cusers%3Aread"
                       ++ "&redirect_uri=" ++ JS.encodeURIComponent uri
                       ++ "&state=" ++ randomHex Scenario.amb))
       /\ is_Some (pendingStates
                     (world_of (Server.auth_start Scenario.generator Scenario.amb
                                  Scenario.start_request Scenario.empty))
                   !! randomHex Scenario.amb).
Proof.
  split.
  - refine (proj1 (proj1 start_flow_redirects_unless_misconfigured
      (Serverless.mkEnv (Some "cid") (Some "secret") None)
      Scenario.amb Scenario.start_params Scenario.empty) _).
    reflexivity.
  - refine (proj2 start_flow_redirects_unless_misconfigured
      (Server.mkEnv None (Some "cid") (Some "secret") None)
      Scenario.amb Scenario.start_request Scenario.empty _).
    reflexivity.
Defined.

(** The server's redirect at the concrete run, written out. *)
Example server_start_redirect :
  response_of (Server.auth_start Scenario.generator Scenario.amb Scenario.start_request
                 Scenario.empty)
  = Normal (Redirect 302
              ("https://slack.com/oauth/v2/authorize?client_id=cid"
               ++ "&user_scope=channels%3Aread%2Cgroups%3Aread%2Cusers%3Aread"
               ++ "&redirect_uri=http%3A%2F%2Flocalhost%3A3000%2Fauth%2Fcallback"
               ++ "&state=0123456789abcdef0123456789abcdef")).
Proof. vm_compute. reflexivity. Qed.

(** C10.  In the serverless handler the start of a flow stores the new
    entry before it looks at the configuration.  When the client id or the
    redirect URI is missing it answers with the server-configuration error
    and the store is the old one with the new entry added under the minted
    state: when that state was not yet a key, the store has changed and
    holds one entry more. *)
Theorem misconfigured_start_still_stores_state
    (env : Serverless.Env) (amb : Ambient) (params : list (string * string)) (w : World) :
  let clientId := Serverless.env_get (Serverless.SLACK_CLIENT_ID env) in
  let redirectUri := Serverless.env_get (Serverless.SLACK_REDIRECT_URI env) in
  let run := Serverless.handleAuthStart env amb params w in
  let entry := mkStateData (as_received params "user_id") (as_received params "user_name")
                 (now amb) in
  JS.truthy clientId = false \/ JS.truthy redirectUri = false ->
  response_of run = Normal (Send 500 Serverless.configuration_error_page)
  /\ pendingStates (world_of run) = <[randomHex amb := entry]> (pendingStates w)
  /\ pendingStates (world_of run) !! randomHex amb = Some entry
  /\ (pendingStates w !! randomHex amb = None ->
      pendingStates (world_of run) <> pendingStates w
      /\ size (pendingStates (world_of run)) = S (size (pendingStates w))).
Proof.
  intros clientId redirectUri run entry Hmissing.
  destruct (serverless_start_run env amb params w) as (Hr & Hs & _).
  fold clientId redirectUri run entry in Hr, Hs.
  assert (Hc : JS.truthy clientId && JS.truthy redirectUri = false)
    by (destruct Hmissing as [-> | ->]; [reflexivity | apply andb_false_r]).
  rewrite Hc in Hr. split; [exact Hr|]. split; [exact Hs|].
  split; [rewrite Hs; apply lookup_insert_eq|].
  intros Hfresh. rewrite Hs. split.
  - intros Heq. apply (f_equal (fun m => m !! randomHex amb)) in Heq.
    rewrite lookup_insert_eq, Hfresh in Heq. discriminate.
  - by apply map_size_insert_None.
Qed.

Lemma misconfigured_start_still_stores_state_witness :
  pendingStates
    (world_of (Serverless.handleAuthStart (Serverless.mkEnv None (Some "secret") None)
                 Scenario.amb Scenario.start_params Scenario.empty))
  !! Scenario.token
  = Some (mkStateData "u1" EmptyString 1700000000000).
Proof.
  refine (proj1 (proj2 (proj2 (misconfigured_start_still_stores_state
    (Serverless.mkEnv None (Some "secret") None) Scenario.amb Scenario.start_params
    Scenario.empty _)))).
  left. reflexivity.
Defined.

(** ** The theorems at the concrete run *)

Lemma callback_validation_order_witness :
  response_of (Server.auth_callback Scenario.generator Scenario.invalid_code Scenario.amb
                 Scenario.denied_request Scenario.started)
  = Normal (Send 200 (Server.getErrorPage "OAuth Error: access_denied"))
  /\ response_of (Serverless.handleAuthCallback Scenario.env Scenario.invalid_code
                    Scenario.amb [("code", "abc"); ("state", "deadbeef")] Scenario.started')
     = Normal (Send 400 Serverless.invalid_state_page).
Proof.
  split.
  - refine (proj1 (proj1 (proj1 callback_validation_order Scenario.generator
      Scenario.invalid_code Scenario.amb Scenario.denied_request Scenario.started) _)).
    reflexivity.
  - refine (proj1 (proj2 (proj2 (proj2 callback_validation_order Scenario.env
      Scenario.invalid_code Scenario.amb [("code", "abc"); ("state", "deadbeef")]
      Scenario.started')) _ _ _)).
    all: reflexivity.
Defined.

Lemma exchange_posts_once_and_reports_failure_witness :
  let huge : Network :=
    answers 200 "OK" "{...}"
      (Slack.mkTokenData (JS.Bool false) (JS.Num 1000000000000000000000) None None) in
  response_of (Server.exchangeCodeForToken Scenario.generator Scenario.invalid_code
                 (JS.Str "abc") Scenario.started)
  = Throw (JS.error "OAuth exchange failed: invalid_code")
  /\ response_of (Server.exchangeCodeForToken Scenario.generator huge (JS.Str "abc")
                    Scenario.started)
     = Throw (JS.error "OAuth exchange failed: 1e+21").
Proof.
  intros huge. split.
  - refine (proj1 (proj1 (proj2 (proj2 (proj1 exchange_posts_once_and_reports_failure
      Scenario.generator Scenario.invalid_code (JS.Str "abc") Scenario.started)) _
      (Slack.mkTokenData (JS.Bool false) (JS.Str "invalid_code") None None) _ _ _) _)
      "invalid_code" _).
    all: reflexivity.
  - refine (proj1 (proj1 (proj2 (proj2 (proj1 exchange_posts_once_and_reports_failure
      Scenario.generator huge (JS.Str "abc") Scenario.started)) _
      (Slack.mkTokenData (JS.Bool false) (JS.Num 1000000000000000000000) None None) _ _ _) _)
      "1e+21" _).
    all: reflexivity.
Defined.

Lemma callback_status_by_failure_kind_witness :
  response_of (Serverless.handleAuthCallback Scenario.env Scenario.invalid_code
                 Scenario.amb [("error", "access_denied")] Scenario.started')
  = Normal (Send 400 (Serverless.oauth_error_page "access_denied"))
  /\ response_of (Serverless.handleAuthCallback Scenario.env Scenario.invalid_code
                    Scenario.amb Scenario.callback_params Scenario.started')
     = Normal (Send 500 (Serverless.exchange_failed_page "invalid_code")).
Proof.
  split.
  - refine (proj1 (proj1 callback_status_by_failure_kind Scenario.env Scenario.invalid_code
      Scenario.amb [("error", "access_denied")] Scenario.started') _).
    reflexivity.
  - refine (proj1 (proj2 (proj2 (proj2 (proj1 callback_status_by_failure_kind Scenario.env
      Scenario.invalid_code Scenario.amb Scenario.callback_params Scenario.started'))))
      (mkStateData "u1" EmptyString 1700000000000) (JS.error "invalid_code") _ _ _ _).
    all: reflexivity.
Defined.

Lemma render_failure_still_discloses_token_witness :
  response_of (Server.auth_callback Scenario.generator
                 (answers 200 "OK" "{...}" Scenario.granted_data_array_scope) Scenario.amb
                 Scenario.callback_request Scenario.started)
  = Normal (Send 200 (Server.fallback_page "xoxp-test"))
  /\ response_of (Server.auth_callback Scenario.generator
                    (answers 200 "OK" "{...}" Scenario.granted_data_opaque_id) Scenario.amb
                    Scenario.callback_request Scenario.started)
     = Normal (Send 200 (Server.fallback_page "xoxp-test")).
Proof.
  split.
  - refine (proj1 (proj2 (proj2 (proj2 (render_failure_still_discloses_token
      Scenario.generator
      (answers 200 "OK" "{...}" Scenario.granted_data_array_scope) Scenario.amb
      Scenario.callback_request Scenario.started
      (mkStateData "u1" EmptyString 1700000000000) Scenario.granted_data_array_scope
      _ _ _ _ _ _))))).
    all: try reflexivity. do 4 right. reflexivity.
  - refine (proj1 (proj2 (proj2 (proj2 (render_failure_still_discloses_token
      Scenario.generator
      (answers 200 "OK" "{...}" Scenario.granted_data_opaque_id) Scenario.amb
      Scenario.callback_request Scenario.started
      (mkStateData "u1" EmptyString 1700000000000) Scenario.granted_data_opaque_id
      _ _ _ _ _ _))))).
    all: try reflexivity. do 2 right. left. reflexivity.
Defined.

(** * Further properties of the code *)

(** ** [validateInput] *)

Lemma chars_cons (c : ascii) (s : string) : chars (String c s) = c :: chars s.
Proof. reflexivity. Qed.

Lemma trimStart_sublist (s : string) : chars (JS.trimStart s) `sublist_of` chars s.
Proof.
  induction s as [|c s IH]; [done|]. cbn [JS.trimStart].
  destruct (JS.is_space c); [|done]. rewrite chars_cons. by apply sublist_cons.
Qed.

Lemma trimEnd_sublist (s : string) : chars (JS.trimEnd s) `sublist_of` chars s.
Proof.
  induction s as [|c s IH]; [done|]. cbn [JS.trimEnd].
  destruct (JS.is_empty (JS.trimEnd s) && JS.is_space c).
  - apply sublist_nil_l.
  - rewrite !chars_cons. by apply sublist_skip.
Qed.

Lemma slice0_sublist (n : nat) (s : string) : chars (JS.slice0 n s) `sublist_of` chars s.
Proof.
  revert s. induction n as [|n IH]; intros [|c s]; cbn [JS.slice0];
    try apply sublist_nil_l.
  rewrite !chars_cons. apply sublist_skip, IH.
Qed.

Lemma remove_all_sublist (drop : ascii -> bool) (s : string) :
  chars (JS.remove_all drop s) `sublist_of` chars s.
Proof.
  induction s as [|c s IH]; [done|]. cbn [JS.remove_all]. rewrite chars_cons.
  destruct (drop c); [by apply sublist_cons | rewrite chars_cons; by apply sublist_skip].
Qed.

Lemma slice0_empty (n : nat) : JS.slice0 n EmptyString = EmptyString.
Proof. by destruct n. Qed.

Lemma slice0_length_min (n : nat) (s : string) :
  String.length (JS.slice0 n s) = Nat.min n (String.length s).
Proof.
  revert s. induction n as [|n IH]; intros [|c s]; cbn; try reflexivity.
  by rewrite IH.
Qed.

Lemma slice_sublist (n : Z) (s : string) : chars (JS.slice n s) `sublist_of` chars s.
Proof. unfold JS.slice. destruct (n <? 0); apply slice0_sublist. Qed.

Lemma slice_length (n : Z) (s : string) :
  Z.of_nat (String.length (JS.slice n s))
  = if n <? 0 then Z.max 0 (Z.of_nat (String.length s) + n)
    else Z.min n (Z.of_nat (String.length s)).
Proof.
  unfold JS.slice. destruct (n <? 0) eqn:Hn; rewrite slice0_length_min; lia.
Qed.

Lemma validateInput_max_string (s : string) (n : Z) :
  Server.validateInput_max (JS.Str s) n
  = JS.remove_all Server.unsafe_char (JS.slice n (JS.trim s)).
Proof.
  destruct s; [|reflexivity]. cbn. unfold JS.slice.
  destruct (n <? 0); by rewrite slice0_empty.
Qed.

Lemma validateInput_max_not_string (v : JS.value) (n : Z) :
  JS.is_string v = false -> Server.validateInput_max v n = EmptyString.
Proof. unfold Server.validateInput_max. intros ->. by rewrite orb_true_r. Qed.

(** A negative bound does not bound the length: [slice(0, -1)] keeps all
    but the last code unit. *)
Example validateInput_negative_bound :
  Server.validateInput_max (JS.Str "abc") (-1) = "ab"
  /\ Server.validateInput_max (JS.Str "abc") (-5) = EmptyString
  /\ Server.validateInput_max (JS.Str " a<bc ") 2 = "a".
Proof. repeat split; reflexivity. Qed.

(** X1.  Whatever the value and whatever the integer bound, the result of
    [validateInput(input, maxLength)] holds none of the five characters;
    for a string its code units are code units of the input, in the input's
    order; for anything that is not a string it is empty.  Its length is at
    most [maxLength] when the bound is not negative; under a negative bound
    it is at most the length of the trimmed input less [-maxLength], which
    can exceed the bound. *)
Theorem validateInput_bounded_clean_subsequence (v : JS.value) (maxLength : Z) :
  let out := Server.validateInput_max v maxLength in
  (0 <= maxLength -> Z.of_nat (String.length out) <= maxLength)
  /\ (forall s, v = JS.Str s -> maxLength < 0 ->
        Z.of_nat (String.length out)
        <= Z.max 0 (Z.of_nat (String.length (JS.trim s)) + maxLength))
  /\ Forall (fun c => Server.unsafe_char c = false) (chars out)
  /\ match v with
     | JS.Str s => chars out `sublist_of` chars s
     | _ => out = EmptyString
     end.
Proof.
  intros out. subst out. destruct (JS.is_string v) eqn:Hs.
  - destruct v as [| | | |s|]; try discriminate. rewrite validateInput_max_string.
    pose proof (remove_all_length Server.unsafe_char (JS.slice maxLength (JS.trim s))) as Hr.
    pose proof (slice_length maxLength (JS.trim s)) as Hl.
    split; [|split; [|split]].
    + intros Hpos. destruct (maxLength <? 0) eqn:Hn; lia.
    + intros s' [= <-] Hneg. destruct (maxLength <? 0) eqn:Hn; lia.
    + apply Forall_forall. intros c Hc. apply list_elem_of_In in Hc.
      by apply remove_all_clean in Hc as [Hc _].
    + etrans; [apply remove_all_sublist|]. etrans; [apply slice_sublist|].
      unfold JS.trim. etrans; [apply trimEnd_sublist | apply trimStart_sublist].
  - rewrite validateInput_max_not_string by done.
    split; [cbn; lia|]. split; [by intros s ->|]. split; [constructor|]. by destruct v.
Qed.

Lemma validateInput_bounded_clean_subsequence_witness :
  Z.of_nat (String.length (Server.validateInput_max (JS.Str " a<bc ") 2)) <= 2
  /\ Z.of_nat (String.length (Server.validateInput_max (JS.Str "abc") (-1)))
     <= Z.max 0 (Z.of_nat (String.length (JS.trim "abc")) + -1).
Proof.
  split.
  - refine (proj1 (validateInput_bounded_clean_subsequence (JS.Str " a<bc ") 2) _). lia.
  - refine (proj1 (proj2 (validateInput_bounded_clean_subsequence (JS.Str "abc") (-1)))
              "abc" _ _); [reflexivity | lia].
Defined.

Lemma trimStart_tidy (s : string) :
  match s with String c _ => JS.is_space c = false | EmptyString => True end ->
  JS.trimStart s = s.
Proof. destruct s as [|c s]; [done|]. cbn. by intros ->. Qed.

Lemma trimEnd_tidy (s : string) :
  match last (chars s) with Some c => JS.is_space c = false | None => True end ->
  JS.trimEnd s = s.
Proof.
  induction s as [|c s IH]; [done|]. rewrite chars_cons. cbn [JS.trimEnd].
  destruct s as [|c' s'].
  - cbn. by intros ->.
  - rewrite chars_cons. intros H. rewrite IH by exact H.
    cbn [JS.is_empty andb]. reflexivity.
Qed.

Lemma slice0_short (n : nat) (s : string) :
  (String.length s <= n)%nat -> JS.slice0 n s = s.
Proof.
  revert s. induction n as [|n IH]; intros [|c s]; cbn; try done; try lia.
  intros H. f_equal. apply IH. lia.
Qed.

Lemma remove_all_none (drop : ascii -> bool) (s : string) :
  Forall (fun c => drop c = false) (chars s) -> JS.remove_all drop s = s.
Proof.
  induction s as [|c s IH]; [done|]. rewrite chars_cons. intros H.
  apply Forall_cons in H as [Hc H]. cbn. rewrite Hc. f_equal. by apply IH.
Qed.

(** X2.  A string of at most 100 code units that has no white space at
    either end and none of the five characters comes out of
    [validateInput] unchanged. *)
Theorem validateInput_keeps_tidy_input (s : string) :
  (String.length s <= 100)%nat -> tidy s -> Server.validateInput (JS.Str s) = s.
Proof.
  intros Hlen (Hhead & Hlast & Hclean). rewrite validateInput_string.
  unfold JS.trim. rewrite trimStart_tidy, trimEnd_tidy by assumption.
  rewrite slice0_short by exact Hlen. by apply remove_all_none.
Qed.

Lemma validateInput_keeps_tidy_input_witness :
  Server.validateInput (JS.Str "John Doe") = "John Doe".
Proof.
  apply validateInput_keeps_tidy_input.
  - cbn. lia.
  - repeat split; repeat constructor.
Defined.

(** ** [cleanupStates] *)

Lemma cleanup_loop_run (now_ms : Z) (entries : list (string * StateData)) :
  forall (m : gmap string StateData) con out cleaned,
    NoDup entries.*1 ->
    (forall k d, (k, d) ∈ entries -> m !! k = Some d) ->
    exists m' n,
      Server.cleanup_loop now_ms entries cleaned (mkWorld m con out)
      = (Normal (cleaned + Z.of_nat n), mkWorld m' con out)
      /\ size m = (size m' + n)%nat.
Proof.
  induction entries as [|[s d] rest IH]; intros m con out cleaned Hnd Hin.
  - exists m, 0%nat. cbn. rewrite Z.add_0_r. split; [reflexivity | lia].
  - cbn [Server.cleanup_loop]. rewrite fmap_cons in Hnd. cbn in Hnd.
    apply NoDup_cons in Hnd as [Hs Hnd].
    destruct (now_ms - timestamp d >? Server.tenMinutes).
    + unfold mbind, M_bind, states_delete. cbn.
      destruct (IH (delete s m) con out (cleaned + 1) Hnd) as (m' & n & Hrun & Hsize).
      { intros k d' Hk. rewrite lookup_delete_ne.
        - apply Hin. by right.
        - intros <-. apply Hs. apply list_elem_of_fmap. by exists (s, d'). }
      exists m', (S n). rewrite Hrun.
      replace (cleaned + Z.of_nat (S n)) with (cleaned + 1 + Z.of_nat n) by lia.
      split; [reflexivity|].
      rewrite map_size_delete_Some in Hsize by (exists d; apply Hin; by left).
      assert (size m <> 0%nat).
      { apply map_size_ne_0_lookup. exists s. exists d. apply Hin. by left. }
      lia.
    + apply IH; [exact Hnd|]. intros k d' Hk. apply Hin. by right.
Qed.

Lemma cleanupStates_run (amb : Ambient) (w : World) :
  let m' := filter (fresh_at (now amb)) (pendingStates w) in
  let n := (size (pendingStates w) - size m')%nat in
  Server.cleanupStates amb w
  = (Normal tt,
     mkWorld m' (console w ++ if decide (n = 0%nat) then [] else [cleaned_line n])
       (outbound w)).
Proof.
  intros m' n. destruct w as [m con out]. cbn [pendingStates console outbound] in *.
  unfold Server.cleanupStates. unfold mbind at 1. unfold M_bind at 1.
  cbn [pendingStates now]. unfold mbind at 1. unfold M_bind at 1.
  destruct (cleanup_loop_run (now amb) (map_to_list m) m con out 0) as (m1 & k & Hrun & Hsize).
  { apply NoDup_fst_map_to_list. }
  { intros i d Hi. by apply elem_of_map_to_list. }
  assert (Hm1 : m1 = m').
  { apply map_eq. intros i.
    pose proof (cleanup_loop_lookup (now amb) (map_to_list m) m con out 0 i) as Hl.
    rewrite Hrun in Hl. unfold world_of in Hl. cbn in Hl. rewrite Hl.
    rewrite meets_expired_entries. subst m'. rewrite map_lookup_filter.
    destruct (m !! i) as [d|]; [|done]. cbn.
    case_guard as Hg; unfold fresh_at in Hg; cbn in Hg; cbn.
    - by rewrite Hg.
    - by destruct (expired (now amb) d). }
  rewrite Hrun. subst m1. fold m' in Hsize.
  assert (Hk : k = n) by (subst n; lia). subst k.
  destruct (decide (n = 0%nat)) as [Hn|Hn].
  - rewrite Hn. cbn. by rewrite app_nil_r.
  - destruct (0 + Z.of_nat n >? 0) eqn:Hpos; [|lia].
    unfold console_log, emit, cleaned_line. cbn. do 3 f_equal.
Qed.

(** X3.  [cleanupStates()] never adds an entry, and it writes to the console
    exactly when it removed something: one line giving the number of entries
    removed, which is the size of the store before less its size after; a
    sweep that removes nothing is silent. *)
Theorem cleanupStates_reports_what_it_removed (amb : Ambient) (w : World) :
  let w' := world_of (Server.cleanupStates amb w) in
  let n := (size (pendingStates w) - size (pendingStates w'))%nat in
  pendingStates w' ⊆ pendingStates w
  /\ console w' = (console w ++ if decide (n = 0%nat) then [] else [cleaned_line n])%list.
Proof.
  intros w' n. subst w' n. rewrite cleanupStates_run. unfold world_of.
  cbn [snd pendingStates console]. split; [apply map_filter_subseteq | reflexivity].
Qed.

(** X4.  After a sweep no entry older than ten minutes is left, and a
    further sweep at the same or an earlier clock reading changes neither
    the store nor the console. *)
Theorem cleanupStates_leaves_no_expired_and_is_idempotent (amb amb' : Ambient) (w : World) :
  let w1 := world_of (Server.cleanupStates amb w) in
  let w2 := world_of (Server.cleanupStates amb' w1) in
  now amb' <= now amb ->
  (forall k d, pendingStates w1 !! k = Some d -> now amb - timestamp d <= 600000)
  /\ pendingStates w2 = pendingStates w1
  /\ console w2 = console w1.
Proof.
  intros w1 w2 Hle.
  assert (Hfresh : forall k d, pendingStates w1 !! k = Some d ->
                               now amb - timestamp d <= 600000).
  { intros k d. subst w1. rewrite cleanupStates_run. unfold world_of.
    cbn [snd pendingStates]. intros [_ Hf]%map_lookup_filter_Some.
    unfold fresh_at, expired in Hf. cbn in Hf. change Server.tenMinutes with 600000 in Hf.
    lia. }
  assert (Hid : filter (fresh_at (now amb')) (pendingStates w1) = pendingStates w1).
  { apply map_filter_id. intros k d Hk. apply Hfresh in Hk.
    unfold fresh_at, expired. cbn. change Server.tenMinutes with 600000. lia. }
  split; [exact Hfresh|]. subst w2. rewrite cleanupStates_run. unfold world_of.
  cbn [snd pendingStates console]. rewrite Hid. split; [reflexivity|].
  rewrite Nat.sub_diag. cbn. by rewrite app_nil_r.
Qed.

Lemma cleanupStates_leaves_no_expired_and_is_idempotent_witness :
  let amb := mkAmbient 1000000 EmptyString EmptyString EmptyString in
  let w := mkWorld {[ "old" := mkStateData "a" "b" 399999;
                      "new" := mkStateData "c" "d" 400000 ]} [] [] in
  let w1 := world_of (Server.cleanupStates amb w) in
  pendingStates (world_of (Server.cleanupStates amb w1)) = pendingStates w1.
Proof.
  intros amb w w1.
  refine (proj1 (proj2 (cleanupStates_leaves_no_expired_and_is_idempotent amb amb w _))).
  reflexivity.
Defined.

(** ** What a callback can change *)

Lemma server_callback_effects (g : Server.UserTokenGenerator) (net : Network) (amb : Ambient)
    (req : Server.Request) (w : World) :
  let state := Server.param req "state" in
  let p := Server.token_request (Server.clientId g) (Server.clientSecret g)
             (Server.param req "code") (Server.redirectUri g) in
  let run := Server.auth_callback g net amb req w in
  (exists r, response_of run = Normal r)
  /\ (outbound (world_of run) = outbound w
      \/ outbound (world_of run) = (outbound w ++ [p])%list)
  /\ (pendingStates (world_of run) = pendingStates w
      \/ pendingStates (world_of run) = remove_state state (pendingStates w)).
Proof.
  intros state p run.
  destruct (JS.truthy (Server.param req "error")) eqn:He.
  { destruct (server_provider_error g net amb req w He) as (Hr & Ho & Hs). eauto 6. }
  destruct (JS.truthy (Server.param req "code") && JS.truthy (Server.param req "state"))
    eqn:Hb.
  2:{ destruct (server_missing_parameters g net amb req w He Hb) as (Hr & Ho & Hs). eauto 6. }
  destruct (lookup_state (Server.param req "state") (pendingStates w)) as [sd|] eqn:Hf.
  2:{ destruct (server_invalid_state g net amb req w He Hb Hf) as (Hr & Ho & Hs). eauto 6. }
  destruct (server_accepted g net amb req w sd He Hb Hf) as [Ho Hm].
  fold p run state in Ho, Hm.
  destruct (exchange_result (net p)) as [d|e].
  - destruct (token_valid d); destruct Hm as [Hr Hs]; eauto 6.
  - destruct Hm as [Hr Hs]; eauto 6.
Qed.

Lemma serverless_callback_effects (env : Serverless.Env) (net : Network) (amb : Ambient)
    (params : list (string * string)) (w : World) :
  let state := Serverless.get params "state" in
  let p := Serverless.token_request env (Serverless.get params "code") in
  let run := Serverless.handleAuthCallback env net amb params w in
  (exists r, response_of run = Normal r)
  /\ (outbound (world_of run) = outbound w
      \/ outbound (world_of run) = (outbound w ++ [p])%list)
  /\ (pendingStates (world_of run) = pendingStates w
      \/ pendingStates (world_of run) = remove_state state (pendingStates w)).
Proof.
  intros state p run.
  destruct (JS.truthy (Serverless.get params "error")) eqn:He.
  { subst run. rewrite serverless_provider_error by done. cbn. eauto 6. }
  destruct (JS.truthy (Serverless.get params "code")
            && JS.truthy (Serverless.get params "state")) eqn:Hb.
  2:{ subst run. rewrite serverless_missing_parameters by done. cbn. eauto 6. }
  destruct (lookup_state (Serverless.get params "state") (pendingStates w)) as [sd|] eqn:Hf.
  2:{ subst run. rewrite serverless_invalid_state by done. cbn. eauto 6. }
  destruct (serverless_accepted env net amb params w sd He Hb Hf) as [Ho Hm].
  fold p run state in Ho, Hm.
  destruct (inline_exchange_result (net p)) as [d|e]; destruct Hm as [Hr Hs]; eauto 6.
Qed.

Lemma lookup_remove_state_ne (k : string) (state : JS.value) (m : gmap string StateData) :
  JS.Str k <> state -> remove_state state m !! k = m !! k.
Proof.
  intros Hne. destruct state; cbn; try reflexivity.
  apply lookup_delete_ne. congruence.
Qed.

(** X8.  A request touches no pending authorization but its own.  The
    start of a flow changes the store under the state it mints and nowhere
    else; a callback, whatever its outcome, leaves every entry whose key is
    not the [state] it carries exactly as it was.  Both variants. *)
Theorem other_pending_states_are_untouched (k : string) :
  (forall g amb req w,
     k <> randomHex amb ->
     pendingStates (world_of (Server.auth_start g amb req w)) !! k = pendingStates w !! k)
  /\ (forall env amb params w,
        k <> randomHex amb ->
        pendingStates (world_of (Serverless.handleAuthStart env amb params w)) !! k
        = pendingStates w !! k)
  /\ (forall g net amb req w,
        JS.Str k <> Server.param req "state" ->
        pendingStates (world_of (Server.auth_callback g net amb req w)) !! k
        = pendingStates w !! k)
  /\ (forall env net amb params w,
        JS.Str k <> Serverless.get params "state" ->
        pendingStates (world_of (Serverless.handleAuthCallback env net amb params w)) !! k
        = pendingStates w !! k).
Proof.
  split; [|split; [|split]].
  - intros g amb req w Hne.
    destruct (server_start_run g amb req w) as (_ & Hs & _). rewrite Hs.
    by apply lookup_insert_ne.
  - intros env amb params w Hne.
    destruct (serverless_start_run env amb params w) as (_ & Hs & _). rewrite Hs.
    by apply lookup_insert_ne.
  - intros g net amb req w Hne.
    destruct (server_callback_effects g net amb req w) as (_ & _ & [Hs|Hs]); rewrite Hs;
      [reflexivity | by apply lookup_remove_state_ne].
  - intros env net amb params w Hne.
    destruct (serverless_callback_effects env net amb params w) as (_ & _ & [Hs|Hs]);
      rewrite Hs; [reflexivity | by apply lookup_remove_state_ne].
Qed.

Lemma other_pending_states_are_untouched_witness :
  pendingStates
    (world_of (Server.auth_callback Scenario.generator (Scenario.granted 200) Scenario.amb
                 (Server.mkRequest "/auth/callback?code=abc&state=deadbeef" []
                    {[ "code" := JS.Str "abc"; "state" := JS.Str "deadbeef" ]})
                 Scenario.started))
  !! Scenario.token
  = pendingStates Scenario.started !! Scenario.token.
Proof.
  refine (proj1 (proj2 (proj2 (other_pending_states_are_untouched Scenario.token)))
            Scenario.generator (Scenario.granted 200) Scenario.amb _ Scenario.started _).
  vm_compute. discriminate.
Defined.

(** X9.  No request makes the relay send more than one outbound request.
    A callback sends nothing or exactly one POST, and that POST goes to the
    token endpoint with the callback's [code]; the start of a flow and the
    sweep send nothing.  Both variants. *)
Theorem at_most_one_outbound_post :
  (forall g net amb req w,
     let p := Server.token_request (Server.clientId g) (Server.clientSecret g)
                (Server.param req "code") (Server.redirectUri g) in
     let w' := world_of (Server.auth_callback g net amb req w) in
     (outbound w' = outbound w \/ outbound w' = (outbound w ++ [p])%list)
     /\ post_url p = "https://slack.com/api/oauth.v2.access"
     /\ post_method p = "POST"
     /\ In ("code", JS.to_string (Server.param req "code")) (post_body p))
  /\ (forall env net amb params w,
        let p := Serverless.token_request env (Serverless.get params "code") in
        let w' := world_of (Serverless.handleAuthCallback env net amb params w) in
        (outbound w' = outbound w \/ outbound w' = (outbound w ++ [p])%list)
        /\ post_url p = "https://slack.com/api/oauth.v2.access"
        /\ post_method p = "POST"
        /\ In ("code", JS.to_string (Serverless.get params "code")) (post_body p))
  /\ (forall g amb req w, outbound (world_of (Server.auth_start g amb req w)) = outbound w)
  /\ (forall env amb params w,
        outbound (world_of (Serverless.handleAuthStart env amb params w)) = outbound w)
  /\ (forall amb w, outbound (world_of (Server.cleanupStates amb w)) = outbound w).
Proof.
  split; [|split; [|split; [|split]]].
  - intros g net amb req w p w'. split; [apply server_callback_effects|].
    cbn. auto 10.
  - intros env net amb params w p w'. split; [apply serverless_callback_effects|].
    cbn. auto 10.
  - intros g amb req w. apply server_start_run.
  - intros env amb params w. apply serverless_start_run.
  - intros amb w. by rewrite cleanupStates_run.
Qed.

(** ** Expiry is the sweep's work alone *)

(** X5.  The server's callback does not look at the age of an entry; only
    the sweep removes old entries.  Take a stored state older than ten
    minutes at the clock reading of a sweep.  A callback that carries it
    before the sweep is accepted and the POST leaves; the same callback
    after the sweep gets the invalid-state page and sends nothing. *)
Theorem expired_state_is_refused_only_after_a_sweep
    (g : Server.UserTokenGenerator) (net : Network) (amb amb' : Ambient)
    (req : Server.Request) (w : World) (k : string) (d : StateData) :
  let p := Server.token_request (Server.clientId g) (Server.clientSecret g)
             (Server.param req "code") (Server.redirectUri g) in
  let swept := world_of (Server.cleanupStates amb w) in
  JS.truthy (Server.param req "error") = false ->
  JS.truthy (Server.param req "code") = true ->
  Server.param req "state" = JS.Str k ->
  k <> EmptyString ->
  pendingStates w !! k = Some d ->
  now amb - timestamp d > 600000 ->
  outbound (world_of (Server.auth_callback g net amb' req w)) = (outbound w ++ [p])%list
  /\ response_of (Server.auth_callback g net amb' req swept)
     = Normal (Send 200 (Server.getErrorPage "Invalid or expired state parameter"))
  /\ outbound (world_of (Server.auth_callback g net amb' req swept)) = outbound w.
Proof.
  intros p swept He Hc Hst Hne Hk Hold.
  assert (Hb : JS.truthy (Server.param req "code") && JS.truthy (Server.param req "state")
               = true).
  { rewrite Hc, Hst. cbn. by destruct k. }
  split.
  - assert (Hf : lookup_state (Server.param req "state") (pendingStates w) = Some d)
      by (by rewrite Hst).
    apply (server_accepted g net amb' req w d He Hb Hf).
  - assert (Hf : lookup_state (Server.param req "state") (pendingStates swept) = None).
    { rewrite Hst. subst swept. rewrite cleanupStates_run. unfold world_of.
      cbn [snd pendingStates lookup_state]. apply map_lookup_filter_None. right.
      intros d' Hd'. rewrite Hk in Hd'. injection Hd' as <-.
      unfold fresh_at, expired. cbn. change Server.tenMinutes with 600000.
      intros Hfresh. lia. }
    destruct (server_invalid_state g net amb' req swept He Hb Hf) as (Hr & Ho & _).
    split; [exact Hr|]. rewrite Ho. subst swept. by rewrite cleanupStates_run.
Qed.

Lemma expired_state_is_refused_only_after_a_sweep_witness :
  response_of
    (Server.auth_callback Scenario.generator (Scenario.granted 200) Scenario.amb
       Scenario.callback_request
       (world_of (Server.cleanupStates
                    (mkAmbient 1700000600001 EmptyString EmptyString EmptyString)
                    Scenario.started)))
  = Normal (Send 200 (Server.getErrorPage "Invalid or expired state parameter")).
Proof.
  refine (proj1 (proj2 (expired_state_is_refused_only_after_a_sweep Scenario.generator
    (Scenario.granted 200) (mkAmbient 1700000600001 EmptyString EmptyString EmptyString)
    Scenario.amb Scenario.callback_request Scenario.started Scenario.token
    (mkStateData "u1" EmptyString 1700000000000) _ _ _ _ _ _))).
  all: try reflexivity. discriminate.
Defined.

(** ** From the start of a flow to its callback *)

(** X6.  The state minted by the start of a flow is accepted by the
    callback that brings it back: with a [code] and no [error], the callback
    that follows the start sends exactly one POST, carrying that code.
    Both variants; the serverless start may even have answered with the
    configuration error. *)
Theorem minted_state_is_accepted :
  (forall g net amb amb' req req' w,
     let started := world_of (Server.auth_start g amb req w) in
     let p := Server.token_request (Server.clientId g) (Server.clientSecret g)
                (Server.param req' "code") (Server.redirectUri g) in
     randomHex amb <> EmptyString ->
     JS.truthy (Server.param req' "error") = false ->
     JS.truthy (Server.param req' "code") = true ->
     Server.param req' "state" = JS.Str (randomHex amb) ->
     outbound (world_of (Server.auth_callback g net amb' req' started))
     = (outbound w ++ [p])%list)
  /\
  (forall env net amb amb' params params' w,
     let started := world_of (Serverless.handleAuthStart env amb params w) in
     let p := Serverless.token_request env (Serverless.get params' "code") in
     randomHex amb <> EmptyString ->
     JS.truthy (Serverless.get params' "error") = false ->
     JS.truthy (Serverless.get params' "code") = true ->
     Serverless.get params' "state" = JS.Str (randomHex amb) ->
     outbound (world_of (Serverless.handleAuthCallback env net amb' params' started))
     = (outbound w ++ [p])%list).
Proof.
  split.
  - intros g net amb amb' req req' w started p Hne He Hc Hst.
    destruct (server_start_run g amb req w) as (_ & Hs & Ho). fold started in Hs, Ho.
    assert (Hb : JS.truthy (Server.param req' "code")
                 && JS.truthy (Server.param req' "state") = true).
    { rewrite Hc, Hst. cbn. by destruct (randomHex amb). }
    assert (Hf : lookup_state (Server.param req' "state") (pendingStates started)
                 = Some (mkStateData (Server.validateInput (Server.param req "user_id"))
                           (Server.validateInput (Server.param req "user_name")) (now amb))).
    { rewrite Hst, Hs. cbn [lookup_state]. apply lookup_insert_eq. }
    destruct (server_accepted g net amb' req' started _ He Hb Hf) as [Hout _].
    rewrite Hout, Ho. reflexivity.
  - intros env net amb amb' params params' w started p Hne He Hc Hst.
    destruct (serverless_start_run env amb params w) as (_ & Hs & Ho & _).
    fold started in Hs, Ho.
    assert (Hb : JS.truthy (Serverless.get params' "code")
                 && JS.truthy (Serverless.get params' "state") = true).
    { rewrite Hc, Hst. cbn. by destruct (randomHex amb). }
    assert (Hf : lookup_state (Serverless.get params' "state") (pendingStates started)
                 = Some (mkStateData (as_received params "user_id")
                           (as_received params "user_name") (now amb))).
    { rewrite Hst, Hs. cbn [lookup_state]. apply lookup_insert_eq. }
    destruct (serverless_accepted env net amb' params' started _ He Hb Hf) as [Hout _].
    rewrite Hout, Ho. reflexivity.
Qed.

Lemma minted_state_is_accepted_witness :
  outbound (world_of (Server.auth_callback Scenario.generator Scenario.invalid_code
                        Scenario.amb Scenario.callback_request Scenario.started))
  = [Server.token_request (JS.Str "cid") (JS.Str "secret") (JS.Str "abc")
       (JS.Str "http://localhost:3000/auth/callback")].
Proof.
  refine (proj1 minted_state_is_accepted Scenario.generator Scenario.invalid_code
            Scenario.amb Scenario.amb Scenario.start_request Scenario.callback_request
            Scenario.empty _ _ _ _).
  all: try reflexivity. discriminate.
Defined.

(** X7.  A flow that completes leaves the store as it found it.  When the
    minted state was not yet a key, the start followed by a callback whose
    exchange succeeds (in the server: with valid token data) ends with
    exactly the store there was before the start.  Both variants. *)
Theorem completed_flow_restores_the_store :
  (forall g net amb amb' req req' w d,
     let started := world_of (Server.auth_start g amb req w) in
     let p := Server.token_request (Server.clientId g) (Server.clientSecret g)
                (Server.param req' "code") (Server.redirectUri g) in
     randomHex amb <> EmptyString ->
     pendingStates w !! randomHex amb = None ->
     JS.truthy (Server.param req' "error") = false ->
     JS.truthy (Server.param req' "code") = true ->
     Server.param req' "state" = JS.Str (randomHex amb) ->
     exchange_result (net p) = Normal d ->
     token_valid d = true ->
     pendingStates (world_of (Server.auth_callback g net amb' req' started))
     = pendingStates w)
  /\
  (forall env net amb amb' params params' w d,
     let started := world_of (Serverless.handleAuthStart env amb params w) in
     let p := Serverless.token_request env (Serverless.get params' "code") in
     randomHex amb <> EmptyString ->
     pendingStates w !! randomHex amb = None ->
     JS.truthy (Serverless.get params' "error") = false ->
     JS.truthy (Serverless.get params' "code") = true ->
     Serverless.get params' "state" = JS.Str (randomHex amb) ->
     inline_exchange_result (net p) = Normal d ->
     pendingStates (world_of (Serverless.handleAuthCallback env net amb' params' started))
     = pendingStates w).
Proof.
  split.
  - intros g net amb amb' req req' w d started p Hne Hfresh He Hc Hst Hx Hv.
    destruct (server_start_run g amb req w) as (_ & Hs & _). fold started in Hs.
    assert (Hb : JS.truthy (Server.param req' "code")
                 && JS.truthy (Server.param req' "state") = true).
    { rewrite Hc, Hst. cbn. by destruct (randomHex amb). }
    assert (Hf : lookup_state (Server.param req' "state") (pendingStates started)
                 = Some (mkStateData (Server.validateInput (Server.param req "user_id"))
                           (Server.validateInput (Server.param req "user_name")) (now amb))).
    { rewrite Hst, Hs. cbn [lookup_state]. apply lookup_insert_eq. }
    destruct (server_accepted g net amb' req' started _ He Hb Hf) as [_ Hm].
    fold p in Hm. rewrite Hx, Hv in Hm. destruct Hm as [_ Hm].
    rewrite Hm, Hst, Hs. cbn [remove_state]. by apply delete_insert_id.
  - intros env net amb amb' params params' w d started p Hne Hfresh He Hc Hst Hx.
    destruct (serverless_start_run env amb params w) as (_ & Hs & _). fold started in Hs.
    assert (Hb : JS.truthy (Serverless.get params' "code")
                 && JS.truthy (Serverless.get params' "state") = true).
    { rewrite Hc, Hst. cbn. by destruct (randomHex amb). }
    assert (Hf : lookup_state (Serverless.get params' "state") (pendingStates started)
                 = Some (mkStateData (as_received params "user_id")
                           (as_received params "user_name") (now amb))).
    { rewrite Hst, Hs. cbn [lookup_state]. apply lookup_insert_eq. }
    destruct (serverless_accepted env net amb' params' started _ He Hb Hf) as [_ Hm].
    fold p in Hm. rewrite Hx in Hm. destruct Hm as [_ Hm].
    rewrite Hm, Hst, Hs. cbn [remove_state]. by apply delete_insert_id.
Qed.

Lemma completed_flow_restores_the_store_witness :
  pendingStates (world_of (Serverless.handleAuthCallback Scenario.env (Scenario.granted 200)
                             Scenario.amb Scenario.callback_params Scenario.started'))
  = pendingStates Scenario.empty.
Proof.
  refine (proj2 completed_flow_restores_the_store Scenario.env (Scenario.granted 200)
            Scenario.amb Scenario.amb Scenario.start_params Scenario.callback_params
            Scenario.empty Scenario.granted_data _ _ _ _ _ _).
  all: try reflexivity. discriminate.
Defined.

(** ** The client secret *)

Ltac secret_cbn :=
  cbn -[String.append Server.getErrorPage Server.styled_page Server.fallback_page
        Server.getSuccessPageWithToken
        Serverless.successHtml Serverless.exchange_failed_page Slack.to_string Slack.or].

Lemma getSuccessPageWithToken_frame (amb : Ambient) (d : Slack.TokenData) (sd : StateData) :
  exists c lines, forall w,
    Server.getSuccessPageWithToken amb d sd w
    = (c, mkWorld (pendingStates w) (console w ++ lines) (outbound w)).
Proof.
  unfold Server.getSuccessPageWithToken, Server.replace_commas.
  unfold_monad. console_cbn.
  split_conversions; do 2 eexists; intros w; rewrite <- ?app_assoc; reflexivity.
Qed.

(** X10.  The client secret goes to the provider and nowhere else.  With
    the provider's answer fixed, two configurations that differ in the
    secret alone give the same response, the same store and the same console
    lines; the server, which prints whether a secret is set, needs both
    secrets set.  Both variants. *)
Theorem client_secret_is_neither_logged_nor_shown :
  (forall g s1 s2 o amb req w,
     JS.truthy s1 = true -> JS.truthy s2 = true ->
     visible (Server.auth_callback (with_secret s1 g) (fun _ => o) amb req w)
     = visible (Server.auth_callback (with_secret s2 g) (fun _ => o) amb req w))
  /\ (forall g s1 s2 amb req w,
        Server.auth_start (with_secret s1 g) amb req w
        = Server.auth_start (with_secret s2 g) amb req w)
  /\ (forall env s1 s2 o amb params w,
        visible (Serverless.handleAuthCallback (with_env_secret s1 env) (fun _ => o)
                   amb params w)
        = visible (Serverless.handleAuthCallback (with_env_secret s2 env) (fun _ => o)
                     amb params w))
  /\ (forall env s1 s2 amb params w,
        Serverless.handleAuthStart (with_env_secret s1 env) amb params w
        = Serverless.handleAuthStart (with_env_secret s2 env) amb params w).
Proof.
  split; [|split; [|split]].
  - intros g s1 s2 o amb req w H1 H2.
    unfold visible, Server.auth_callback, Server.auth_callback_handler.
    unfold_monad. secret_cbn.
    destruct (JS.truthy (Server.param req "error")); [reflexivity|]. secret_cbn.
    destruct (negb _ || negb _); [reflexivity|]. secret_cbn.
    destruct (lookup_state _ _) as [sd|]; [|reflexivity].
    unfold Server.exchange_and_show, Server.exchangeCodeForToken, Server.present.
    unfold_monad. secret_cbn. rewrite H1, H2.
    destruct o as [e|r]; secret_cbn; [reflexivity|].
    destruct (Slack.response_ok r); secret_cbn; [|reflexivity].
    unfold Server.read_json.
    destruct (Slack.json r) as [e| |d]; unfold_monad; secret_cbn; try reflexivity.
    destruct (Slack.truthy (Slack.ok d)); secret_cbn.
    2:{ destruct (Slack.to_string (Slack.error d)); reflexivity. }
    destruct (bool_decide (is_Some (Slack.authed_user d))); secret_cbn; [|reflexivity].
    destruct (Slack.truthy (Slack.authed Slack.access_token d)); secret_cbn; [|reflexivity].
    destruct (getSuccessPageWithToken_frame amb d sd) as (c & lines & Hframe).
    rewrite !Hframe. secret_cbn.
    destruct c as [page|e]; secret_cbn; [|reflexivity].
    split_conversions; reflexivity.
  - reflexivity.
  - intros env s1 s2 o amb params w. unfold visible, Serverless.handleAuthCallback.
    destruct (JS.truthy (Serverless.get params "error")); [reflexivity|].
    destruct (negb _ || negb _); [reflexivity|].
    unfold_monad. secret_cbn.
    destruct (lookup_state _ _) as [sd|]; [|reflexivity].
    destruct o as [e|r]; secret_cbn; [reflexivity|].
    unfold Serverless.read_json.
    destruct (Slack.json r) as [e| |d]; unfold_monad; secret_cbn; try reflexivity.
    destruct (Slack.truthy (Slack.ok d)); secret_cbn.
    2:{ destruct (Slack.to_string _); reflexivity. }
    unfold Serverless.replace_commas.
    split_conversions; reflexivity.
  - reflexivity.
Qed.

Lemma client_secret_is_neither_logged_nor_shown_witness :
  visible (Server.auth_callback (with_secret (JS.Str "secret") Scenario.generator)
             (fun _ => Scenario.granted 200 (mkPost EmptyString EmptyString EmptyString []))
             Scenario.amb Scenario.callback_request Scenario.started)
  = visible (Server.auth_callback (with_secret (JS.Str "another") Scenario.generator)
               (fun _ => Scenario.granted 200 (mkPost EmptyString EmptyString EmptyString []))
               Scenario.amb Scenario.callback_request Scenario.started).
Proof.
  refine (proj1 client_secret_is_neither_logged_nor_shown Scenario.generator
            (JS.Str "secret") (JS.Str "another") _ Scenario.amb Scenario.callback_request
            Scenario.started _ _).
  all: reflexivity.
Defined.

(** ** The serverless router *)

Lemma handler_route (env : Serverless.Env) (net : Network) (amb : Ambient)
    (req : Serverless.Request) (w : World) :
  let path := Serverless.pathname req in
  let logged := mkWorld (pendingStates w)
                  (console w ++ [(LOG, [AStr "Request:"; AStr (Serverless.method req);
                                        AStr path])])
                  (outbound w) in
  Serverless.handler env net amb req w
  = if String.eqb (Serverless.method req) "OPTIONS" then (Normal (End 200), w)
    else if String.eqb path "/" || String.eqb path "/api" || String.eqb path "/api/"
    then Serverless.handleHomePage logged
    else if String.eqb path "/auth/start" || String.eqb path "/api/auth/start"
    then Serverless.handleAuthStart env amb (Serverless.searchParams req) logged
    else if String.eqb path "/auth/callback" || String.eqb path "/api/auth/callback"
    then Serverless.handleAuthCallback env net amb (Serverless.searchParams req) logged
    else if String.eqb path "/health" || String.eqb path "/api/health"
    then (Normal (SendJson 200 [("status", "ok"); ("timestamp", isoString amb);
                                ("environment", "vercel")]), logged)
    else (Normal (SendJson 404 [("error", "Not found"); ("path", path)]), logged).
Proof.
  intros path logged. subst path logged. unfold Serverless.handler.
  cbn [Serverless.incoming_method Serverless.new_URL].
  destruct (String.eqb (Serverless.method req) "OPTIONS"); [reflexivity|].
  unfold mbind, M_bind, mret, M_ret, console_log, emit.
  repeat (match goal with |- context [if ?b then _ else _] => destruct b end;
          try reflexivity).
Qed.

Lemma handler_unparsed (env : Serverless.Env) (net : Network) (amb : Ambient)
    (meth : string) (w : World) :
  Serverless.handler env net amb (Serverless.Unparsed meth) w
  = if String.eqb meth "OPTIONS" then (Normal (End 200), w)
    else (Throw Serverless.invalid_url, w).
Proof.
  unfold Serverless.handler. cbn [Serverless.incoming_method Serverless.new_URL].
  by destruct (String.eqb meth "OPTIONS").
Qed.

Lemma serverless_callback_sends (env : Serverless.Env) (net : Network) (amb : Ambient)
    (params : list (string * string)) (w : World) :
  exists status body,
    response_of (Serverless.handleAuthCallback env net amb params w)
    = Normal (Send status body).
Proof.
  destruct (JS.truthy (Serverless.get params "error")) eqn:He.
  { rewrite serverless_provider_error by done. cbn. eauto. }
  destruct (JS.truthy (Serverless.get params "code")
            && JS.truthy (Serverless.get params "state")) eqn:Hb.
  2:{ rewrite serverless_missing_parameters by done. cbn. eauto. }
  destruct (lookup_state (Serverless.get params "state") (pendingStates w)) as [sd|] eqn:Hf.
  2:{ rewrite serverless_invalid_state by done. cbn. eauto. }
  destruct (serverless_accepted env net amb params w sd He Hb Hf) as [_ Hm].
  destruct (inline_exchange_result _) as [d|e]; destruct Hm as [-> _]; [|eauto].
  unfold inline_success. destruct (inline_texts d sd) as [[[token name] team]|]; [|eauto].
  destruct (Slack.or _ _) as [[| | | |s|]|]; eauto.
Qed.

(** X11.  No request to the server goes unanswered because of an
    exception: whatever the request and whatever the provider does with the
    POST (it may reject it, answer with any status, with a body that does
    not parse, with [null] or with fields that have no string conversion),
    the callback ends with a response sent, a page with status 200 or the
    fixed text with status 500, and so do the start, home, health and info
    routes.  The serverless handler answers every request whose URL parses,
    and every [OPTIONS] request.  On any other request whose URL does not
    parse, [new URL] throws outside any [try]: the handler throws, nothing
    is sent, and nothing is written or stored. *)
Theorem every_request_is_answered :
  (forall env net amb (req : Serverless.Request) w,
     exists r, response_of (Serverless.handler env net amb req w) = Normal r
               /\ r <> NoResponse)
  /\ (forall env net amb meth w,
        Serverless.handler env net amb (Serverless.Unparsed meth) w
        = if String.eqb meth "OPTIONS" then (Normal (End 200), w)
          else (Throw Serverless.invalid_url, w))
  /\ (forall g net amb req w,
        exists r, response_of (Server.auth_callback g net amb req w) = Normal r
                  /\ ((exists page, r = Send 200 page) \/ r = Send 500 page_error_text))
  /\ (forall g amb req w,
        exists url, response_of (Server.auth_start g amb req w) = Normal (Redirect 302 url))
  /\ (forall amb uptime w,
        (exists body, response_of (Server.home w) = Normal (Send 200 body))
        /\ (exists fields, response_of (Server.health amb uptime w)
                           = Normal (SendJson 200 fields))
        /\ (exists fields, response_of (Server.info w) = Normal (SendJson 200 fields))).
Proof.
  split; [|split; [|split; [|split]]].
  - intros env net amb req w. rewrite handler_route.
    destruct (String.eqb _ _); [by eexists|].
    destruct (_ || _); [by eexists|].
    destruct (_ || _).
    { destruct (serverless_start_run env amb (Serverless.searchParams req)
                  (mkWorld (pendingStates w)
                     (console w ++ [(LOG, [AStr "Request:"; AStr (Serverless.method req);
                                           AStr (Serverless.pathname req)])])
                     (outbound w))) as (-> & _).
      eexists. split; [reflexivity|]. by destruct (_ && _). }
    destruct (_ || _).
    { match goal with
      | |- context [Serverless.handleAuthCallback ?e ?n ?a ?q ?W] =>
          destruct (serverless_callback_sends e n a q W) as (status & body & ->)
      end. by eexists. }
    destruct (_ || _); by eexists.
  - apply handler_unparsed.
  - apply server_callback_response.
  - intros g amb req w. eexists. apply server_start_run.
  - intros amb uptime w. repeat split; by eexists.
Qed.

Ltac case_eqb s lit Heq :=
  destruct (String.eqb s lit) eqn:Heq; [apply String.eqb_eq in Heq|].

Ltac route_solve :=
  cbn [String.eqb Ascii.eqb Bool.eqb orb];
  try (match goal with
       | |- context [Serverless.handleAuthStart ?e ?a ?q ?W] =>
           destruct (serverless_start_run e a q W) as (_ & _ & -> & _)
       end);
  (split; [|split]);
  [ try done | try done | intros _ Hnot; exfalso; apply Hnot; cbn; tauto ].

Lemma serverless_callback_console_frame (env : Serverless.Env) (net : Network)
    (amb : Ambient) (params : list (string * string)) (m : gmap string StateData)
    (con1 con2 : list line) (out : list Post) :
  let r1 := Serverless.handleAuthCallback env net amb params (mkWorld m con1 out) in
  let r2 := Serverless.handleAuthCallback env net amb params (mkWorld m con2 out) in
  response_of r1 = response_of r2
  /\ pendingStates (world_of r1) = pendingStates (world_of r2)
  /\ outbound (world_of r1) = outbound (world_of r2).
Proof.
  intros r1 r2. subst r1 r2.
  destruct (JS.truthy (Serverless.get params "error")) eqn:He.
  { by rewrite !serverless_provider_error. }
  destruct (JS.truthy (Serverless.get params "code")
            && JS.truthy (Serverless.get params "state")) eqn:Hb.
  2:{ by rewrite !serverless_missing_parameters. }
  destruct (lookup_state (Serverless.get params "state") m) as [sd|] eqn:Hf.
  2:{ by rewrite !serverless_invalid_state. }
  destruct (serverless_accepted env net amb params (mkWorld m con1 out) sd He Hb Hf)
    as [Ho1 Hm1].
  destruct (serverless_accepted env net amb params (mkWorld m con2 out) sd He Hb Hf)
    as [Ho2 Hm2].
  rewrite Ho1, Ho2. split; [|split; [|reflexivity]];
    destruct (inline_exchange_result _) as [d|e];
    destruct Hm1 as [Hr1 Hs1]; destruct Hm2 as [Hr2 Hs2];
    cbn [pendingStates] in Hs1, Hs2; congruence.
Qed.

(** X12.  The serverless router.  An [OPTIONS] request is answered 200 at
    once, on any path, with no line written and nothing changed.  Each of
    [/auth/start], [/auth/callback] and [/health] behaves the same with and
    without the [/api] prefix: same response, same store, same outbound
    requests.  Only the callback route sends, only the start and callback
    routes change the store, and a path that is no route is answered 404. *)
Theorem serverless_routing (env : Serverless.Env) (net : Network) (amb : Ambient)
    (w : World) :
  (forall path params,
     Serverless.handler env net amb (Serverless.mkRequest "OPTIONS" path params) w
     = (Normal (End 200), w))
  /\ (forall meth params route,
        In route ["/auth/start"; "/auth/callback"; "/health"] ->
        let plain := Serverless.handler env net amb
                       (Serverless.mkRequest meth route params) w in
        let prefixed := Serverless.handler env net amb
                          (Serverless.mkRequest meth ("/api" ++ route) params) w in
        response_of prefixed = response_of plain
        /\ pendingStates (world_of prefixed) = pendingStates (world_of plain)
        /\ outbound (world_of prefixed) = outbound (world_of plain))
  /\ (forall req : Serverless.Request,
        let run := Serverless.handler env net amb req w in
        let path := Serverless.pathname req in
        (path <> "/auth/callback" -> path <> "/api/auth/callback" ->
         outbound (world_of run) = outbound w)
        /\ (path <> "/auth/callback" -> path <> "/api/auth/callback" ->
            path <> "/auth/start" -> path <> "/api/auth/start" ->
            pendingStates (world_of run) = pendingStates w)
        /\ (Serverless.method req <> "OPTIONS" ->
            ~ In path ["/"; "/api"; "/api/"; "/auth/start"; "/api/auth/start";
                       "/auth/callback"; "/api/auth/callback"; "/health"; "/api/health"] ->
            response_of run = Normal (SendJson 404 [("error", "Not found"); ("path", path)]))).
Proof.
  split; [|split].
  - intros path params. reflexivity.
  - intros meth params route Hin plain prefixed. subst plain prefixed.
    rewrite !handler_route.
    cbn [Serverless.method Serverless.pathname Serverless.searchParams].
    destruct (String.eqb meth "OPTIONS"); [done|].
    destruct Hin as [<-|[<-|[<-|[]]]].
    + change ("/api" ++ "/auth/start") with "/api/auth/start". cbn [String.eqb Ascii.eqb Bool.eqb orb].
      match goal with
      | |- context [Serverless.handleAuthStart ?e ?a ?q ?W] =>
          destruct (serverless_start_run e a q W) as (Hr & Hs & Ho & _); rewrite Hr, Hs, Ho
      end.
      match goal with
      | |- context [Serverless.handleAuthStart ?e ?a ?q ?W] =>
          destruct (serverless_start_run e a q W) as (Hr' & Hs' & Ho' & _);
          rewrite Hr', Hs', Ho'
      end.
      done.
    + change ("/api" ++ "/auth/callback") with "/api/auth/callback".
      cbn [String.eqb Ascii.eqb Bool.eqb orb].
      apply serverless_callback_console_frame.
    + change ("/api" ++ "/health") with "/api/health".
      cbn [String.eqb Ascii.eqb Bool.eqb orb]. done.
  - intros [meth path params] run path'. subst run path'. rewrite handler_route.
    cbn [Serverless.method Serverless.pathname Serverless.searchParams].
    destruct (String.eqb meth "OPTIONS") eqn:Hm.
    { split; [done|]. split; [done|]. intros Hne. by apply String.eqb_eq in Hm. }
    case_eqb path "/" H0; [subst path; route_solve|].
    case_eqb path "/api" H1; [subst path; route_solve|].
    case_eqb path "/api/" H2; [subst path; route_solve|].
    case_eqb path "/auth/start" H3; [subst path; route_solve|].
    case_eqb path "/api/auth/start" H4; [subst path; route_solve|].
    case_eqb path "/auth/callback" H5; [subst path; route_solve|].
    case_eqb path "/api/auth/callback" H6; [subst path; route_solve|].
    case_eqb path "/health" H7; [subst path; route_solve|].
    case_eqb path "/api/health" H8; [subst path; route_solve|].
    cbn [orb]. repeat split; reflexivity.
Qed.

Lemma serverless_routing_witness :
  response_of (Serverless.handler Scenario.env Scenario.invalid_code Scenario.amb
                 (Serverless.mkRequest "GET" "/api/auth/callback" Scenario.callback_params)
                 Scenario.started')
  = response_of (Serverless.handler Scenario.env Scenario.invalid_code Scenario.amb
                   (Serverless.mkRequest "GET" "/auth/callback" Scenario.callback_params)
                   Scenario.started').
Proof.
  refine (proj1 (proj1 (proj2 (serverless_routing Scenario.env Scenario.invalid_code
    Scenario.amb Scenario.started')) "GET" Scenario.callback_params "/auth/callback" _)).
  cbn. tauto.
Defined.

(** ** A successful exchange that cannot be shown *)

(** X13.  The serverless handler has no fallback page.  When the exchange
    succeeds and the scope in the answer is not a string, [scopes.replace]
    throws inside the same [try] as the exchange, after the state has been
    deleted: the answer is the 500 exchange-failure page with the message of
    the type error, the console gets the error, and the state is gone.  The
    message is that of [scopes.replace]; it is that of the string conversion
    when the token, the user name or the team name has no text, for the
    template reaches them first. *)
Theorem serverless_render_failure_is_reported_as_exchange_failure
    (env : Serverless.Env) (net : Network) (amb : Ambient)
    (params : list (string * string)) (w : World) (sd : StateData) (d : Slack.TokenData) :
  let code := Serverless.get params "code" in
  let state := Serverless.get params "state" in
  let run := Serverless.handleAuthCallback env net amb params w in
  JS.truthy (Serverless.get params "error") = false ->
  JS.truthy code && JS.truthy state = true ->
  lookup_state state (pendingStates w) = Some sd ->
  inline_exchange_result (net (Serverless.token_request env code)) = Normal d ->
  Slack.is_string (Slack.or (Slack.authed Slack.scope d) (JS.Str "No scopes")) = false ->
  response_of run
  = Normal (Send 500 (Serverless.exchange_failed_page
                        match inline_texts d sd with
                        | Some _ => "scopes.replace is not a function"
                        | None => "Cannot convert object to primitive value"
                        end))
  /\ lookup_state state (pendingStates (world_of run)) = None
  /\ forall net' amb',
       Serverless.handleAuthCallback env net' amb' params (world_of run)
       = (Normal (Send 400 Serverless.invalid_state_page), world_of run).
Proof.
  intros code state run He Hb Hf Hx Hs.
  destruct (serverless_success_removes_state env net amb params w sd He Hb Hf d Hx)
    as (Hr & _ & Hst & Hnext).
  fold run state in Hr, Hst, Hnext. split; [|split; [|exact Hnext]].
  - rewrite Hr. unfold inline_success.
    destruct (inline_texts d sd) as [[[token name] team]|]; [|reflexivity].
    destruct (Slack.or (Slack.authed Slack.scope d) _) as [[| | | |s|]|]; try reflexivity.
    discriminate.
  - rewrite Hst. apply lookup_remove_state.
Qed.

Lemma serverless_render_failure_is_reported_as_exchange_failure_witness :
  response_of (Serverless.handleAuthCallback Scenario.env
                 (answers 200 "OK" "{...}" Scenario.granted_data_array_scope) Scenario.amb
                 Scenario.callback_params Scenario.started')
  = Normal (Send 500 (Serverless.exchange_failed_page "scopes.replace is not a function")).
Proof.
  refine (proj1 (serverless_render_failure_is_reported_as_exchange_failure Scenario.env
    (answers 200 "OK" "{...}" Scenario.granted_data_array_scope) Scenario.amb
    Scenario.callback_params Scenario.started'
    (mkStateData "u1" EmptyString 1700000000000) Scenario.granted_data_array_scope
    _ _ _ _ _)).
  all: reflexivity.
Defined.

(** X14.  An answer with [ok] set and no access token.  The server checks
    the token data: it answers with the error page [Invalid token data
    received from Slack] and keeps the state, so the callback can be sent
    again.  The serverless handler does not check: it deletes the state and
    answers 200 with a page that shows [No token generated] in the place of
    the token (when the scope is a string; and unless the user name or the
    team name has no text, which gives the 500 failure page). *)
Theorem answer_without_token :
  (forall g net amb req w sd d,
     let code := Server.param req "code" in
     let state := Server.param req "state" in
     let p := Server.token_request (Server.clientId g) (Server.clientSecret g) code
                (Server.redirectUri g) in
     let run := Server.auth_callback g net amb req w in
     JS.truthy (Server.param req "error") = false ->
     JS.truthy code && JS.truthy state = true ->
     lookup_state state (pendingStates w) = Some sd ->
     exchange_result (net p) = Normal d ->
     Slack.truthy (Slack.authed Slack.access_token d) = false ->
     response_of run
     = Normal (Send 200 (Server.getErrorPage
                           "Token exchange failed: Invalid token data received from Slack"))
     /\ pendingStates (world_of run) = pendingStates w)
  /\
  (forall env net amb params w sd d s,
     let code := Serverless.get params "code" in
     let state := Serverless.get params "state" in
     let run := Serverless.handleAuthCallback env net amb params w in
     JS.truthy (Serverless.get params "error") = false ->
     JS.truthy code && JS.truthy state = true ->
     lookup_state state (pendingStates w) = Some sd ->
     inline_exchange_result (net (Serverless.token_request env code)) = Normal d ->
     Slack.truthy (Slack.authed Slack.access_token d) = false ->
     Slack.or (Slack.authed Slack.scope d) (JS.Str "No scopes") = Slack.Val (JS.Str s) ->
     match inline_texts d sd with
     | Some _ => exists page, response_of run = Normal (Send 200 page)
                              /\ JS.occurs_in "No token generated" page
     | None =>
         response_of run
         = Normal (Send 500 (Serverless.exchange_failed_page
                               "Cannot convert object to primitive value"))
     end
     /\ lookup_state state (pendingStates (world_of run)) = None).
Proof.
  split.
  - intros g net amb req w sd d code state p run He Hb Hf Hx Ht.
    destruct (server_accepted g net amb req w sd He Hb Hf) as [_ Hm].
    fold code p run in Hm. rewrite Hx in Hm.
    assert (Hv : token_valid d = false) by (unfold token_valid; rewrite Ht; apply andb_false_r).
    by rewrite Hv in Hm.
  - intros env net amb params w sd d s code state run He Hb Hf Hx Ht Hs.
    destruct (serverless_accepted env net amb params w sd He Hb Hf) as [_ Hm].
    fold code run in Hm. rewrite Hx in Hm. destruct Hm as [Hr Hst]. split.
    + assert (Htok : Slack.or (Slack.authed Slack.access_token d)
                         (Slack.Val (JS.Str "No token generated"))
                       = Slack.Val (JS.Str "No token generated"))
        by (unfold Slack.or; by rewrite Ht).
      unfold inline_success in Hr. rewrite Hs in Hr. unfold inline_texts in *.
      rewrite Htok in *. cbn [Slack.to_string] in *.
      destruct (Slack.to_string (Slack.or (Slack.authed Slack.name d) _)) as [n|];
        [|exact Hr].
      destruct (Slack.to_string (Slack.or (Slack.team_of d) _)) as [tm|]; [|exact Hr].
      cbn in Hr |- *. eexists. split; [exact Hr|]. apply successHtml_shows_token.
    + fold state in Hst. rewrite Hst. apply lookup_remove_state.
Qed.

Lemma answer_without_token_witness :
  let no_token : Network :=
    answers 200 "OK" "{...}" (Slack.mkTokenData (JS.Bool true) JS.Undefined None None) in
  response_of (Server.auth_callback Scenario.generator no_token Scenario.amb
                 Scenario.callback_request Scenario.started)
  = Normal (Send 200 (Server.getErrorPage
                        "Token exchange failed: Invalid token data received from Slack")).
Proof.
  intros no_token.
  refine (proj1 (proj1 answer_without_token Scenario.generator no_token Scenario.amb
    Scenario.callback_request Scenario.started (mkStateData "u1" EmptyString 1700000000000)
    (Slack.mkTokenData (JS.Bool true) JS.Undefined None None) _ _ _ _ _)).
  all: reflexivity.
Defined.
